(** * netmaker_management: reconciliation of Netmaker networks and
      external clients

    A shallow embedding of [library/netmaker_management.py] and the
    properties of its transport client, equality evaluators, gateway
    resolver and reconcilers.

    Python values are the values [json] decoding and the Ansible argument
    parser produce: [None], booleans, integers, floats, strings, lists and
    dictionaries with string keys.  A float is given by the number it
    stands for, so that it compares with integers as Python compares them.
    A string is a sequence of one-byte characters.  A dictionary is an
    association list in insertion order with pairwise distinct keys, which
    is what a Python [dict] is. *)

From Stdlib Require Import List String Ascii ZArith Bool Lia.
Import ListNotations.
Local Open Scope string_scope.
Local Open Scope Z_scope.

(** ** Python values *)

#[local] Set Warnings "-register-all".

(** A float as [json] decodes it: the fraction [num / den] it stands for,
    an infinity, or not a number. *)
Inductive pyfloat : Type :=
| Finite (num : Z) (den : positive)
| Infinite (negative : bool)
| NaN.

Inductive pyval : Type :=
| PyNone
| PyBool (b : bool)
| PyInt (n : Z)
| PyStr (s : string)
| PyList (l : list pyval)
| PyDict (d : list (string * pyval))
| PyFloat (x : pyfloat).

Abbreviation dict := (list (string * pyval)).

(** Errors the interpreter, [requests] or Ansible raise by themselves; the
    text [str] gives them is theirs, not the module's. *)
Inductive fault : Type :=
| NotIterable (v : pyval)                  (* TypeError: iteration or [in] *)
| NoAttribute (v : pyval) (attr : string)  (* AttributeError *)
| NotSubscriptable (v : pyval)             (* TypeError: v[key] *)
| KeyMissing (key : string)                (* KeyError *)
| Unhashable (v : pyval)                   (* TypeError: set(...) *)
| HTTPError (status : Z) (url : string)    (* raise_for_status *)
| JSONDecodeError                          (* response.json() *)
| MissingOneOf (names : list string)       (* required_one_of *)
| MissingIf (names : list string)          (* required_if *)
| OtherError (name : string).              (* a class outside [requests] *)

Inductive exn : Type :=
| Exception (msg : string)   (* [raise Exception(msg)] in the module *)
| Fault (f : fault).

Inductive result (A : Type) : Type :=
| Ok (a : A)
| Raise (e : exn).
Arguments Ok {A} a.
Arguments Raise {A} e.

Definition rbind {A B} (r : result A) (k : A -> result B) : result B :=
  match r with
  | Ok a => k a
  | Raise e => Raise e
  end.

Declare Scope result_scope.
Delimit Scope result_scope with result.
Notation "x <- e ;; k" := (rbind e (fun x => k))
  (at level 61, e at next level, right associativity) : result_scope.

(** ** Dictionaries *)

Fixpoint dict_get (d : dict) (k : string) : option pyval :=
  match d with
  | [] => None
  | (k', v) :: rest => if String.eqb k' k then Some v else dict_get rest k
  end.

Definition dict_mem (k : string) (d : dict) : bool :=
  match dict_get d k with Some _ => true | None => false end.

(** [d[k] = v]: the binding is replaced in place, a new key goes last. *)
Fixpoint dict_set (d : dict) (k : string) (v : pyval) : dict :=
  match d with
  | [] => [(k, v)]
  | (k', v') :: rest =>
      if String.eqb k' k then (k, v) :: rest else (k', v') :: dict_set rest k v
  end.

(** The dictionary without the key [k]. *)
Fixpoint dict_del (d : dict) (k : string) : dict :=
  match d with
  | [] => []
  | (k', v') :: rest =>
      if String.eqb k' k then dict_del rest k else (k', v') :: dict_del rest k
  end.

(** [base.update(extra)] *)
Definition dict_update (base extra : dict) : dict :=
  fold_left (fun acc kv => dict_set acc (fst kv) (snd kv)) extra base.

(** ** Operators of the language *)

(** [x == y] on floats: the numbers are compared, and not a number equals
    nothing. *)
Definition float_eq (x y : pyfloat) : bool :=
  match x, y with
  | Finite a b, Finite c d => a * Z.pos d =? c * Z.pos b
  | Infinite s, Infinite t => Bool.eqb s t
  | _, _ => false
  end.

(** [x == n] for a float and an integer, compared exactly. *)
Definition float_eq_int (x : pyfloat) (n : Z) : bool :=
  match x with
  | Finite a b => a =? n * Z.pos b
  | _ => false
  end.

Definition py_truthy (v : pyval) : bool :=
  match v with
  | PyNone => false
  | PyBool b => b
  | PyInt n => negb (n =? 0)
  | PyStr s => negb (String.eqb s "")
  | PyList l => match l with [] => false | _ => true end
  | PyDict d => match d with [] => false | _ => true end
  | PyFloat x => match x with Finite a _ => negb (a =? 0) | _ => true end
  end.

Definition is_none (v : pyval) : bool :=
  match v with PyNone => true | _ => false end.

(** [a == b]; a bool is an int, so [True == 1], and a float equals the
    integer of the same value, so [1.0 == 1]. *)
Fixpoint py_eq (a b : pyval) {struct a} : bool :=
  match a, b with
  | PyNone, PyNone => true
  | PyBool x, PyBool y => Bool.eqb x y
  | PyBool x, PyInt n => Z.b2z x =? n
  | PyInt n, PyBool x => n =? Z.b2z x
  | PyInt m, PyInt n => m =? n
  | PyFloat x, PyFloat y => float_eq x y
  | PyFloat x, PyInt n => float_eq_int x n
  | PyInt n, PyFloat x => float_eq_int x n
  | PyFloat x, PyBool b => float_eq_int x (Z.b2z b)
  | PyBool b, PyFloat x => float_eq_int x (Z.b2z b)
  | PyStr s, PyStr t => String.eqb s t
  | PyList l1, PyList l2 =>
      (fix go (l1 l2 : list pyval) {struct l1} : bool :=
         match l1, l2 with
         | [], [] => true
         | x :: xs, y :: ys => py_eq x y && go xs ys
         | _, _ => false
         end) l1 l2
  | PyDict d1, PyDict d2 =>
      (Nat.eqb (List.length d1) (List.length d2)) &&
      (fix go (d : dict) {struct d} : bool :=
         match d with
         | [] => true
         | (k, v) :: rest =>
             match dict_get d2 k with
             | Some w => py_eq v w
             | None => false
             end && go rest
         end) d1
  | _, _ => false
  end.

(** [x in [e1, ..., en]] for a list display. *)
Definition py_in (x : pyval) (l : list pyval) : bool :=
  existsb (fun e => py_eq e x) l.

Fixpoint contains (needle hay : string) : bool :=
  if String.prefix needle hay then true
  else match hay with
       | EmptyString => false
       | String _ rest => contains needle rest
       end.

(** [key in container] for a string key. *)
Definition py_contains (container : pyval) (key : string) : result bool :=
  match container with
  | PyDict d => Ok (dict_mem key d)
  | PyList l => Ok (py_in (PyStr key) l)
  | PyStr s => Ok (contains key s)
  | _ => Raise (Fault (NotIterable container))
  end.

(** [obj.get(key, default)] *)
Definition py_get (obj : pyval) (key : string) (default : pyval)
  : result pyval :=
  match obj with
  | PyDict d => Ok (match dict_get d key with Some v => v | None => default end)
  | _ => Raise (Fault (NoAttribute obj "get"))
  end.

(** [obj[key]] for a string key. *)
Definition py_getitem (obj : pyval) (key : string) : result pyval :=
  match obj with
  | PyDict d =>
      match dict_get d key with
      | Some v => Ok v
      | None => Raise (Fault (KeyMissing key))
      end
  | _ => Raise (Fault (NotSubscriptable obj))
  end.

(** The one-character strings a string is iterated as; a character takes
    one byte here, so a text outside that range is not one of these
    strings. *)
Fixpoint chars (s : string) : list pyval :=
  match s with
  | EmptyString => []
  | String c rest => PyStr (String c EmptyString) :: chars rest
  end.

(** The elements a [for] loop or [set(...)] draws from a value. *)
Definition py_iter (v : pyval) : result (list pyval) :=
  match v with
  | PyList l => Ok l
  | PyDict d => Ok (map (fun kv => PyStr (fst kv)) d)
  | PyStr s => Ok (chars s)
  | _ => Raise (Fault (NotIterable v))
  end.

Definition hashable (v : pyval) : bool :=
  match v with
  | PyList _ | PyDict _ => false
  | _ => true
  end.

Fixpoint first_unhashable (l : list pyval) : option pyval :=
  match l with
  | [] => None
  | x :: rest => if hashable x then first_unhashable rest else Some x
  end.

(** [set(v)]: the elements of [v], kept as a list read up to [py_eq]. *)
Definition py_set (v : pyval) : result (list pyval) :=
  (l <- py_iter v ;;
   match first_unhashable l with
   | Some x => Raise (Fault (Unhashable x))
   | None => Ok l
   end)%result.

Definition set_subset (s t : list pyval) : bool :=
  forallb (fun x => py_in x t) s.

(** [s == t] on two sets. *)
Definition set_eq (s t : list pyval) : bool :=
  set_subset s t && set_subset t s.

(** [a or b] *)
Definition py_or (a b : pyval) : pyval := if py_truthy a then a else b.

(** ** Equality evaluators *)

Definition network_comparable_fields : list string :=
  [ "addressrange"; "addressrange6"; "defaultextclientdns";
    "defaultinterface"; "defaultpostdown"; "defaultpostup";
    "defaultkeepalive"; "defaultmtu" ].

Definition field_defaults : dict :=
  [ ("defaultpostdown", PyStr ""); ("defaultpostup", PyStr "") ].

(** The coercion of the remote value when the desired one is a boolean:
    [None] gives way to the field's default, else [False], and the value
    is looked up in [['yes', 'true', True, 1]]. *)
Definition existing_value_bool (existing_value : pyval) (field : string)
  : bool :=
  let existing_value :=
    if is_none existing_value then
      match dict_get field_defaults field with
      | Some v => v | None => PyBool false end
    else existing_value in
  py_in existing_value [PyStr "yes"; PyStr "true"; PyBool true; PyInt 1].

(** The body of the [for field in comparable_fields] loop of
    [networks_equal]; [Ok false] is the early [return False]. *)
Fixpoint networks_equal_loop (fields : list string)
    (existing : pyval) (desired : dict) : result bool :=
  match fields with
  | [] => Ok true
  | field :: rest =>
      if dict_mem field desired then
        (present <- py_contains existing field ;;
         if negb present && negb (dict_mem field field_defaults) then
           networks_equal_loop rest existing desired
         else
           existing_value <-
             py_get existing field
               (match dict_get field_defaults field with
                | Some v => v | None => PyNone end) ;;
           let desired_value :=
             match dict_get desired field with
             | Some v => v | None => PyNone end in
           match desired_value with
           | PyBool b =>
               if negb (Bool.eqb (existing_value_bool existing_value field) b)
               then Ok false
               else networks_equal_loop rest existing desired
           | _ =>
               if py_eq desired_value (PyStr "")
                  && py_in existing_value [PyNone; PyStr ""]
               then networks_equal_loop rest existing desired
               else if negb (py_eq existing_value desired_value) then Ok false
               else networks_equal_loop rest existing desired
           end)%result
      else networks_equal_loop rest existing desired
  end.

Definition networks_equal (existing : pyval) (desired : dict) : result bool :=
  networks_equal_loop network_comparable_fields existing desired.

Definition extclient_comparable_fields : list string :=
  [ "dns"; "extraallowedips"; "enabled"; "postup"; "postdown" ].

Fixpoint extclients_equal_loop (fields : list string)
    (existing : pyval) (desired : dict) : result bool :=
  match fields with
  | [] => Ok true
  | field :: rest =>
      if dict_mem field desired then
        (existing_value <- py_get existing field PyNone ;;
         let desired_value :=
           match dict_get desired field with
           | Some v => v | None => PyNone end in
         match desired_value with
         | PyList _ =>
             s <- py_set (py_or existing_value (PyList [])) ;;
             t <- py_set (py_or desired_value (PyList [])) ;;
             if negb (set_eq s t) then Ok false
             else extclients_equal_loop rest existing desired
         | _ =>
             if py_eq desired_value (PyStr "")
                && py_in existing_value [PyNone; PyStr ""]
             then extclients_equal_loop rest existing desired
             else if negb (py_eq existing_value desired_value) then Ok false
             else extclients_equal_loop rest existing desired
         end)%result
      else extclients_equal_loop rest existing desired
  end.

Definition extclients_equal (existing : pyval) (desired : dict)
  : result bool :=
  extclients_equal_loop extclient_comparable_fields existing desired.

(** ** Transport *)

Inductive http_method : Type := GET | POST | PUT | DELETE.

Record request : Type := mkRequest {
  req_method : http_method;
  req_url : string;
  req_headers : dict;
  req_json : pyval;
  req_verify : bool
}.

(** [response.content] as [response.json()] sees it. *)
Inductive content : Type :=
| NoContent                  (* empty body *)
| JsonContent (v : pyval)    (* a body that decodes to [v] *)
| OtherContent.              (* bytes that are not JSON *)

Record response : Type := mkResponse {
  status_code : Z;
  body : content
}.

(** What [requests.request] comes back with: a response, a
    [RequestException] without response whose [str] is [text], or any
    other exception without response, as the [UnicodeEncodeError] for a
    header that does not encode. *)
Inductive netresult : Type :=
| Replied (r : response)
| Unreachable (text : string)
| Failed (f : fault).

(** [isinstance(e, requests.exceptions.RequestException)] *)
Definition is_request_exception (f : fault) : bool :=
  match f with
  | HTTPError _ _ | JSONDecodeError => true
  | _ => false
  end.

Definition response_json (r : response) : result pyval :=
  match body r with
  | JsonContent v => Ok v
  | _ => Raise (Fault JSONDecodeError)
  end.

(** [raise_for_status] raises for the 4xx and 5xx codes. *)
Definition raise_for_status (r : response) : bool :=
  (400 <=? status_code r) && (status_code r <? 600).

Definition mutating (m : http_method) : bool :=
  match m with GET => false | _ => true end.

Record NetmakerAPI : Type := mkAPI {
  base_url : string;
  token : pyval;
  validate_certs : bool;
  headers : dict
}.

Fixpoint rstrip_slash (s : string) : string :=
  match s with
  | EmptyString => EmptyString
  | String c rest =>
      match rstrip_slash rest with
      | EmptyString =>
          if Ascii.eqb c "/"%char then EmptyString else String c EmptyString
      | r => String c r
      end
  end.

(** ** Reconciliation results and the invocation surface *)

Record reconciliation : Type := mkResult {
  changed : bool;
  resource : pyval;
  msg : string
}.

Inductive resource_kind : Type := Network | Extclient.

Definition resource_kind_name (k : resource_kind) : string :=
  match k with Network => "network" | Extclient => "extclient" end.

Inductive desired_state : Type := Present | Absent.

Definition desired_state_name (s : desired_state) : string :=
  match s with Present => "present" | Absent => "absent" end.

(** The options as the caller wrote them, after Ansible's type check;
    [None] is an option the caller did not supply. *)
Record invocation : Type := mkInvocation {
  arg_resource_type : resource_kind;
  arg_name : string;
  arg_network : option string;
  arg_ingress_gateway_id : option string;
  arg_state : option desired_state;
  arg_base_url : string;
  arg_master_key : option string;
  arg_username : option string;
  arg_password : option string;
  arg_validate_certs : option bool;
  arg_addressrange : option string;
  arg_addressrange6 : option string;
  arg_defaultextclientdns : option string;
  arg_defaultinterface : option string;
  arg_defaultpostdown : option string;
  arg_defaultpostup : option string;
  arg_defaultkeepalive : option Z;
  arg_defaultmtu : option Z;
  arg_islocal : option bool;
  arg_dns : option string;
  arg_extraallowedips : option (list string);
  arg_enabled : option bool;
  arg_postup : option string;
  arg_postdown : option string
}.

(** An entry of [argument_spec]: the supplied value, else the declared
    [default], else [None]. *)
Definition param {A} (inj : A -> pyval) (supplied : option A)
    (default : option A) : pyval :=
  match supplied, default with
  | Some v, _ => inj v
  | None, Some v => inj v
  | None, None => PyNone
  end.

Definition str_list (l : list string) : pyval := PyList (map PyStr l).

(** [module.params], in the order of [argument_spec]. *)
Definition module_params (a : invocation) : dict :=
  [ ("resource_type", PyStr (resource_kind_name (arg_resource_type a)));
    ("name", PyStr (arg_name a));
    ("network", param PyStr (arg_network a) None);
    ("ingress_gateway_id", param PyStr (arg_ingress_gateway_id a) (Some "auto"));
    ("state", param (fun s => PyStr (desired_state_name s))
                (arg_state a) (Some Present));
    ("base_url", PyStr (arg_base_url a));
    ("master_key", param PyStr (arg_master_key a) None);
    ("username", param PyStr (arg_username a) (Some "oriol"));
    ("password", param PyStr (arg_password a) None);
    ("validate_certs", param PyBool (arg_validate_certs a) (Some true));
    ("addressrange", param PyStr (arg_addressrange a) None);
    ("addressrange6", param PyStr (arg_addressrange6 a) None);
    ("defaultextclientdns", param PyStr (arg_defaultextclientdns a) None);
    ("defaultinterface", param PyStr (arg_defaultinterface a) None);
    ("defaultpostdown", param PyStr (arg_defaultpostdown a) None);
    ("defaultpostup", param PyStr (arg_defaultpostup a) None);
    ("defaultkeepalive", param PyInt (arg_defaultkeepalive a) None);
    ("defaultmtu", param PyInt (arg_defaultmtu a) None);
    ("islocal", param PyBool (arg_islocal a) (Some false));
    ("dns", param PyStr (arg_dns a) None);
    ("extraallowedips", param str_list (arg_extraallowedips a) None);
    ("enabled", param PyBool (arg_enabled a) (Some true));
    ("postup", param PyStr (arg_postup a) None);
    ("postdown", param PyStr (arg_postdown a) None) ].

(** [module.params.get(key)] *)
Definition params_get (a : invocation) (key : string) : pyval :=
  match dict_get (module_params a) key with
  | Some v => v
  | None => PyNone
  end.

Definition network_params : list string :=
  [ "addressrange"; "addressrange6"; "defaultextclientdns";
    "defaultinterface"; "defaultpostdown"; "defaultpostup";
    "defaultkeepalive"; "defaultmtu"; "islocal" ].

Definition extclient_params : list string :=
  [ "dns"; "extraallowedips"; "enabled"; "postup"; "postdown" ].

(** The loop of [main] that copies the options that are not [None] into
    the desired-state dictionary. *)
Definition build_data (a : invocation) (id_key : string)
    (params : list string) : dict :=
  fold_left
    (fun data p =>
       if negb (is_none (params_get a p)) then dict_set data p (params_get a p)
       else data)
    params [(id_key, PyStr (arg_name a))].

Definition network_data (a : invocation) : dict :=
  build_data a "netid" network_params.

Definition client_data (a : invocation) : dict :=
  build_data a "clientid" extclient_params.

Inductive outcome : Type :=
| ExitJson (r : reconciliation)
| FailJson (message : string).

(** ** The environment of a run

    What the module does not decide: the remote API server, a state machine
    that answers one request at a time, and the texts the interpreter and
    the libraries produce ([str] of their own errors, [repr] of a value
    that is not a string). *)

Record environment : Type := mkEnvironment {
  remote_state : Type;
  serve : remote_state -> request -> netresult * remote_state;
  fault_text : fault -> string;
  repr : pyval -> string
}.

(** The state a run threads: the server's state and the requests handed
    to [requests.request] so far, oldest first. *)
Record world (env : environment) : Type := mkWorld {
  remote : remote_state env;
  log : list request
}.
Arguments mkWorld {env} remote log.
Arguments remote {env} w.
Arguments log {env} w.

Definition M (env : environment) (A : Type) : Type :=
  world env -> result A * world env.

Definition ret {env A} (a : A) : M env A := fun w => (Ok a, w).

Definition raise {env A} (e : exn) : M env A := fun w => (Raise e, w).

Definition bind {env A B} (m : M env A) (k : A -> M env B) : M env B :=
  fun w =>
    match m w with
    | (Ok a, w') => k a w'
    | (Raise e, w') => (Raise e, w')
    end.

Definition lift {env A} (r : result A) : M env A := fun w => (r, w).

Declare Scope run_scope.
Delimit Scope run_scope with run.
Notation "x <- e ;; k" := (bind e (fun x => k))
  (at level 61, e at next level, right associativity) : run_scope.
Notation "e ;;; k" := (bind e (fun _ => k))
  (at level 61, right associativity) : run_scope.

Section Remote.

Variable env : environment.

(** [str(v)], as an f-string formats [v]. *)
Definition py_str (v : pyval) : string :=
  match v with
  | PyStr s => s
  | _ => repr env v
  end.

Definition str_exn (e : exn) : string :=
  match e with
  | Exception m => m
  | Fault f => fault_text env f
  end.

Definition NetmakerAPI_init (base_url : string) (token : pyval)
    (validate_certs : bool) : NetmakerAPI :=
  {| base_url := rstrip_slash base_url;
     token := token;
     validate_certs := validate_certs;
     headers := [ ("Authorization", PyStr ("Bearer " ++ py_str token));
                  ("Content-Type", PyStr "application/json") ] |}.

(** The 500 answer whose decoded body says "no result found"; an error
    while looking is swallowed by the bare [except]. *)
Definition no_result_found (r : response) : bool :=
  match (error_data <- response_json r ;;
         py_get error_data "Message" PyNone)%result with
  | Ok m => py_eq m (PyStr "no result found")
  | Raise _ => false
  end.

(** What the handler appends to the message of an [HTTPError]. *)
Definition message_suffix (r : response) : string :=
  match (error_data <- response_json r ;;
         present <- py_contains error_data "Message" ;;
         if present then
           m <- py_getitem error_data "Message" ;; Ok (" - " ++ py_str m)
         else Ok "")%result with
  | Ok s => s
  | Raise _ => ""
  end.

(** The value [_request] returns or the exception it raises, once
    [requests.request] has come back with [reply].  A body that fails to
    decode raises the [JSONDecodeError] of [requests], which is a
    [RequestException] and so goes through the handler; an exception of
    [requests.request] that is not a [RequestException] is not caught and
    leaves as it is. *)
Definition request_result (url : string) (reply : netresult) : result pyval :=
  match reply with
  | Unreachable text => Raise (Exception ("API request failed: " ++ text))
  | Failed f =>
      if is_request_exception f
      then Raise (Exception ("API request failed: " ++ fault_text env f))
      else Raise (Fault f)
  | Replied response =>
      if status_code response =? 404 then Ok PyNone
      else if status_code response =? 204 then Ok (PyBool true)
      else if (status_code response =? 500) && no_result_found response
      then Ok PyNone
      else if raise_for_status response then
        Raise (Exception
                 ("API request failed: "
                    ++ fault_text env (HTTPError (status_code response) url)
                    ++ message_suffix response))
      else
        match body response with
        | NoContent => Ok (PyBool true)
        | JsonContent v => Ok v
        | OtherContent =>
            Raise (Exception
                     ("API request failed: " ++ fault_text env JSONDecodeError))
        end
  end.

Definition _request (self : NetmakerAPI) (method : http_method)
    (endpoint : string) (data : pyval) : M env pyval :=
  fun w =>
    let url := base_url self ++ "/api" ++ endpoint in
    let req := {| req_method := method;
                  req_url := url;
                  req_headers := headers self;
                  req_json := data;
                  req_verify := validate_certs self |} in
    let (reply, remote') := serve env (remote w) req in
    (request_result url reply,
     {| remote := remote'; log := log w ++ [req] |}).

Definition authenticate (self : NetmakerAPI) (username password : pyval)
  : M env pyval :=
  (let endpoint := "/users/adm/authenticate" in
   let data := PyDict [("username", username); ("password", password)] in
   result <- _request self POST endpoint data ;;
   let no_token : M env pyval :=
     raise (Exception "Authentication failed: No token in response") in
   if negb (py_truthy result) then no_token
   else
     has_response <- lift (py_contains result "Response") ;;
     if negb has_response then no_token
     else
       r <- lift (py_getitem result "Response") ;;
       has_token <- lift (py_contains r "AuthToken") ;;
       if negb has_token then no_token
       else
         r <- lift (py_getitem result "Response") ;;
         lift (py_getitem r "AuthToken"))%run.

Definition get_network (self : NetmakerAPI) (network_id : string)
  : M env pyval :=
  _request self GET ("/networks/" ++ network_id) PyNone.

Definition create_network (self : NetmakerAPI) (network_data : dict)
  : M env pyval :=
  _request self POST "/networks" (PyDict network_data).

Definition update_network (self : NetmakerAPI) (network_id : string)
    (network_data : dict) : M env pyval :=
  _request self PUT ("/networks/" ++ network_id) (PyDict network_data).

Definition delete_network (self : NetmakerAPI) (network_id : string)
  : M env pyval :=
  _request self DELETE ("/networks/" ++ network_id) PyNone.

Definition list_nodes (self : NetmakerAPI) (network_id : string)
  : M env pyval :=
  _request self GET ("/nodes/" ++ network_id) PyNone.

(** The [for node in nodes] loop of [find_ingress_gateway]. *)
Fixpoint scan_nodes (network_id : string) (nodes : list pyval)
  : result pyval :=
  match nodes with
  | [] =>
      Raise (Exception
               ("No ingress gateway found in network '" ++ network_id ++ "'"))
  | node :: rest =>
      (a <- py_get node "isingressgateway" PyNone ;;
       flag <- (if py_truthy a then Ok a else py_get node "is_gw" PyNone) ;;
       if py_truthy flag then py_getitem node "id"
       else scan_nodes network_id rest)%result
  end.

Definition find_ingress_gateway (self : NetmakerAPI) (network_id : string)
  : M env pyval :=
  (nodes <- list_nodes self network_id ;;
   if negb (py_truthy nodes) then
     raise (Exception ("No nodes found in network '" ++ network_id ++ "'"))
   else
     lift (l <- py_iter nodes ;; scan_nodes network_id l)%result)%run.

Definition list_extclients (self : NetmakerAPI) (network_id : string)
  : M env pyval :=
  (result <- _request self GET ("/extclients/" ++ network_id) PyNone ;;
   ret (if py_truthy result then result else PyList []))%run.

(** The [for client in clients] loop of [get_extclient]. *)
Fixpoint scan_clients (client_id : string) (clients : list pyval)
  : result pyval :=
  match clients with
  | [] => Ok PyNone
  | client :: rest =>
      (c <- py_get client "clientid" PyNone ;;
       if py_eq c (PyStr client_id) then Ok client
       else scan_clients client_id rest)%result
  end.

Definition get_extclient (self : NetmakerAPI) (network_id client_id : string)
  : M env pyval :=
  (clients <- list_extclients self network_id ;;
   lift (l <- py_iter clients ;; scan_clients client_id l)%result)%run.

Definition create_extclient (self : NetmakerAPI) (network_id : string)
    (gateway_id : pyval) (client_data : dict) : M env pyval :=
  _request self POST
    ("/extclients/" ++ network_id ++ "/" ++ py_str gateway_id)
    (PyDict client_data).

Definition update_extclient (self : NetmakerAPI)
    (network_id client_id : string) (client_data : dict) : M env pyval :=
  _request self PUT ("/extclients/" ++ network_id ++ "/" ++ client_id)
    (PyDict client_data).

Definition delete_extclient (self : NetmakerAPI)
    (network_id client_id : string) : M env pyval :=
  _request self DELETE ("/extclients/" ++ network_id ++ "/" ++ client_id)
    PyNone.

(** ** Reconcilers *)

(** [update_data = existing.copy(); update_data.update(desired)] *)
Definition copy_update (existing : pyval) (desired : dict) : result dict :=
  match existing with
  | PyDict d => Ok (dict_update d desired)
  | PyList _ => Raise (Fault (NoAttribute existing "update"))
  | _ => Raise (Fault (NoAttribute existing "copy"))
  end.

Definition manage_network (check_mode : bool) (api : NetmakerAPI)
    (name : string) (state : desired_state) (network_data : dict)
  : M env reconciliation :=
  (existing_network <- get_network api name ;;
   match state with
   | Present =>
       if py_truthy existing_network then
         equal <- lift (networks_equal existing_network network_data) ;;
         if equal then
           ret {| changed := false;
                  resource := existing_network;
                  msg := "Network '" ++ name
                         ++ "' already exists with desired configuration" |}
         else if check_mode then
           ret {| changed := true;
                  resource := PyNone;
                  msg := "Network '" ++ name
                         ++ "' would be updated (check mode)" |}
         else
           update_data <- lift (copy_update existing_network network_data) ;;
           updated_network <- update_network api name update_data ;;
           ret {| changed := true;
                  resource := updated_network;
                  msg := "Network '" ++ name ++ "' updated" |}
       else if check_mode then
         ret {| changed := true;
                resource := PyNone;
                msg := "Network '" ++ name
                       ++ "' would be created (check mode)" |}
       else
         created_network <- create_network api network_data ;;
         ret {| changed := true;
                resource := created_network;
                msg := "Network '" ++ name ++ "' created" |}
   | Absent =>
       if py_truthy existing_network then
         if check_mode then
           ret {| changed := true;
                  resource := PyNone;
                  msg := "Network '" ++ name
                         ++ "' would be deleted (check mode)" |}
         else
           delete_network api name ;;;
           ret {| changed := true;
                  resource := PyNone;
                  msg := "Network '" ++ name ++ "' deleted" |}
       else
         ret {| changed := false;
                resource := PyNone;
                msg := "Network '" ++ name ++ "' does not exist" |}
   end)%run.

Definition manage_extclient (check_mode : bool) (api : NetmakerAPI)
    (name network : string) (ingress_gateway_id : pyval)
    (state : desired_state) (client_data : dict) : M env reconciliation :=
  (existing_client <- get_extclient api network name ;;
   match state with
   | Present =>
       if py_truthy existing_client then
         equal <- lift (extclients_equal existing_client client_data) ;;
         if equal then
           ret {| changed := false;
                  resource := existing_client;
                  msg := "External client '" ++ name
                         ++ "' already exists with desired configuration" |}
         else if check_mode then
           ret {| changed := true;
                  resource := PyNone;
                  msg := "External client '" ++ name
                         ++ "' would be updated (check mode)" |}
         else
           update_data <- lift (copy_update existing_client client_data) ;;
           updated_client <- update_extclient api network name update_data ;;
           ret {| changed := true;
                  resource := updated_client;
                  msg := "External client '" ++ name ++ "' updated" |}
       else if check_mode then
         ret {| changed := true;
                resource := PyNone;
                msg := "External client '" ++ name
                       ++ "' would be created (check mode)" |}
       else
         gateway_id <-
           (if py_eq ingress_gateway_id (PyStr "auto")
            then find_ingress_gateway api network
            else ret ingress_gateway_id) ;;
         created_client <- create_extclient api network gateway_id client_data ;;
         ret {| changed := true;
                resource := created_client;
                msg := "External client '" ++ name ++ "' created" |}
   | Absent =>
       if py_truthy existing_client then
         if check_mode then
           ret {| changed := true;
                  resource := PyNone;
                  msg := "External client '" ++ name
                         ++ "' would be deleted (check mode)" |}
         else
           delete_extclient api network name ;;;
           ret {| changed := true;
                  resource := PyNone;
                  msg := "External client '" ++ name ++ "' deleted" |}
       else
         ret {| changed := false;
                resource := PyNone;
                msg := "External client '" ++ name ++ "' does not exist" |}
   end)%run.

(** ** The module's entry point *)

Definition state_of (a : invocation) : desired_state :=
  match arg_state a with Some s => s | None => Present end.

Definition validate_certs_of (a : invocation) : bool :=
  match arg_validate_certs a with Some b => b | None => true end.

(** The [try] block of [main]. *)
Definition run_module (a : invocation) (check_mode : bool)
  : M env reconciliation :=
  (let name := arg_name a in
   let network := params_get a "network" in
   let ingress_gateway_id := params_get a "ingress_gateway_id" in
   let state := state_of a in
   let base_url := arg_base_url a in
   let master_key := params_get a "master_key" in
   let username := params_get a "username" in
   let password := params_get a "password" in
   let validate_certs := validate_certs_of a in
   token <-
     (if py_truthy master_key then ret master_key
      else
        let temp_api := NetmakerAPI_init base_url (PyStr "") validate_certs in
        authenticate temp_api username password) ;;
   let api := NetmakerAPI_init base_url token validate_certs in
   match arg_resource_type a with
   | Network =>
       manage_network check_mode api name state (network_data a)
   | Extclient =>
       manage_extclient check_mode api name (py_str network)
         ingress_gateway_id state (client_data a)
   end)%run.

(** The checks [AnsibleModule] runs on the declared [required_one_of] and
    [required_if] before [main] goes on. *)
Definition precondition (a : invocation) : option fault :=
  match arg_master_key a, arg_password a with
  | None, None => Some (MissingOneOf ["master_key"; "password"])
  | _, _ =>
      match arg_resource_type a, arg_network a with
      | Extclient, None => Some (MissingIf ["network"])
      | _, _ => None
      end
  end.

Definition main (a : invocation) (check_mode : bool)
  : world env -> outcome * world env :=
  fun w =>
    match precondition a with
    | Some f => (FailJson (fault_text env f), w)
    | None =>
        match run_module a check_mode w with
        | (Ok result, w') => (ExitJson result, w')
        | (Raise e, w') =>
            (FailJson ("Error managing Netmaker "
                         ++ resource_kind_name (arg_resource_type a)
                         ++ ": " ++ str_exn e), w')
        end
    end.

End Remote.

Arguments _request env self method endpoint data w : simpl never.

(** ** A replaying server

    An environment whose server answers from a recorded list of replies,
    whatever the request, and is unreachable once the list is used up. *)

Definition replay : environment :=
  {| remote_state := list netresult;
     serve := fun replies _ =>
                match replies with
                | [] => (Unreachable "connection refused", [])
                | r :: rest => (r, rest)
                end;
     fault_text := fun _ => "";
     repr := fun _ => "" |}.

Definition replaying (replies : list netresult) : world replay :=
  {| remote := (replies : remote_state replay); log := [] |}.

(** ** The comparison rules in the words of the specification *)

(** "values "yes", "true", the boolean true, or the integer 1 are truthy;
    everything else is falsy". *)
Definition spec_truthy (v : pyval) : bool :=
  match v with
  | PyStr s => String.eqb s "yes" || String.eqb s "true"
  | PyBool b => b
  | PyInt n => n =? 1
  | _ => false
  end.

(** A float that equals 1. *)
Definition float_one (v : pyval) : bool :=
  match v with
  | PyFloat x => float_eq_int x 1
  | _ => false
  end.

(** The values the lookup in [['yes', 'true', True, 1]] finds: those of the
    specification and, as [1.0 == 1], a float that equals 1. *)
Definition counts_true (v : pyval) : bool :=
  spec_truthy v || float_one v.

(** The coerced boolean of a field of the remote object, a missing value
    being falsy. *)
Definition coerced (existing : dict) (field : string) : bool :=
  match dict_get existing field with
  | Some v => counts_true v
  | None => false
  end.

(** A value that is not a container, nor the float that equals nothing,
    itself included. *)
Definition scalar (v : pyval) : bool :=
  match v with
  | PyList _ | PyDict _ | PyFloat NaN => false
  | _ => true
  end.

(** Two lists of strings with the same elements. *)
Definition same_set (l1 l2 : list string) : Prop :=
  forall x, In x l1 <-> In x l2.

(** "the ingress-gateway flag (checked under either of its two possible
    field names) is truthy". *)
Definition is_gateway (node : dict) : bool :=
  match dict_get node "isingressgateway" with
  | Some v => py_truthy v
  | None => false
  end
  || match dict_get node "is_gw" with
     | Some v => py_truthy v
     | None => false
     end.

(** "only fields explicitly set are forwarded": the entry of a supplied
    option, nothing for one that was not supplied. *)
Definition forwarded {A} (key : string) (inj : A -> pyval)
    (supplied : option A) : dict :=
  match supplied with
  | Some v => [(key, inj v)]
  | None => []
  end.

(** ** Two servers that differ in how they say "not found" *)

(** The two answers [_request] turns into [None]. *)
Definition absent_reply (r : response) : bool :=
  (status_code r =? 404)
  || ((status_code r =? 500) && no_result_found r).

(** [serve'] answers as [serve env] does, except that where one of them
    says "not found" in one of the two ways the other may say it in the
    other way. *)
Definition alike_but_absent (env : environment)
    (serve' : remote_state env -> request -> netresult * remote_state env)
  : Prop :=
  forall s req,
    serve' s req = serve env s req
    \/ (exists r r',
          fst (serve env s req) = Replied r
          /\ fst (serve' s req) = Replied r'
          /\ absent_reply r = true /\ absent_reply r' = true
          /\ snd (serve' s req) = snd (serve env s req)).

Definition with_serve (env : environment)
    (serve' : remote_state env -> request -> netresult * remote_state env)
  : environment :=
  {| remote_state := remote_state env;
     serve := serve';
     fault_text := fault_text env;
     repr := repr env |}.

(** The same world, seen from the other server. *)
Definition retarget {env : environment}
    (serve' : remote_state env -> request -> netresult * remote_state env)
    (w : world env) : world (with_serve env serve') :=
  {| remote := (remote w : remote_state (with_serve env serve'));
     log := log w |}.

(** [m'] on the other server does what [m] does on this one. *)
Definition mirrors {env : environment} {A : Type}
    (serve' : remote_state env -> request -> netresult * remote_state env)
    (m' : M (with_serve env serve') A) (m : M env A) : Prop :=
  forall w, m' (retarget serve' w) = (fst (m w), retarget serve' (snd (m w))).

(** The reply the server gives to the request [_request] sends from [w]. *)
Definition answer (env : environment) (self : NetmakerAPI)
    (method : http_method) (endpoint : string) (data : pyval)
    (w : world env) : netresult :=
  fst (serve env (remote w)
         {| req_method := method;
            req_url := base_url self ++ "/api" ++ endpoint;
            req_headers := headers self;
            req_json := data;
            req_verify := validate_certs self |}).

Definition no_result_reply : response :=
  {| status_code := 500;
     body := JsonContent (PyDict [("Message", PyStr "no result found")]) |}.

(** The replaying server, saying 500 "no result found" for each recorded
    404. *)
Definition serve_500 (replies : remote_state replay) (req : request)
  : netresult * remote_state replay :=
  match (replies : list netresult) with
  | Replied r :: rest =>
      if status_code r =? 404 then (Replied no_result_reply, rest)
      else (Replied r, rest)
  | _ => serve replay replies req
  end.

(** ** Runs and their requests *)

(** The requests of a log that change the remote state. *)
Definition mutations (requests : list request) : list request :=
  filter (fun r => mutating (req_method r)) requests.

(** The [changed] a run reports, if it reports. *)
Definition reported_changed (r : result reconciliation) : option bool :=
  match r with
  | Ok res => Some (changed res)
  | Raise _ => None
  end.

(** An invocation that supplies the required options and credentials and
    nothing else. *)
Definition bare_invocation (kind : resource_kind) (name base_url : string)
    (key password : option string) : invocation :=
  {| arg_resource_type := kind;
     arg_name := name;
     arg_network := None;
     arg_ingress_gateway_id := None;
     arg_state := None;
     arg_base_url := base_url;
     arg_master_key := key;
     arg_username := None;
     arg_password := password;
     arg_validate_certs := None;
     arg_addressrange := None;
     arg_addressrange6 := None;
     arg_defaultextclientdns := None;
     arg_defaultinterface := None;
     arg_defaultpostdown := None;
     arg_defaultpostup := None;
     arg_defaultkeepalive := None;
     arg_defaultmtu := None;
     arg_islocal := None;
     arg_dns := None;
     arg_extraallowedips := None;
     arg_enabled := None;
     arg_postup := None;
     arg_postdown := None |}.

(** The scenario of the specification: network "net1" with an address
    range and an MTU, state present, and a master key. *)
Definition net1_scenario (base_url key : string) : invocation :=
  {| arg_resource_type := Network;
     arg_name := "net1";
     arg_network := None;
     arg_ingress_gateway_id := None;
     arg_state := Some Present;
     arg_base_url := base_url;
     arg_master_key := Some key;
     arg_username := None;
     arg_password := None;
     arg_validate_certs := None;
     arg_addressrange := Some "10.0.0.0/24";
     arg_addressrange6 := None;
     arg_defaultextclientdns := None;
     arg_defaultinterface := None;
     arg_defaultpostdown := None;
     arg_defaultpostup := None;
     arg_defaultkeepalive := None;
     arg_defaultmtu := Some 1420;
     arg_islocal := None;
     arg_dns := None;
     arg_extraallowedips := None;
     arg_enabled := None;
     arg_postup := None;
     arg_postdown := None |}.

Definition net1_three_fields : dict :=
  [ ("netid", PyStr "net1"); ("addressrange", PyStr "10.0.0.0/24");
    ("defaultmtu", PyInt 1420) ].

Definition net1_payload : dict :=
  [ ("netid", PyStr "net1"); ("addressrange", PyStr "10.0.0.0/24");
    ("defaultmtu", PyInt 1420); ("islocal", PyBool false) ].

(** ** Notions for the properties of the whole module *)

Fixpoint ends_with_slash (s : string) : bool :=
  match s with
  | EmptyString => false
  | String c rest =>
      match rest with
      | EmptyString => Ascii.eqb c "/"%char
      | _ => ends_with_slash rest
      end
  end.

Definition is_str (v : pyval) : bool :=
  match v with PyStr _ => true | _ => false end.

(** The values the argument parser hands over: [None], booleans, integers,
    strings and lists of strings. *)
Definition plain_value (v : pyval) : bool :=
  match v with
  | PyList l => forallb is_str l
  | PyDict _ | PyFloat _ => false
  | _ => true
  end.

(** The test of [get_extclient] on one client of the list. *)
Definition has_clientid (client_id : string) (client : dict) : bool :=
  match dict_get client "clientid" with
  | Some v => py_eq v (PyStr client_id)
  | None => false
  end.

(** A request as the client [api] sends them: its headers, its
    certificate check, and a URL under its base URL and [/api]. *)
Definition from_client (api : NetmakerAPI) (r : request) : Prop :=
  req_headers r = headers api
  /\ req_verify r = validate_certs api
  /\ exists endpoint, req_url r = base_url api ++ "/api" ++ endpoint.

(** Wherever it starts, [m] only adds requests to the log: at most [total]
    of them, at most [changing] of them mutating, all from [api]. *)
Definition sends {env : environment} {A : Type} (api : NetmakerAPI)
    (m : M env A) (total changing : nat) : Prop :=
  forall w, exists new,
    log (snd (m w)) = (log w ++ new)%list
    /\ (List.length new <= total)%nat
    /\ (List.length (mutations new) <= changing)%nat
    /\ Forall (from_client api) new.

(** What the loop of [main] keeps true of the dictionary it fills. *)
Definition well_formed_data (data : dict) : Prop :=
  NoDup (map fst data)
  /\ forall k v, dict_get data k = Some v ->
                 plain_value v = true /\ v <> PyNone.

(** The invocation without the options of the other resource kind. *)
Definition own_options (a : invocation) : invocation :=
  match arg_resource_type a with
  | Network =>
      {| arg_resource_type := Network;
         arg_name := arg_name a;
         arg_network := None;
         arg_ingress_gateway_id := None;
         arg_state := arg_state a;
         arg_base_url := arg_base_url a;
         arg_master_key := arg_master_key a;
         arg_username := arg_username a;
         arg_password := arg_password a;
         arg_validate_certs := arg_validate_certs a;
         arg_addressrange := arg_addressrange a;
         arg_addressrange6 := arg_addressrange6 a;
         arg_defaultextclientdns := arg_defaultextclientdns a;
         arg_defaultinterface := arg_defaultinterface a;
         arg_defaultpostdown := arg_defaultpostdown a;
         arg_defaultpostup := arg_defaultpostup a;
         arg_defaultkeepalive := arg_defaultkeepalive a;
         arg_defaultmtu := arg_defaultmtu a;
         arg_islocal := arg_islocal a;
         arg_dns := None;
         arg_extraallowedips := None;
         arg_enabled := None;
         arg_postup := None;
         arg_postdown := None |}
  | Extclient =>
      {| arg_resource_type := Extclient;
         arg_name := arg_name a;
         arg_network := arg_network a;
         arg_ingress_gateway_id := arg_ingress_gateway_id a;
         arg_state := arg_state a;
         arg_base_url := arg_base_url a;
         arg_master_key := arg_master_key a;
         arg_username := arg_username a;
         arg_password := arg_password a;
         arg_validate_certs := arg_validate_certs a;
         arg_addressrange := None;
         arg_addressrange6 := None;
         arg_defaultextclientdns := None;
         arg_defaultinterface := None;
         arg_defaultpostdown := None;
         arg_defaultpostup := None;
         arg_defaultkeepalive := None;
         arg_defaultmtu := None;
         arg_islocal := None;
         arg_dns := arg_dns a;
         arg_extraallowedips := arg_extraallowedips a;
         arg_enabled := arg_enabled a;
         arg_postup := arg_postup a;
         arg_postdown := arg_postdown a |}
  end.

(** The reconciler [main] hands over to, once it has a token. *)
Definition reconcile (env : environment) (a : invocation) (check_mode : bool)
    (token : pyval) : M env reconciliation :=
  let api :=
    NetmakerAPI_init env (arg_base_url a) token (validate_certs_of a) in
  match arg_resource_type a with
  | Network =>
      manage_network env check_mode api (arg_name a) (state_of a)
        (network_data a)
  | Extclient =>
      manage_extclient env check_mode api (arg_name a)
        (py_str env (params_get a "network"))
        (params_get a "ingress_gateway_id") (state_of a) (client_data a)
  end.

(** ** Facts about dictionaries *)

#[local] Arguments String.eqb : simpl never.
#[local] Arguments Z.eqb : simpl never.
#[local] Arguments py_in : simpl never.

Lemma dict_get_set_same (d : dict) (k : string) (v : pyval) :
  dict_get (dict_set d k v) k = Some v.
Proof.
  induction d as [|[k' v'] rest IH]; simpl.
  - now rewrite String.eqb_refl.
  - destruct (String.eqb k' k) eqn:E; simpl.
    + now rewrite String.eqb_refl.
    + now rewrite E.
Qed.

Lemma dict_get_set_other (d : dict) (k k' : string) (v : pyval) :
  k <> k' -> dict_get (dict_set d k v) k' = dict_get d k'.
Proof.
  intros Hne.
  induction d as [|[k0 v0] rest IH]; simpl.
  - destruct (String.eqb k k') eqn:E; [|reflexivity].
    apply String.eqb_eq in E. contradiction.
  - destruct (String.eqb k0 k) eqn:E; simpl.
    + apply String.eqb_eq in E. subst k0.
      destruct (String.eqb k k') eqn:E'; [|reflexivity].
      apply String.eqb_eq in E'. contradiction.
    + now rewrite IH.
Qed.

Lemma dict_get_del_other (d : dict) (k k' : string) :
  k <> k' -> dict_get (dict_del d k) k' = dict_get d k'.
Proof.
  intros Hne.
  induction d as [|[k0 v0] rest IH]; simpl; [reflexivity|].
  destruct (String.eqb k0 k) eqn:E; simpl.
  - apply String.eqb_eq in E. subst k0.
    destruct (String.eqb k k') eqn:E'; [|exact IH].
    apply String.eqb_eq in E'. contradiction.
  - now rewrite IH.
Qed.

(** ** The network evaluator *)

(** The evaluator reads its two arguments only through the comparable
    fields. *)
Lemma networks_equal_loop_ext (fields : list string)
    (e e' d d' : dict) :
  (forall f, In f fields ->
             dict_get e f = dict_get e' f /\ dict_get d f = dict_get d' f) ->
  networks_equal_loop fields (PyDict e) d
  = networks_equal_loop fields (PyDict e') d'.
Proof.
  induction fields as [|field rest IH]; intros Hsame; [reflexivity|].
  destruct (Hsame field (or_introl eq_refl)) as [He Hd].
  assert (Hrest : networks_equal_loop rest (PyDict e) d
                  = networks_equal_loop rest (PyDict e') d').
  { apply IH. intros f Hf. apply Hsame. now right. }
  simpl. unfold dict_mem. rewrite He, Hd, Hrest. reflexivity.
Qed.

(** C3: an empty desired state constrains nothing, so the network evaluator
    answers true whatever the remote object is: each field of the loop,
    whichever fields it runs over, is absent from the desired state and is
    passed over. *)
Theorem networks_equal_empty_desired (existing : pyval) :
  networks_equal existing [] = Ok true
  /\ forall fields, networks_equal_loop fields existing [] = Ok true.
Proof.
  assert (Hloop : forall fields,
             networks_equal_loop fields existing [] = Ok true).
  { induction fields as [|field rest IH]; [reflexivity|].
    cbn [networks_equal_loop]. unfold dict_mem. cbn [dict_get]. exact IH. }
  split; [apply Hloop|exact Hloop].
Qed.

Lemma networks_equal_loop_desired_ext (fields : list string)
    (existing : pyval) (d d' : dict) :
  (forall f, In f fields -> dict_get d f = dict_get d' f) ->
  networks_equal_loop fields existing d
  = networks_equal_loop fields existing d'.
Proof.
  induction fields as [|field rest IH]; intros Hsame; [reflexivity|].
  assert (Hrest : networks_equal_loop rest existing d
                  = networks_equal_loop rest existing d').
  { apply IH. intros f Hf. apply Hsame. now right. }
  simpl. unfold dict_mem.
  rewrite (Hsame field (or_introl eq_refl)), Hrest. reflexivity.
Qed.

Lemma islocal_not_comparable : ~ In "islocal" network_comparable_fields.
Proof.
  unfold network_comparable_fields. simpl.
  intros H. repeat (destruct H as [H|H]; [discriminate H|]). exact H.
Qed.

Lemma comparable_neq_islocal (f : string) :
  In f network_comparable_fields -> "islocal" <> f.
Proof. intros Hf <-. now apply islocal_not_comparable. Qed.

(** A remote object whose comparable fields hold plain values is judged
    equal to itself. *)
Lemma networks_equal_loop_refl (fields : list string) (e : dict) :
  (forall f v, In f fields -> dict_get e f = Some v -> scalar v = true) ->
  networks_equal_loop fields (PyDict e) e = Ok true.
Proof.
  induction fields as [|field rest IH]; intros Hsc; [reflexivity|].
  assert (Hrest : networks_equal_loop rest (PyDict e) e = Ok true).
  { apply IH. intros f v Hf. apply Hsc. now right. }
  simpl. unfold dict_mem.
  destruct (dict_get e field) as [v|] eqn:Hv; [|exact Hrest].
  simpl.
  specialize (Hsc field v (or_introl eq_refl) Hv).
  destruct v as [|b|n|s|l|d|x]; simpl in Hsc; try discriminate; simpl.
  - exact Hrest.
  - destruct b; simpl; exact Hrest.
  - rewrite Z.eqb_refl. simpl. exact Hrest.
  - rewrite String.eqb_refl. simpl.
    destruct s; simpl; exact Hrest.
  - destruct x as [a b|negative|]; try discriminate; simpl.
    + rewrite Z.eqb_refl. simpl. exact Hrest.
    + rewrite Bool.eqb_reflx. simpl. exact Hrest.
Qed.

(** [islocal] is not among the comparable fields: setting or removing it
    on either side leaves the verdict as it was, and the remote object with
    another [islocal] is judged equal to itself. *)
Lemma networks_equal_islocal_invariance (existing desired : dict) (v : pyval) :
  networks_equal (PyDict (dict_set existing "islocal" v)) desired
  = networks_equal (PyDict existing) desired
  /\ networks_equal (PyDict (dict_del existing "islocal")) desired
     = networks_equal (PyDict existing) desired
  /\ networks_equal (PyDict existing) (dict_set desired "islocal" v)
     = networks_equal (PyDict existing) desired
  /\ networks_equal (PyDict existing) (dict_del desired "islocal")
     = networks_equal (PyDict existing) desired
  /\ ((forall f x, In f network_comparable_fields ->
                   dict_get existing f = Some x -> scalar x = true) ->
      networks_equal (PyDict existing) (dict_set existing "islocal" v)
      = Ok true).
Proof.
  unfold networks_equal.
  assert (Hset : forall d f, In f network_comparable_fields ->
                 dict_get (dict_set d "islocal" v) f = dict_get d f).
  { intros d f Hf. apply dict_get_set_other. now apply comparable_neq_islocal. }
  assert (Hdel : forall d f, In f network_comparable_fields ->
                 dict_get (dict_del d "islocal") f = dict_get d f).
  { intros d f Hf. apply dict_get_del_other. now apply comparable_neq_islocal. }
  repeat split.
  - apply networks_equal_loop_ext. intros f Hf. split; [now apply Hset|reflexivity].
  - apply networks_equal_loop_ext. intros f Hf. split; [now apply Hdel|reflexivity].
  - apply networks_equal_loop_desired_ext. intros f Hf. now apply Hset.
  - apply networks_equal_loop_desired_ext. intros f Hf. now apply Hdel.
  - intros Hsc.
    rewrite (networks_equal_loop_desired_ext _ _ _ existing)
      by (intros f Hf; now apply Hset).
    now apply networks_equal_loop_refl.
Qed.

(** The coercion of the evaluator is the one the specification words, but
    for the floats that equal 1. *)
Lemma py_in_boolish (v : pyval) :
  py_in v [PyStr "yes"; PyStr "true"; PyBool true; PyInt 1] = counts_true v.
Proof.
  unfold py_in, counts_true, spec_truthy, float_one.
  destruct v as [|b|n|s|l|d|x]; cbn [existsb py_eq Z.b2z]; try reflexivity.
  - now destruct b.
  - rewrite (Z.eqb_sym 1 n). now destruct (n =? 1).
  - rewrite (String.eqb_sym "yes" s), (String.eqb_sym "true" s).
    now rewrite !Bool.orb_false_r.
  - now destruct (float_eq_int x 1).
Qed.

Lemma spec_truthy_values (v : pyval) :
  spec_truthy v = true
  <-> v = PyStr "yes" \/ v = PyStr "true" \/ v = PyBool true \/ v = PyInt 1.
Proof.
  split.
  - unfold spec_truthy. destruct v as [|b|n|s|l|d|x]; try discriminate.
    + intros ->. auto.
    + intros H. apply Z.eqb_eq in H. subst. auto.
    + intros H. apply Bool.orb_true_iff in H.
      destruct H as [H|H]; apply String.eqb_eq in H; subst; auto.
  - intros [-> | [-> | [-> | ->]]]; reflexivity.
Qed.

(** The floats that equal 1 are the fractions of a number by itself. *)
Lemma float_one_values (v : pyval) :
  float_one v = true <-> exists den, v = PyFloat (Finite (Z.pos den) den).
Proof.
  unfold float_one. split.
  - destruct v as [| | | | | |x]; try discriminate.
    destruct x as [num den| |]; try discriminate.
    cbn [float_eq_int]. intros H. apply Z.eqb_eq in H.
    exists den. rewrite H. now rewrite Z.mul_1_l.
  - intros [den ->]. cbn [float_eq_int].
    rewrite Z.mul_1_l. apply Z.eqb_refl.
Qed.

Lemma counts_true_values (v : pyval) :
  counts_true v = true
  <-> v = PyStr "yes" \/ v = PyStr "true" \/ v = PyBool true \/ v = PyInt 1
      \/ exists den, v = PyFloat (Finite (Z.pos den) den).
Proof.
  unfold counts_true.
  rewrite Bool.orb_true_iff, spec_truthy_values, float_one_values. tauto.
Qed.

(** The value the evaluator coerces, after its defaulting of [None]. *)
Lemma existing_value_bool_spec (v : pyval) (field : string) :
  existing_value_bool v field = counts_true v.
Proof.
  unfold existing_value_bool.
  destruct v; cbn [is_none]; try apply py_in_boolish.
  unfold field_defaults. cbn [dict_get].
  destruct (String.eqb "defaultpostdown" field); [reflexivity|].
  destruct (String.eqb "defaultpostup" field); reflexivity.
Qed.

(** One turn of the loop on a field the guard lets through, when the
    desired value is a boolean. *)
Lemma networks_equal_loop_bool (field : string) (rest : list string)
    (e d : dict) (b : bool) :
  dict_get d field = Some (PyBool b) ->
  dict_mem field e = true \/ dict_mem field field_defaults = true ->
  networks_equal_loop (field :: rest) (PyDict e) d
  = if Bool.eqb (coerced e field) b
    then networks_equal_loop rest (PyDict e) d
    else Ok false.
Proof.
  intros Hd Hguard.
  cbn [networks_equal_loop py_contains py_get rbind].
  unfold dict_mem, coerced in *. rewrite Hd.
  destruct (dict_get e field) as [v|] eqn:Hv.
  - cbn [negb andb]. rewrite existing_value_bool_spec.
    now destruct (Bool.eqb (counts_true v) b).
  - destruct Hguard as [Hg|Hg]; [discriminate Hg|].
    destruct (dict_get field_defaults field) as [v0|] eqn:Hdef;
      [|discriminate Hg].
    cbn [negb andb].
    assert (Hv0 : v0 = PyStr "").
    { revert Hdef. unfold field_defaults. cbn [dict_get].
      destruct (String.eqb "defaultpostdown" field); [congruence|].
      destruct (String.eqb "defaultpostup" field); congruence. }
    subst v0. rewrite existing_value_bool_spec. now destruct b.
Qed.

(** On a remote object that is a dictionary a turn of the loop either
    answers false or goes on with the remaining fields. *)
Lemma networks_equal_loop_turn (field : string) (rest : list string)
    (e d : dict) :
  networks_equal_loop (field :: rest) (PyDict e) d = Ok false
  \/ networks_equal_loop (field :: rest) (PyDict e) d
     = networks_equal_loop rest (PyDict e) d.
Proof.
  simpl.
  destruct (dict_mem field d); [|now right]. simpl.
  destruct (negb (dict_mem field e) && negb (dict_mem field field_defaults));
    [now right|].
  destruct (match dict_get d field with Some v => v | None => PyNone end);
    repeat match goal with
           | |- context [if ?c then _ else _] => destruct c
           end; auto.
Qed.

Lemma networks_equal_loop_false (fields : list string) (e d : dict)
    (field : string) (b : bool) :
  In field fields ->
  dict_get d field = Some (PyBool b) ->
  dict_mem field e = true \/ dict_mem field field_defaults = true ->
  coerced e field <> b ->
  networks_equal_loop fields (PyDict e) d = Ok false.
Proof.
  intros Hin Hd Hguard Hne.
  induction fields as [|f rest IH]; [destruct Hin|].
  destruct (string_dec f field) as [->|Hf].
  - rewrite (networks_equal_loop_bool _ _ _ _ b Hd Hguard).
    destruct (Bool.eqb (coerced e field) b) eqn:E; [|reflexivity].
    apply Bool.eqb_prop in E. contradiction.
  - destruct Hin as [Hin|Hin]; [contradiction|].
    destruct (networks_equal_loop_turn f rest e d) as [H|H]; [exact H|].
    rewrite H. now apply IH.
Qed.

Lemma networks_equal_loop_single (fields : list string) (e : dict)
    (field : string) (b : bool) :
  In field fields ->
  dict_mem field e = true \/ dict_mem field field_defaults = true ->
  networks_equal_loop fields (PyDict e) [(field, PyBool b)]
  = Ok (Bool.eqb (coerced e field) b).
Proof.
  intros Hin Hguard.
  assert (Hd : dict_get [(field, PyBool b)] field = Some (PyBool b)).
  { simpl. now rewrite String.eqb_refl. }
  destruct (Bool.eqb (coerced e field) b) eqn:E.
  - clear Hin. induction fields as [|f rest IH]; [reflexivity|].
    destruct (string_dec f field) as [->|Hf].
    + rewrite (networks_equal_loop_bool _ _ _ _ b Hd Hguard), E. exact IH.
    + simpl. unfold dict_mem. simpl.
      destruct (String.eqb field f) eqn:Ef; [|exact IH].
      apply String.eqb_eq in Ef. congruence.
  - apply (networks_equal_loop_false fields e _ field b Hin Hd Hguard).
    intros Heq. rewrite Heq, Bool.eqb_reflx in E. discriminate.
Qed.

(** A field the remote object lacks and that has no default never reaches
    the comparison: the guard skips it. *)
Lemma networks_equal_loop_skip (field : string) (rest : list string)
    (e d : dict) :
  dict_mem field e = false ->
  dict_mem field field_defaults = false ->
  networks_equal_loop (field :: rest) (PyDict e) d
  = networks_equal_loop rest (PyDict e) d.
Proof.
  intros He Hdef. cbn [networks_equal_loop py_contains rbind].
  rewrite He, Hdef. cbn [negb andb]. now destruct (dict_mem field d).
Qed.

(** C9, as the evaluator has it: with a boolean desired value, the remote
    value that reaches the comparison (the field is in the remote object or
    has a default) is coerced so that exactly "yes", "true", [True], the
    integer [1] and the floats that equal 1 are truthy and anything else, a
    [None] or a defaulted missing value included, is falsy, which is the
    rule of the specification on every value that is not a float; the field
    passes iff the coerced boolean is the desired one, so "yes" matches a
    desired [True]; a field the remote object lacks and that has no default
    is passed over, whatever the desired boolean. *)
Theorem networks_equal_boolean_coercion :
  (forall v field,
      existing_value_bool v field = true
      <-> v = PyStr "yes" \/ v = PyStr "true" \/ v = PyBool true
          \/ v = PyInt 1
          \/ exists den, v = PyFloat (Finite (Z.pos den) den))
  /\ (forall v field,
         (forall x, v <> PyFloat x) ->
         existing_value_bool v field = spec_truthy v)
  /\ (forall field e b,
         In field network_comparable_fields ->
         dict_mem field e = true \/ dict_mem field field_defaults = true ->
         networks_equal (PyDict e) [(field, PyBool b)]
         = Ok (Bool.eqb
                 (existing_value_bool
                    (match dict_get e field with
                     | Some v => v | None => PyNone end) field) b))
  /\ (forall field e d b,
         In field network_comparable_fields ->
         dict_get d field = Some (PyBool b) ->
         dict_mem field e = true \/ dict_mem field field_defaults = true ->
         existing_value_bool
           (match dict_get e field with
            | Some v => v | None => PyNone end) field <> b ->
         networks_equal (PyDict e) d = Ok false)
  /\ (forall field,
         In field network_comparable_fields ->
         networks_equal (PyDict [(field, PyStr "yes")]) [(field, PyBool true)]
         = Ok true)
  /\ (forall field e b,
         dict_mem field e = false ->
         dict_mem field field_defaults = false ->
         networks_equal (PyDict e) [(field, PyBool b)] = Ok true).
Proof.
  assert (Hco : forall e field,
             existing_value_bool
               (match dict_get e field with
                | Some v => v | None => PyNone end) field
             = coerced e field).
  { intros e field. rewrite existing_value_bool_spec. unfold coerced.
    now destruct (dict_get e field). }
  repeat split.
  - rewrite existing_value_bool_spec. apply counts_true_values.
  - rewrite existing_value_bool_spec. apply counts_true_values.
  - intros v field Hv. rewrite existing_value_bool_spec.
    unfold counts_true, float_one.
    destruct v; try apply Bool.orb_false_r. now destruct (Hv x).
  - intros field e b Hin Hguard. rewrite Hco.
    now apply networks_equal_loop_single.
  - intros field e d b Hin Hd Hguard Hne. rewrite Hco in Hne.
    now apply (networks_equal_loop_false _ e d field b).
  - intros field Hin.
    assert (Hget : dict_get [(field, PyStr "yes")] field = Some (PyStr "yes")).
    { cbn [dict_get]. now rewrite String.eqb_refl. }
    unfold networks_equal.
    rewrite networks_equal_loop_single; [|exact Hin|].
    + unfold coerced. now rewrite Hget.
    + left. unfold dict_mem. now rewrite Hget.
  - intros field e b He Hdef. unfold networks_equal.
    induction network_comparable_fields as [|f rest IH]; [reflexivity|].
    destruct (string_dec f field) as [->|Hf].
    + now rewrite networks_equal_loop_skip.
    + cbn [networks_equal_loop]. unfold dict_mem at 1. cbn [dict_get].
      destruct (String.eqb field f) eqn:E; [|exact IH].
      apply String.eqb_eq in E. congruence.
Qed.

Lemma networks_equal_boolean_coercion_witness :
  networks_equal (PyDict [("defaultpostup", PyStr "true")])
    [("defaultpostup", PyBool true)] = Ok true
  /\ networks_equal (PyDict [("netid", PyStr "net1")])
       [("defaultpostup", PyBool true)] = Ok false.
Proof.
  destruct networks_equal_boolean_coercion as (_ & _ & Hsingle & _).
  split.
  - apply (Hsingle "defaultpostup" [("defaultpostup", PyStr "true")] true).
    + unfold network_comparable_fields. simpl. tauto.
    + left. reflexivity.
  - apply (Hsingle "defaultpostup" [("netid", PyStr "net1")] true).
    + unfold network_comparable_fields. simpl. tauto.
    + right. reflexivity.
Defined.

(** A missing field without a default is not coerced to falsy and compared:
    a desired [True] passes against a remote object that lacks the field,
    while it fails against one that has it as [False] or [None]; and the
    float [1.0], which is none of "yes", "true", [True] and the integer
    [1], is truthy and matches a desired [True]. *)
Lemma networks_equal_coercion_exceptions :
  existing_value_bool PyNone "addressrange" = false
  /\ existing_value_bool (PyFloat (Finite 1 1)) "defaultmtu" = true
  /\ networks_equal (PyDict [("netid", PyStr "net1");
                             ("defaultmtu", PyFloat (Finite 1 1))])
       [("defaultmtu", PyBool true)] = Ok true
  /\ networks_equal (PyDict [("netid", PyStr "net1")])
       [("addressrange", PyBool true)] = Ok true
  /\ networks_equal (PyDict [("netid", PyStr "net1");
                             ("addressrange", PyNone)])
       [("addressrange", PyBool true)] = Ok false
  /\ networks_equal (PyDict [("netid", PyStr "net1");
                             ("addressrange", PyBool false)])
       [("addressrange", PyBool true)] = Ok false.
Proof. repeat split; reflexivity. Qed.

(** ** The external-client evaluator *)

Lemma py_in_str_list (x : pyval) (l : list string) :
  py_in x (map PyStr l) = true <-> exists s, x = PyStr s /\ In s l.
Proof.
  unfold py_in. rewrite existsb_exists. split.
  - intros (e & Hin & Heq). apply in_map_iff in Hin.
    destruct Hin as (s & <- & Hs).
    destruct x as [| | |t| | |]; cbn [py_eq] in Heq; try discriminate.
    apply String.eqb_eq in Heq. subst t. now exists s.
  - intros (s & -> & Hs). exists (PyStr s). split.
    + now apply in_map.
    + cbn [py_eq]. apply String.eqb_refl.
Qed.

Lemma py_in_same_set (x : pyval) (l1 l2 : list string) :
  same_set l1 l2 -> py_in x (map PyStr l1) = py_in x (map PyStr l2).
Proof.
  intros Hsame. apply Bool.eq_iff_eq_true.
  rewrite !py_in_str_list.
  split; intros (s & -> & Hs); exists s; (split; [reflexivity|]);
    now apply Hsame.
Qed.

Lemma set_subset_same_set_r (s : list pyval) (l1 l2 : list string) :
  same_set l1 l2 ->
  set_subset s (map PyStr l1) = set_subset s (map PyStr l2).
Proof.
  intros Hsame. unfold set_subset.
  induction s as [|x s IH]; [reflexivity|].
  cbn [forallb]. now rewrite IH, (py_in_same_set x l1 l2 Hsame).
Qed.

Lemma set_subset_same_set_l (s : list pyval) (l1 l2 : list string) :
  same_set l1 l2 ->
  set_subset (map PyStr l1) s = set_subset (map PyStr l2) s.
Proof.
  intros Hsame. unfold set_subset. apply Bool.eq_iff_eq_true.
  rewrite !forallb_forall.
  split; intros H x Hx; apply in_map_iff in Hx;
    destruct Hx as (t & <- & Ht); apply H; apply in_map; now apply Hsame.
Qed.

Lemma set_eq_same_set (s : list pyval) (l1 l2 : list string) :
  same_set l1 l2 ->
  set_eq s (map PyStr l1) = set_eq s (map PyStr l2).
Proof.
  intros Hsame. unfold set_eq.
  now rewrite (set_subset_same_set_r s l1 l2 Hsame),
              (set_subset_same_set_l s l1 l2 Hsame).
Qed.

Lemma first_unhashable_strs (l : list string) :
  first_unhashable (map PyStr l) = None.
Proof. induction l as [|s l IH]; [reflexivity|exact IH]. Qed.

(** [set(desired_value or [])] for a list of strings. *)
Lemma py_set_str_list (l : list string) :
  py_set (py_or (str_list l) (PyList [])) = Ok (map PyStr l).
Proof.
  unfold py_or, str_list. destruct l as [|s l]; [reflexivity|].
  cbn [py_truthy map py_set py_iter rbind].
  change (PyStr s :: map PyStr l) with (map PyStr (s :: l)).
  now rewrite first_unhashable_strs.
Qed.

(** A turn of the loop on a field whose desired value is a list of
    strings: the remote value, [None] read as the empty list, is compared
    with it as a set. *)
Lemma extclients_equal_loop_list (field : string) (rest : list string)
    (existing : pyval) (d : dict) (l : list string) :
  dict_get d field = Some (str_list l) ->
  extclients_equal_loop (field :: rest) existing d
  = (existing_value <- py_get existing field PyNone ;;
     s <- py_set (py_or existing_value (PyList [])) ;;
     if negb (set_eq s (map PyStr l)) then Ok false
     else extclients_equal_loop rest existing d)%result.
Proof.
  intros Hd. cbn [extclients_equal_loop]. unfold dict_mem. rewrite Hd.
  destruct (py_get existing field PyNone) as [v|x]; [|reflexivity].
  cbn [rbind]. unfold str_list at 1.
  fold (str_list l). rewrite py_set_str_list.
  destruct (py_set (py_or v (PyList []))); reflexivity.
Qed.

(** The verdict on two desired states that differ in one field, which holds
    lists of strings with the same elements. *)
Lemma extclients_equal_loop_same_set (fields : list string)
    (existing : pyval) (d : dict) (field : string) (l1 l2 : list string) :
  same_set l1 l2 ->
  extclients_equal_loop fields existing (dict_set d field (str_list l1))
  = extclients_equal_loop fields existing (dict_set d field (str_list l2)).
Proof.
  intros Hsame.
  induction fields as [|f rest IH]; [reflexivity|].
  destruct (string_dec f field) as [->|Hf].
  - rewrite (extclients_equal_loop_list field rest existing _ l1)
      by apply dict_get_set_same.
    rewrite (extclients_equal_loop_list field rest existing _ l2)
      by apply dict_get_set_same.
    destruct (py_get existing field PyNone) as [v|x]; [|reflexivity].
    cbn [rbind].
    destruct (py_set (py_or v (PyList []))) as [s|x]; [|reflexivity].
    cbn [rbind]. now rewrite (set_eq_same_set s l1 l2 Hsame), IH.
  - cbn [extclients_equal_loop]. unfold dict_mem.
    rewrite !(dict_get_set_other d field f) by congruence.
    now rewrite IH.
Qed.

(** Remote objects that agree on every field, or on [value or []] where the
    desired value is a list, get the same verdict. *)
Lemma extclients_equal_loop_or_ext (fields : list string) (e e' d : dict) :
  (forall f, In f fields ->
     let v := match dict_get e f with Some v => v | None => PyNone end in
     let v' := match dict_get e' f with Some v => v | None => PyNone end in
     v = v'
     \/ ((exists l, dict_get d f = Some (PyList l))
         /\ py_or v (PyList []) = py_or v' (PyList []))) ->
  extclients_equal_loop fields (PyDict e) d
  = extclients_equal_loop fields (PyDict e') d.
Proof.
  induction fields as [|field rest IH]; intros Hsame; [reflexivity|].
  assert (Hrest : extclients_equal_loop rest (PyDict e) d
                  = extclients_equal_loop rest (PyDict e') d).
  { apply IH. intros f Hf. apply Hsame. now right. }
  cbn [extclients_equal_loop py_get rbind].
  destruct (Hsame field (or_introl eq_refl)) as [Heq | [[l Hl] Hor]].
  - cbv zeta in Heq. now rewrite Heq, Hrest.
  - cbv zeta in Hor. unfold dict_mem. now rewrite Hl, Hor, Hrest.
Qed.

(** C4, as the evaluator has it: desired lists of strings with the same
    elements get the same verdict, whatever their order and duplicates; a
    list the remote object lacks or has as [None] counts as the empty list
    when the desired value is a list; a field the desired state lacks is
    not compared at all. *)
Theorem extclients_equal_lists_as_sets :
  (forall existing d field l1 l2,
      same_set l1 l2 ->
      extclients_equal existing (dict_set d field (str_list l1))
      = extclients_equal existing (dict_set d field (str_list l2)))
  /\ (forall e d field l,
         dict_get d field = Some (PyList l) ->
         dict_get e field = None \/ dict_get e field = Some PyNone ->
         extclients_equal (PyDict e) d
         = extclients_equal (PyDict (dict_set e field (PyList []))) d)
  /\ (forall e d field v,
         dict_get d field = None ->
         extclients_equal (PyDict (dict_set e field v)) d
         = extclients_equal (PyDict e) d).
Proof.
  unfold extclients_equal. repeat split.
  - intros existing d field l1 l2 Hsame.
    now apply extclients_equal_loop_same_set.
  - intros e d field l Hd He.
    apply extclients_equal_loop_or_ext. intros f _. cbv zeta.
    destruct (string_dec field f) as [<-|Hf].
    + right. split; [now exists l|].
      rewrite dict_get_set_same.
      destruct He as [-> | ->]; reflexivity.
    + left. now rewrite dict_get_set_other.
  - intros e d field v Hd.
    induction extclient_comparable_fields as [|f rest IH]; [reflexivity|].
    cbn [extclients_equal_loop py_get rbind]. unfold dict_mem.
    destruct (string_dec field f) as [<-|Hf].
    + rewrite Hd. exact IH.
    + rewrite (dict_get_set_other e field f v Hf), IH. reflexivity.
Qed.

Lemma extclients_equal_lists_as_sets_witness :
  extclients_equal
    (PyDict [("clientid", PyStr "dev1");
             ("extraallowedips", str_list ["10.0.0.0/24"; "10.1.0.0/24"])])
    (dict_set [("clientid", PyStr "dev1")] "extraallowedips"
       (str_list ["10.1.0.0/24"; "10.0.0.0/24"; "10.1.0.0/24"]))
  = Ok true
  /\ extclients_equal (PyDict [("clientid", PyStr "dev1")])
       [("clientid", PyStr "dev1"); ("extraallowedips", PyList [])]
     = Ok true.
Proof.
  destruct extclients_equal_lists_as_sets as (Hset & Hnone & _).
  split.
  - rewrite (Hset _ [("clientid", PyStr "dev1")] "extraallowedips"
               ["10.1.0.0/24"; "10.0.0.0/24"; "10.1.0.0/24"]
               ["10.0.0.0/24"; "10.1.0.0/24"]).
    + reflexivity.
    + intros x. simpl. tauto.
  - rewrite (Hnone [("clientid", PyStr "dev1")] _ "extraallowedips" []).
    + reflexivity.
    + reflexivity.
    + left. reflexivity.
Defined.

(** On the desired side a missing list and a [None] are not the empty
    set: against a client that has addresses a missing list is not
    compared while an empty one differs, and against a client with an empty
    list a [None] differs while an empty list matches. *)
Lemma extclients_equal_desired_none_is_not_empty :
  extclients_equal
    (PyDict [("clientid", PyStr "dev1");
             ("extraallowedips", str_list ["10.0.0.0/24"])])
    [("clientid", PyStr "dev1")] = Ok true
  /\ extclients_equal
       (PyDict [("clientid", PyStr "dev1");
                ("extraallowedips", str_list ["10.0.0.0/24"])])
       [("clientid", PyStr "dev1"); ("extraallowedips", PyList [])]
     = Ok false
  /\ extclients_equal
       (PyDict [("clientid", PyStr "dev1"); ("extraallowedips", PyList [])])
       [("clientid", PyStr "dev1"); ("extraallowedips", PyNone)]
     = Ok false
  /\ extclients_equal
       (PyDict [("clientid", PyStr "dev1"); ("extraallowedips", PyList [])])
       [("clientid", PyStr "dev1"); ("extraallowedips", PyList [])]
     = Ok true.
Proof. repeat split; reflexivity. Qed.

(** ** The transport client *)

Section Transport.

Variable env : environment.

Lemma request_result_404 (url : string) (r : response) :
  status_code r = 404 -> request_result env url (Replied r) = Ok PyNone.
Proof. intros H. unfold request_result. now rewrite H. Qed.

Lemma request_result_204 (url : string) (r : response) :
  status_code r = 204 -> request_result env url (Replied r) = Ok (PyBool true).
Proof. intros H. unfold request_result. now rewrite H. Qed.

Lemma no_result_found_message (r : response) (d : dict) :
  body r = JsonContent (PyDict d) ->
  dict_get d "Message" = Some (PyStr "no result found") ->
  no_result_found r = true.
Proof.
  intros Hb Hm. unfold no_result_found, response_json.
  rewrite Hb. cbn [rbind py_get]. now rewrite Hm.
Qed.

Lemma request_result_500 (url : string) (r : response) (d : dict) :
  status_code r = 500 ->
  body r = JsonContent (PyDict d) ->
  dict_get d "Message" = Some (PyStr "no result found") ->
  request_result env url (Replied r) = Ok PyNone.
Proof.
  intros Hs Hb Hm. unfold request_result.
  rewrite Hs, (no_result_found_message r d Hb Hm). reflexivity.
Qed.

Lemma request_result_absent (url : string) (r : response) :
  absent_reply r = true -> request_result env url (Replied r) = Ok PyNone.
Proof.
  unfold absent_reply, request_result. intros H.
  destruct (status_code r =? 404) eqn:E404; [reflexivity|].
  cbn [orb] in H. apply Bool.andb_true_iff in H. destruct H as [E500 Hn].
  rewrite E500, Hn.
  apply Z.eqb_eq in E500. rewrite E500. reflexivity.
Qed.

(** A decoded payload that comes back as [True] was the literal [true]. *)
Lemma request_result_payload_true (url : string) (r : response) (v : pyval) :
  status_code r <> 204 ->
  body r = JsonContent v ->
  request_result env url (Replied r) = Ok (PyBool true) ->
  v = PyBool true.
Proof.
  intros Hs Hb. unfold request_result.
  destruct (status_code r =? 404); [discriminate|].
  destruct (status_code r =? 204) eqn:E; [apply Z.eqb_eq in E; contradiction|].
  destruct ((status_code r =? 500) && no_result_found r); [discriminate|].
  destruct (raise_for_status r); [discriminate|].
  rewrite Hb. congruence.
Qed.

(** What [_request] does to the world: one more request in the log, the
    server one step on. *)
Lemma _request_run (self : NetmakerAPI) (method : http_method)
    (endpoint : string) (data : pyval) (w : world env) :
  let url := (base_url self ++ "/api" ++ endpoint)%string in
  let req := mkRequest method url (headers self) data (validate_certs self) in
  _request env self method endpoint data w
  = (request_result env url (fst (serve env (remote w) req)),
     {| remote := snd (serve env (remote w) req);
        log := log w ++ [req] |}).
Proof.
  cbv zeta. unfold _request.
  now destruct (serve env (remote w) _) as [reply remote'].
Qed.

End Transport.

(** ** Reconciling against a server that says "not found" the other way *)

Section Mirror.

Variable env : environment.
Variable serve' : remote_state env -> request -> netresult * remote_state env.
Hypothesis Halike : alike_but_absent env serve'.

Let env' : environment := with_serve env serve'.

Lemma mirrors_ret {A} (a : A) : mirrors serve' (ret a) (ret a).
Proof. intros w. reflexivity. Qed.

Lemma mirrors_raise {A} (e : exn) :
  mirrors serve' (raise e : M env' A) (raise e).
Proof. intros w. reflexivity. Qed.

Lemma mirrors_lift {A} (r : result A) : mirrors serve' (lift r) (lift r).
Proof. intros w. reflexivity. Qed.

Lemma mirrors_bind {A B} (m' : M env' A) (m : M env A)
    (k' : A -> M env' B) (k : A -> M env B) :
  mirrors serve' m' m ->
  (forall a, mirrors serve' (k' a) (k a)) ->
  mirrors serve' (bind m' k') (bind m k).
Proof.
  intros Hm Hk w. unfold bind. rewrite (Hm w).
  destruct (m w) as [[a|e] w1]; cbn [fst snd]; [apply Hk|reflexivity].
Qed.

Lemma mirrors_request (self : NetmakerAPI) (method : http_method)
    (endpoint : string) (data : pyval) :
  mirrors serve' (_request env' self method endpoint data)
    (_request env self method endpoint data).
Proof.
  intros w. rewrite !_request_run. cbv zeta. cbn [fst snd].
  set (req := mkRequest _ _ _ _ _).
  change (remote (retarget serve' w)) with (remote w).
  change (log (retarget serve' w)) with (log w).
  change (serve env') with serve'.
  subst env'. unfold with_serve. cbn [remote_state].
  destruct (Halike (remote w) req) as [Heq | (r & r' & H & H' & Ha & Ha' & Hs)].
  - rewrite Heq. reflexivity.
  - rewrite H, H', Hs, !request_result_absent by assumption. reflexivity.
Qed.

Ltac mirror :=
  repeat first
    [ apply mirrors_ret
    | apply mirrors_raise
    | apply mirrors_lift
    | apply mirrors_request
    | apply mirrors_bind; [|intros ?]
    | match goal with
      | |- mirrors _ (if ?c then _ else _) _ => destruct c
      | |- mirrors _ (match ?s with Present => _ | Absent => _ end) _ =>
          destruct s
      end ].

Lemma mirrors_find_ingress_gateway (api : NetmakerAPI) (network : string) :
  mirrors serve' (find_ingress_gateway env' api network)
    (find_ingress_gateway env api network).
Proof. unfold find_ingress_gateway, list_nodes. mirror. Qed.

Lemma mirrors_manage_network (check_mode : bool) (api : NetmakerAPI)
    (name : string) (state : desired_state) (data : dict) :
  mirrors serve' (manage_network env' check_mode api name state data)
    (manage_network env check_mode api name state data).
Proof.
  unfold manage_network, get_network, create_network, update_network,
    delete_network.
  mirror.
Qed.

Lemma mirrors_manage_extclient (check_mode : bool) (api : NetmakerAPI)
    (name network : string) (gateway : pyval) (state : desired_state)
    (data : dict) :
  mirrors serve'
    (manage_extclient env' check_mode api name network gateway state data)
    (manage_extclient env check_mode api name network gateway state data).
Proof.
  unfold manage_extclient, get_extclient, list_extclients, create_extclient,
    update_extclient, delete_extclient.
  mirror; apply mirrors_find_ingress_gateway.
Qed.

End Mirror.

(** C2, as the transport client has it: whatever the request, a 404 and a
    500 whose JSON body has [Message] "no result found" both come back as
    [None], so that both reconcilers run alike against two servers that
    differ only in which of the two they answer; a 204 comes back as [True]
    whatever its body, and a decoded JSON payload is that same value only
    if it is the JSON literal [true]. *)
Theorem request_absent_and_marker :
  (forall env self method endpoint data (w : world env) r,
      answer env self method endpoint data w = Replied r ->
      status_code r = 404 ->
      fst (_request env self method endpoint data w) = Ok PyNone)
  /\ (forall env self method endpoint data (w : world env) r d,
         answer env self method endpoint data w = Replied r ->
         status_code r = 500 ->
         body r = JsonContent (PyDict d) ->
         dict_get d "Message" = Some (PyStr "no result found") ->
         fst (_request env self method endpoint data w) = Ok PyNone)
  /\ (forall env serve',
         alike_but_absent env serve' ->
         (forall check_mode api name state data,
             mirrors serve'
               (manage_network (with_serve env serve')
                  check_mode api name state data)
               (manage_network env check_mode api name state data))
         /\ (forall check_mode api name network gateway state data,
                mirrors serve'
                  (manage_extclient (with_serve env serve')
                     check_mode api name network gateway state data)
                  (manage_extclient env
                     check_mode api name network gateway state data)))
  /\ (forall env self method endpoint data (w : world env) r,
         answer env self method endpoint data w = Replied r ->
         status_code r = 204 ->
         fst (_request env self method endpoint data w) = Ok (PyBool true))
  /\ (forall env self method endpoint data (w : world env) r v,
         answer env self method endpoint data w = Replied r ->
         status_code r <> 204 ->
         body r = JsonContent v ->
         fst (_request env self method endpoint data w) = Ok (PyBool true) ->
         v = PyBool true).
Proof.
  repeat split.
  - intros env self method endpoint data w r Ha Hs.
    rewrite _request_run. cbv zeta. cbn [fst].
    unfold answer in Ha. rewrite Ha. now apply request_result_404.
  - intros env self method endpoint data w r d Ha Hs Hb Hm.
    rewrite _request_run. cbv zeta. cbn [fst].
    unfold answer in Ha. rewrite Ha. now apply (request_result_500 env _ r d).
  - intros. now apply mirrors_manage_network.
  - intros. now apply mirrors_manage_extclient.
  - intros env self method endpoint data w r Ha Hs.
    rewrite _request_run. cbv zeta. cbn [fst].
    unfold answer in Ha. rewrite Ha. now apply request_result_204.
  - intros env self method endpoint data w r v Ha Hs Hb.
    rewrite _request_run. cbv zeta. cbn [fst].
    unfold answer in Ha. rewrite Ha.
    now apply request_result_payload_true.
Qed.

Lemma serve_500_alike : alike_but_absent replay serve_500.
Proof.
  intros s req. destruct s as [|[r|text|f] rest]; try (left; reflexivity).
  unfold serve_500. destruct (status_code r =? 404) eqn:E; [|left; reflexivity].
  right. exists r, no_result_reply. cbn [replay serve fst snd].
  repeat split; try reflexivity.
  unfold absent_reply. now rewrite E.
Qed.

Lemma request_absent_and_marker_witness :
  fst (manage_network (with_serve replay serve_500) false
         (NetmakerAPI_init replay "https://api.example.com/" (PyStr "key") true)
         "net1" Absent [("netid", PyStr "net1")]
         (retarget serve_500
            (replaying [Replied {| status_code := 404; body := NoContent |}])))
  = Ok {| changed := false; resource := PyNone;
          msg := "Network 'net1' does not exist" |}
  /\ fst (_request replay
            (NetmakerAPI_init replay "https://api.example.com/" (PyStr "key") true)
            GET "/networks/net1" PyNone (replaying [Replied no_result_reply]))
     = Ok PyNone.
Proof.
  destruct request_absent_and_marker as (_ & H500 & Hmirror & _).
  split.
  - destruct (Hmirror replay serve_500 serve_500_alike) as [Hnet _].
    rewrite (Hnet false _ "net1" Absent [("netid", PyStr "net1")]
               (replaying [Replied {| status_code := 404; body := NoContent |}])).
    reflexivity.
  - apply (H500 replay _ GET "/networks/net1" PyNone
             (replaying [Replied no_result_reply]) no_result_reply
             [("Message", PyStr "no result found")]); reflexivity.
Defined.

(** A 200 whose body is the JSON literal [true] comes back as the very
    value a 204 comes back as. *)
Lemma request_json_true_is_the_marker :
  fst (_request replay
         (NetmakerAPI_init replay "https://api.example.com" (PyStr "key") true)
         DELETE "/networks/net1" PyNone
         (replaying [Replied {| status_code := 200;
                                body := JsonContent (PyBool true) |}]))
  = Ok (PyBool true)
  /\ Ok (PyBool true)
  = fst (_request replay
           (NetmakerAPI_init replay "https://api.example.com" (PyStr "key") true)
           DELETE "/networks/net1" PyNone
           (replaying [Replied {| status_code := 204; body := NoContent |}])).
Proof. split; reflexivity. Qed.

(** ** The gateway resolver *)

Lemma scan_nodes_turn (network : string) (node : dict) (rest : list pyval) :
  scan_nodes network (PyDict node :: rest)
  = if is_gateway node then py_getitem (PyDict node) "id"
    else scan_nodes network rest.
Proof.
  cbn [scan_nodes py_get rbind]. unfold is_gateway.
  destruct (dict_get node "isingressgateway") as [a|];
    [destruct (py_truthy a) eqn:Ea|]; cbn [rbind orb py_truthy].
  - now rewrite Ea.
  - now destruct (dict_get node "is_gw").
  - now destruct (dict_get node "is_gw").
Qed.

Lemma scan_nodes_first (network : string) (before : list dict) (node : dict)
    (after : list pyval) (id : pyval) :
  (forall n, In n before -> is_gateway n = false) ->
  is_gateway node = true ->
  dict_get node "id" = Some id ->
  scan_nodes network (map PyDict before ++ PyDict node :: after) = Ok id.
Proof.
  intros Hbefore Hnode Hid.
  induction before as [|n before IH]; cbn [map app]; rewrite scan_nodes_turn.
  - rewrite Hnode. cbn [py_getitem]. now rewrite Hid.
  - rewrite (Hbefore n (or_introl eq_refl)).
    apply IH. intros m Hm. apply Hbefore. now right.
Qed.

Lemma scan_nodes_none (network : string) (nodes : list dict) :
  (forall n, In n nodes -> is_gateway n = false) ->
  scan_nodes network (map PyDict nodes)
  = Raise (Exception
             ("No ingress gateway found in network '" ++ network ++ "'")).
Proof.
  intros Hnone.
  induction nodes as [|n nodes IH]; cbn [map]; [reflexivity|].
  rewrite scan_nodes_turn, (Hnone n (or_introl eq_refl)).
  apply IH. intros m Hm. apply Hnone. now right.
Qed.

(** C5: with no node list or an empty one the resolver fails with the "no
    nodes" error; otherwise it returns the id of the first listed node
    whose gateway flag is truthy under either name, and fails with the "no
    ingress gateway" error when no node has one; on the list a, b, c where b
    and c are gateways it returns "b". *)
Theorem find_ingress_gateway_first (env : environment) (api : NetmakerAPI)
    (network : string) (w w' : world env) (nodes : pyval) :
  list_nodes env api network w = (Ok nodes, w') ->
  (nodes = PyNone \/ nodes = PyList [] ->
   find_ingress_gateway env api network w
   = (Raise (Exception ("No nodes found in network '" ++ network ++ "'")),
      w'))
  /\ (forall before node after id,
         nodes = PyList (map PyDict before ++ PyDict node :: after) ->
         (forall n, In n before -> is_gateway n = false) ->
         is_gateway node = true ->
         dict_get node "id" = Some id ->
         find_ingress_gateway env api network w = (Ok id, w'))
  /\ (forall listed,
         listed <> [] ->
         nodes = PyList (map PyDict listed) ->
         (forall n, In n listed -> is_gateway n = false) ->
         find_ingress_gateway env api network w
         = (Raise (Exception
                     ("No ingress gateway found in network '"
                        ++ network ++ "'")), w'))
  /\ (nodes = PyList
                [ PyDict [("id", PyStr "a"); ("isingressgateway", PyBool false)];
                  PyDict [("id", PyStr "b"); ("isingressgateway", PyBool true)];
                  PyDict [("id", PyStr "c"); ("isingressgateway", PyBool true)] ]
      -> find_ingress_gateway env api network w = (Ok (PyStr "b"), w')).
Proof.
  intros Hlist. unfold find_ingress_gateway, bind. rewrite Hlist.
  repeat split.
  - intros [-> | ->]; reflexivity.
  - intros before node after id -> Hbefore Hnode Hid.
    replace (py_truthy (PyList (map PyDict before ++ PyDict node :: after)))
      with true by (now destruct before).
    cbn [negb py_iter rbind]. unfold lift.
    now rewrite (scan_nodes_first network before node after id).
  - intros listed Hne -> Hnone.
    replace (py_truthy (PyList (map PyDict listed)))
      with true by (now destruct listed).
    cbn [negb py_iter rbind]. unfold lift.
    now rewrite scan_nodes_none.
  - intros ->. reflexivity.
Qed.

Lemma find_ingress_gateway_first_witness :
  fst (find_ingress_gateway replay
         (NetmakerAPI_init replay "https://api.example.com" (PyStr "key") true)
         "iot"
         (replaying
            [Replied
               {| status_code := 200;
                  body := JsonContent
                    (PyList
                       [ PyDict [("id", PyStr "n1"); ("is_gw", PyBool false)];
                         PyDict [("id", PyStr "n2"); ("is_gw", PyInt 1)];
                         PyDict [("id", PyStr "n3");
                                 ("isingressgateway", PyBool true)] ]) |}]))
  = Ok (PyStr "n2").
Proof.
  set (api := NetmakerAPI_init replay "https://api.example.com"
                (PyStr "key") true).
  set (nodes := PyList
                  [ PyDict [("id", PyStr "n1"); ("is_gw", PyBool false)];
                    PyDict [("id", PyStr "n2"); ("is_gw", PyInt 1)];
                    PyDict [("id", PyStr "n3");
                            ("isingressgateway", PyBool true)] ]).
  set (w := replaying [Replied {| status_code := 200;
                                  body := JsonContent nodes |}]).
  destruct (find_ingress_gateway_first replay api "iot" w
              (snd (list_nodes replay api "iot" w)) nodes eq_refl)
    as (_ & Hfirst & _).
  rewrite (Hfirst [[("id", PyStr "n1"); ("is_gw", PyBool false)]]
             [("id", PyStr "n2"); ("is_gw", PyInt 1)]
             [PyDict [("id", PyStr "n3"); ("isingressgateway", PyBool true)]]
             (PyStr "n2")).
  - reflexivity.
  - reflexivity.
  - intros n [<- | []]. reflexivity.
  - reflexivity.
  - reflexivity.
Defined.

(** ** The desired state [main] builds *)

(** C1, as [main] has it: besides the identifier, the desired state holds
    the options the caller supplied, in the order of the parameter list,
    and the two options that have a default in [argument_spec], [islocal]
    for a network and [enabled] for an external client, which are there
    with their default when the caller did not supply them. *)
Theorem desired_state_fields (a : invocation) :
  network_data a
  = ("netid", PyStr (arg_name a))
      :: forwarded "addressrange" PyStr (arg_addressrange a)
      ++ forwarded "addressrange6" PyStr (arg_addressrange6 a)
      ++ forwarded "defaultextclientdns" PyStr (arg_defaultextclientdns a)
      ++ forwarded "defaultinterface" PyStr (arg_defaultinterface a)
      ++ forwarded "defaultpostdown" PyStr (arg_defaultpostdown a)
      ++ forwarded "defaultpostup" PyStr (arg_defaultpostup a)
      ++ forwarded "defaultkeepalive" PyInt (arg_defaultkeepalive a)
      ++ forwarded "defaultmtu" PyInt (arg_defaultmtu a)
      ++ [("islocal",
           PyBool (match arg_islocal a with Some b => b | None => false end))]
  /\ client_data a
     = ("clientid", PyStr (arg_name a))
         :: forwarded "dns" PyStr (arg_dns a)
         ++ forwarded "extraallowedips" str_list (arg_extraallowedips a)
         ++ [("enabled",
              PyBool (match arg_enabled a with Some b => b | None => true end))]
         ++ forwarded "postup" PyStr (arg_postup a)
         ++ forwarded "postdown" PyStr (arg_postdown a).
Proof.
  destruct a as [kind name network gateway state url key user password certs
                   ar ar6 dns_default interface postdown_default postup_default
                   keepalive mtu islocal dns ips enabled postup postdown].
  split.
  - unfold network_data, build_data, network_params, params_get,
      module_params.
    cbn [arg_name arg_addressrange arg_addressrange6 arg_defaultextclientdns
         arg_defaultinterface arg_defaultpostdown arg_defaultpostup
         arg_defaultkeepalive arg_defaultmtu arg_islocal].
    destruct ar, ar6, dns_default, interface, postdown_default,
      postup_default, keepalive, mtu, islocal; reflexivity.
  - unfold client_data, build_data, extclient_params, params_get,
      module_params.
    cbn [arg_name arg_dns arg_extraallowedips arg_enabled arg_postup
         arg_postdown].
    destruct dns, ips, enabled, postup, postdown; reflexivity.
Qed.

(** An invocation that supplies no resource option still has [islocal],
    and for an external client [enabled], in its desired state. *)
Lemma unsupplied_defaults_are_forwarded :
  let a := bare_invocation Network "net1" "https://api.example.com"
             (Some "key") None in
  let c := bare_invocation Extclient "dev1" "https://api.example.com"
             (Some "key") None in
  arg_islocal a = None
  /\ network_data a = [("netid", PyStr "net1"); ("islocal", PyBool false)]
  /\ arg_enabled c = None
  /\ client_data c = [("clientid", PyStr "dev1"); ("enabled", PyBool true)].
Proof. repeat split; reflexivity. Qed.

(** ** Check mode *)

Lemma mutations_app (l1 l2 : list request) :
  mutations (l1 ++ l2) = (mutations l1 ++ mutations l2)%list.
Proof. apply filter_app. Qed.

Section CheckMode.

Variable env : environment.

Lemma _request_log (self : NetmakerAPI) (method : http_method)
    (endpoint : string) (data : pyval) (w : world env) :
  log (snd (_request env self method endpoint data w))
  = (log w ++ [ {| req_method := method;
                   req_url := base_url self ++ "/api" ++ endpoint;
                   req_headers := headers self;
                   req_json := data;
                   req_verify := validate_certs self |} ])%list.
Proof. rewrite _request_run. reflexivity. Qed.

(** A [GET] leaves the mutating requests of the log as they were. *)
Lemma _request_get_mutations (self : NetmakerAPI) (endpoint : string)
    (data : pyval) (w : world env) :
  mutations (log (snd (_request env self GET endpoint data w)))
  = mutations (log w).
Proof.
  rewrite _request_log, mutations_app. cbn [mutations filter mutating req_method].
  apply app_nil_r.
Qed.






End CheckMode.


(** ** The scenario: network "net1" is missing and gets created *)

Lemma net1_scenario_run (env : environment) (base_url key : string)
    (w : world env) (r : response) :
  key <> "" ->
  let api := NetmakerAPI_init env base_url (PyStr key) true in
  answer env api GET "/networks/net1" PyNone w = Replied r ->
  absent_reply r = true ->
  main env (net1_scenario base_url key) false w
  = let w1 := snd (get_network env api "net1" w) in
    let created := create_network env api net1_payload w1 in
    (match fst created with
     | Ok network =>
         ExitJson {| changed := true; resource := network;
                     msg := "Network 'net1' created" |}
     | Raise e =>
         FailJson ("Error managing Netmaker network: " ++ str_exn env e)
     end, snd created).
Proof.
  intros Hkey api Hanswer Habsent. cbv zeta.
  assert (Hk : String.eqb key "" = false) by now apply String.eqb_neq.
  unfold main.
  change (precondition (net1_scenario base_url key)) with (@None fault).
  unfold run_module.
  change (params_get (net1_scenario base_url key) "master_key")
    with (PyStr key).
  change (network_data (net1_scenario base_url key)) with net1_payload.
  change (arg_resource_type (net1_scenario base_url key)) with Network.
  change (state_of (net1_scenario base_url key)) with Present.
  change (validate_certs_of (net1_scenario base_url key)) with true.
  change (arg_name (net1_scenario base_url key)) with "net1".
  change (arg_base_url (net1_scenario base_url key)) with base_url.
  cbn [py_truthy]. rewrite Hk. cbn [negb].
  unfold bind at 1. unfold ret at 1.
  fold api. unfold manage_network, bind.
  assert (Hget : fst (get_network env api "net1" w) = Ok PyNone).
  { unfold get_network. rewrite _request_run. cbv zeta. cbn [fst].
    unfold answer in Hanswer.
    change ("/networks/" ++ "net1") with "/networks/net1".
    rewrite Hanswer. now apply request_result_absent. }
  destruct (get_network env api "net1" w) as [existing w1].
  cbn [fst snd] in *. subst existing. cbn [py_truthy].
  destruct (create_network env api net1_payload w1) as [[network|e] w2];
    reflexivity.
Qed.

(** C6, as [main] has it: for the scenario's options and a network the
    server reports missing, the run sends the lookup and then one create
    request whose payload is [netid], [addressrange], [defaultmtu] and the
    defaulted [islocal]; when the create request succeeds the result is
    [changed] with a message that contains "created". *)
Theorem net1_scenario_creates (env : environment) (base_url key : string)
    (w : world env) (r : response) :
  key <> "" ->
  let api := NetmakerAPI_init env base_url (PyStr key) true in
  answer env api GET "/networks/net1" PyNone w = Replied r ->
  absent_reply r = true ->
  let run := main env (net1_scenario base_url key) false w in
  let lookup :=
    {| req_method := GET;
       req_url := rstrip_slash base_url ++ "/api/networks/net1";
       req_headers := headers api;
       req_json := PyNone;
       req_verify := true |} in
  let create :=
    {| req_method := POST;
       req_url := rstrip_slash base_url ++ "/api/networks";
       req_headers := headers api;
       req_json := PyDict net1_payload;
       req_verify := true |} in
  log (snd run) = (log w ++ [lookup; create])%list
  /\ mutations (log (snd run)) = (mutations (log w) ++ [create])%list
  /\ (forall network,
         fst (create_network env api net1_payload
                (snd (get_network env api "net1" w))) = Ok network ->
         fst run = ExitJson {| changed := true; resource := network;
                               msg := "Network 'net1' created" |})
  /\ contains "created" "Network 'net1' created" = true
  /\ net1_payload
     = (net1_three_fields ++ [("islocal", PyBool false)])%list.
Proof.
  intros Hkey api Hanswer Habsent. cbv zeta.
  rewrite (net1_scenario_run env base_url key w r Hkey Hanswer Habsent).
  cbv zeta. cbn [fst snd]. fold api.
  assert (Hlog : log (snd (create_network env api net1_payload
                             (snd (get_network env api "net1" w))))
                 = (log w ++
                    [ {| req_method := GET;
                         req_url := rstrip_slash base_url ++ "/api/networks/net1";
                         req_headers := headers api;
                         req_json := PyNone;
                         req_verify := true |};
                      {| req_method := POST;
                         req_url := rstrip_slash base_url ++ "/api/networks";
                         req_headers := headers api;
                         req_json := PyDict net1_payload;
                         req_verify := true |} ])%list).
  { unfold create_network, get_network. rewrite !_request_log.
    rewrite <- app_assoc. reflexivity. }
  repeat split.
  - exact Hlog.
  - rewrite Hlog, mutations_app. reflexivity.
  - intros network Hcreated. now rewrite Hcreated.
Qed.

Lemma net1_scenario_creates_witness :
  fst (main replay (net1_scenario "https://api.example.com/" "key") false
         (replaying
            [ Replied {| status_code := 404; body := NoContent |};
              Replied {| status_code := 200;
                         body := JsonContent (PyDict net1_payload) |} ]))
  = ExitJson {| changed := true; resource := PyDict net1_payload;
                msg := "Network 'net1' created" |}.
Proof.
  set (w := replaying
              [ Replied {| status_code := 404; body := NoContent |};
                Replied {| status_code := 200;
                           body := JsonContent (PyDict net1_payload) |} ]).
  destruct (net1_scenario_creates replay "https://api.example.com/" "key" w
              {| status_code := 404; body := NoContent |})
    as (_ & _ & Hresult & _).
  - discriminate.
  - reflexivity.
  - reflexivity.
  - apply Hresult. reflexivity.
Defined.

(** The create request of the scenario carries a fourth field, [islocal],
    which the caller did not supply. *)
Lemma net1_scenario_payload_has_islocal :
  let run :=
    main replay (net1_scenario "https://api.example.com" "key") false
      (replaying
         [ Replied {| status_code := 404; body := NoContent |};
           Replied {| status_code := 200;
                      body := JsonContent (PyDict net1_payload) |} ]) in
  map req_json (mutations (log (snd run)))
  = [ PyDict [ ("netid", PyStr "net1"); ("addressrange", PyStr "10.0.0.0/24");
               ("defaultmtu", PyInt 1420); ("islocal", PyBool false) ] ]
  /\ map req_json (mutations (log (snd run))) <> [PyDict net1_three_fields]
  /\ arg_islocal (net1_scenario "https://api.example.com" "key") = None.
Proof.
  cbv zeta. repeat split; try reflexivity. discriminate.
Qed.

(** ** Failures *)

Lemma prefix_app (x s : string) : String.prefix x (x ++ s) = true.
Proof.
  induction x as [|c x IH]; cbn [String.prefix String.append].
  - now destruct s.
  - destruct (ascii_dec c c) as [_|Hne]; [exact IH|contradiction].
Qed.

Lemma contains_app (x p s : string) : contains x (p ++ x ++ s) = true.
Proof.
  induction p as [|c p IH].
  - cbn [String.append]. destruct (x ++ s) eqn:E; cbn [contains];
      rewrite <- E, prefix_app; reflexivity.
  - cbn [String.append contains]. rewrite IH.
    now destruct (String.prefix x (String c (p ++ x ++ s))).
Qed.

(** C8, as [main] has it: a failure raised once the arguments are accepted
    (authentication, transport, gateway resolution) is reported as "Error
    managing Netmaker", the resource type and the text of the underlying
    error, so the message includes the resource type; the resource name is
    not added to it. *)
Theorem failure_message (env : environment) (a : invocation)
    (check_mode : bool) (w w' : world env) (message : string) :
  precondition a = None ->
  main env a check_mode w = (FailJson message, w') ->
  exists e,
    run_module env a check_mode w = (Raise e, w')
    /\ message
       = "Error managing Netmaker "
           ++ resource_kind_name (arg_resource_type a) ++ ": " ++ str_exn env e
    /\ contains (resource_kind_name (arg_resource_type a)) message = true.
Proof.
  intros Hpre. unfold main. rewrite Hpre.
  destruct (run_module env a check_mode w) as [[res|e] w1]; intros Hmain;
    inversion Hmain; subst.
  exists e. repeat split.
  apply (contains_app _ "Error managing Netmaker ").
Qed.

Lemma failure_message_witness :
  exists e,
    run_module replay
      (bare_invocation Network "net1" "https://api.example.com"
         (Some "key") None)
      false (replaying []) = (Raise e, snd (run_module replay
      (bare_invocation Network "net1" "https://api.example.com"
         (Some "key") None)
      false (replaying [])))
    /\ "Error managing Netmaker network: API request failed: connection refused"
       = "Error managing Netmaker "
           ++ resource_kind_name Network ++ ": " ++ str_exn replay e
    /\ contains "network"
         "Error managing Netmaker network: API request failed: connection refused"
       = true.
Proof.
  apply (failure_message replay
           (bare_invocation Network "net1" "https://api.example.com"
              (Some "key") None) false (replaying [])).
  - reflexivity.
  - reflexivity.
Defined.

(** A failed authentication for network "net1" is reported without the
    name of the network. *)
Lemma authentication_failure_omits_name :
  let run :=
    main replay
      (bare_invocation Network "net1" "https://api.example.com"
         None (Some "secret"))
      false
      (replaying [Replied {| status_code := 200;
                             body := JsonContent (PyDict []) |}]) in
  fst run
  = FailJson
      "Error managing Netmaker network: Authentication failed: No token in response"
  /\ contains "net1"
       "Error managing Netmaker network: Authentication failed: No token in response"
     = false.
Proof. cbv zeta. split; reflexivity. Qed.

(** ** The locality flag *)

(** C10: the verdict of the network evaluator does not depend on the
    [islocal] entry of either argument, whether it is changed, added or
    removed; a desired state that is the remote network with another
    [islocal] is judged equal, and the network reconciler then reports no
    change and sends no update. *)
Theorem networks_equal_ignores_islocal (existing desired : dict) (v : pyval) :
  networks_equal (PyDict (dict_set existing "islocal" v)) desired
  = networks_equal (PyDict existing) desired
  /\ networks_equal (PyDict (dict_del existing "islocal")) desired
     = networks_equal (PyDict existing) desired
  /\ networks_equal (PyDict existing) (dict_set desired "islocal" v)
     = networks_equal (PyDict existing) desired
  /\ networks_equal (PyDict existing) (dict_del desired "islocal")
     = networks_equal (PyDict existing) desired
  /\ ((forall f x, In f network_comparable_fields ->
                   dict_get existing f = Some x -> scalar x = true) ->
      networks_equal (PyDict existing) (dict_set existing "islocal" v)
      = Ok true
      /\ forall env check_mode api name (w : world env),
           fst (get_network env api name w) = Ok (PyDict existing) ->
           existing <> [] ->
           let run :=
             manage_network env check_mode api name Present
               (dict_set existing "islocal" v) w in
           reported_changed (fst run) = Some false
           /\ mutations (log (snd run)) = mutations (log w)).
Proof.
  destruct (networks_equal_islocal_invariance existing desired v)
    as (H1 & H2 & H3 & H4 & H5).
  split; [exact H1|]. split; [exact H2|]. split; [exact H3|].
  split; [exact H4|].
  intros Hscalar. split; [now apply H5|].
  intros env check_mode api name w Hget Hne. cbv zeta.
  rewrite <- (_request_get_mutations env api ("/networks/" ++ name) PyNone w).
  revert Hget. unfold manage_network, get_network, bind, lift, ret.
  destruct (_request env api GET ("/networks/" ++ name) PyNone w) as [g w1].
  cbn [fst snd]. intros ->.
  replace (py_truthy (PyDict existing)) with true
    by (destruct existing; [contradiction|reflexivity]).
  rewrite (H5 Hscalar). split; reflexivity.
Qed.

Lemma networks_equal_ignores_islocal_witness :
  networks_equal
    (PyDict [("netid", PyStr "net1"); ("defaultmtu", PyInt 1420);
             ("islocal", PyStr "no")])
    (dict_set [("netid", PyStr "net1"); ("defaultmtu", PyInt 1420);
               ("islocal", PyStr "no")] "islocal" (PyBool true))
  = Ok true.
Proof.
  apply (networks_equal_ignores_islocal
           [("netid", PyStr "net1"); ("defaultmtu", PyInt 1420);
            ("islocal", PyStr "no")] [] (PyBool true)).
  intros f x Hf Hx. unfold network_comparable_fields in Hf. simpl in Hf.
  repeat (destruct Hf as [<- | Hf]; [simpl in Hx; inversion Hx; reflexivity|]).
  destruct Hf.
Defined.


(** ** The client and its base URL *)

Lemma rstrip_slash_no_trailing (s : string) :
  ends_with_slash (rstrip_slash s) = false.
Proof.
  induction s as [|c rest IH]; [reflexivity|].
  cbn [rstrip_slash].
  destruct (rstrip_slash rest) as [|c' r] eqn:E.
  - destruct (Ascii.eqb c "/"%char) eqn:Ec; [reflexivity|].
    cbn [ends_with_slash]. exact Ec.
  - cbn [ends_with_slash]. exact IH.
Qed.

Lemma rstrip_slash_unchanged (s : string) :
  ends_with_slash s = false -> rstrip_slash s = s.
Proof.
  induction s as [|c rest IH]; [reflexivity|].
  cbn [rstrip_slash ends_with_slash].
  destruct rest as [|c' r].
  - cbn [rstrip_slash]. now intros ->.
  - intros H. now rewrite (IH H).
Qed.

Lemma rstrip_slash_one_more (s : string) :
  rstrip_slash (s ++ "/") = rstrip_slash s.
Proof.
  induction s as [|c rest IH]; [reflexivity|].
  cbn [String.append rstrip_slash]. now rewrite IH.
Qed.

(** X1: the client keeps the base URL without its trailing slashes: what it
    keeps never ends in a slash, a URL that does not end in one is kept as
    it is, and one more slash at the end makes no difference; the token goes
    into the [Authorization] header after "Bearer ". *)
Theorem init_strips_trailing_slashes (env : environment) (url : string)
    (token : pyval) (verify : bool) :
  let api := NetmakerAPI_init env url token verify in
  ends_with_slash (base_url api) = false
  /\ (ends_with_slash url = false -> base_url api = url)
  /\ NetmakerAPI_init env (url ++ "/") token verify = api
  /\ dict_get (headers api) "Authorization"
     = Some (PyStr ("Bearer " ++ py_str env token))
  /\ validate_certs api = verify.
Proof.
  cbv zeta. unfold NetmakerAPI_init. cbn [base_url headers validate_certs].
  repeat split.
  - apply rstrip_slash_no_trailing.
  - apply rstrip_slash_unchanged.
  - now rewrite rstrip_slash_one_more.
Qed.

Lemma init_strips_trailing_slashes_witness :
  base_url (NetmakerAPI_init replay "https://api.example.com/v1"
              (PyStr "key") true)
  = "https://api.example.com/v1"
  /\ base_url (NetmakerAPI_init replay "https://api.example.com//"
                 (PyStr "key") true)
     = "https://api.example.com".
Proof.
  split.
  - apply (init_strips_trailing_slashes replay "https://api.example.com/v1"
             (PyStr "key") true).
    reflexivity.
  - reflexivity.
Defined.

(** ** What a request can come back with *)

(** X2: a call of [_request] calls [requests.request] exactly once, with
    the method and data it was given, the client's headers and a URL under
    the client's base URL.  The exception it raises, if any, is an
    [Exception] whose text starts with "API request failed: ", unless
    [requests.request] itself raised an exception that is not a
    [RequestException], as a [UnicodeEncodeError]: that one is not caught
    and leaves [_request] unchanged, while a [RequestException] it raised
    is wrapped like the others. *)
Theorem _request_calls_once_and_wraps (env : environment)
    (self : NetmakerAPI) (method : http_method) (endpoint : string)
    (data : pyval) (w : world env) :
  (exists req,
      log (snd (_request env self method endpoint data w))
      = (log w ++ [req])%list
      /\ from_client self req
      /\ req_method req = method
      /\ req_json req = data)
  /\ (forall e,
         fst (_request env self method endpoint data w) = Raise e ->
         (exists text, e = Exception ("API request failed: " ++ text))
         \/ (exists f, e = Fault f
                       /\ is_request_exception f = false
                       /\ answer env self method endpoint data w = Failed f))
  /\ (forall f,
         answer env self method endpoint data w = Failed f ->
         fst (_request env self method endpoint data w)
         = if is_request_exception f
           then Raise (Exception
                         ("API request failed: " ++ fault_text env f))
           else Raise (Fault f)).
Proof.
  rewrite _request_run. cbv zeta. cbn [fst snd log]. unfold answer.
  split; [|split].
  - eexists. split; [reflexivity|].
    repeat split. now exists endpoint.
  - intros e. unfold request_result.
    destruct (fst (serve env (remote w) _)) as [r|text|f].
    + destruct (status_code r =? 404); [discriminate|].
      destruct (status_code r =? 204); [discriminate|].
      destruct ((status_code r =? 500) && no_result_found r); [discriminate|].
      destruct (raise_for_status r).
      * intros H. inversion H. left. eexists. reflexivity.
      * destruct (body r); try discriminate.
        intros H. inversion H. left. eexists. reflexivity.
    + intros H. inversion H. left. eexists. reflexivity.
    + destruct (is_request_exception f) eqn:Hclass; intros H; inversion H.
      * left. eexists. reflexivity.
      * right. exists f. now repeat split.
  - intros f ->. reflexivity.
Qed.

Lemma _request_calls_once_and_wraps_witness :
  fst (_request replay
         (NetmakerAPI_init replay "https://api.example.com" (PyStr "key") true)
         GET "/networks/net1" PyNone
         (replaying [Failed (OtherError "UnicodeEncodeError")]))
  = Raise (Fault (OtherError "UnicodeEncodeError"))
  /\ ((exists text,
          Exception "API request failed: connection refused"
          = Exception ("API request failed: " ++ text))
      \/ (exists f,
             Exception "API request failed: connection refused" = Fault f
             /\ is_request_exception f = false
             /\ answer replay
                  (NetmakerAPI_init replay "https://api.example.com"
                     (PyStr "key") true)
                  GET "/networks/net1" PyNone (replaying []) = Failed f)).
Proof.
  split.
  - destruct (_request_calls_once_and_wraps replay
                (NetmakerAPI_init replay "https://api.example.com"
                   (PyStr "key") true)
                GET "/networks/net1" PyNone
                (replaying [Failed (OtherError "UnicodeEncodeError")]))
      as (_ & _ & Hfailed).
    exact (Hfailed (OtherError "UnicodeEncodeError") eq_refl).
  - destruct (_request_calls_once_and_wraps replay
                (NetmakerAPI_init replay "https://api.example.com"
                   (PyStr "key") true)
                GET "/networks/net1" PyNone (replaying []))
      as (_ & Hwrap & _).
    apply Hwrap. reflexivity.
Defined.

Lemma append_empty_r (s : string) : s ++ "" = s.
Proof.
  induction s as [|c s IH]; [reflexivity|].
  cbn [String.append]. now rewrite IH.
Qed.

(** X3: an answer with a 4xx or 5xx status that is not one of the two "not
    found" answers makes [_request] raise with the text of the HTTP error;
    when the body is a JSON object with a string [Message], " - " and that
    message are appended, and nothing is appended when the body is empty,
    is not JSON, or is an object without [Message]. *)
Theorem _request_http_error (env : environment) (self : NetmakerAPI)
    (method : http_method) (endpoint : string) (data : pyval)
    (w : world env) (r : response) :
  answer env self method endpoint data w = Replied r ->
  raise_for_status r = true ->
  status_code r <> 404 ->
  (status_code r = 500 -> no_result_found r = false) ->
  let text :=
    fault_text env
      (HTTPError (status_code r) (base_url self ++ "/api" ++ endpoint)) in
  (forall d m,
      body r = JsonContent (PyDict d) ->
      dict_get d "Message" = Some (PyStr m) ->
      fst (_request env self method endpoint data w)
      = Raise (Exception ("API request failed: " ++ text ++ " - " ++ m)))
  /\ (body r = NoContent \/ body r = OtherContent
      \/ (exists d, body r = JsonContent (PyDict d)
                    /\ dict_get d "Message" = None) ->
      fst (_request env self method endpoint data w)
      = Raise (Exception ("API request failed: " ++ text))).
Proof.
  intros Hanswer Hraise H404 H500. cbv zeta.
  assert (Hrun : forall suffix,
             message_suffix env r = suffix ->
             fst (_request env self method endpoint data w)
             = Raise (Exception
                        ("API request failed: "
                           ++ fault_text env
                                (HTTPError (status_code r)
                                   (base_url self ++ "/api" ++ endpoint))
                           ++ suffix))).
  { intros suffix <-. rewrite _request_run. cbv zeta. cbn [fst].
    unfold answer in Hanswer. rewrite Hanswer. unfold request_result.
    destruct (status_code r =? 404) eqn:E404;
      [apply Z.eqb_eq in E404; contradiction|].
    destruct (status_code r =? 204) eqn:E204.
    { apply Z.eqb_eq in E204. unfold raise_for_status in Hraise.
      rewrite E204 in Hraise. discriminate. }
    destruct (status_code r =? 500) eqn:E500.
    - apply Z.eqb_eq in E500. rewrite (H500 E500). cbn [andb].
      now rewrite Hraise.
    - cbn [andb]. now rewrite Hraise. }
  split.
  - intros d m Hbody Hm. apply Hrun.
    unfold message_suffix, response_json. rewrite Hbody.
    cbn [rbind py_contains py_getitem]. unfold dict_mem. rewrite Hm.
    reflexivity.
  - intros Hbody.
    replace ("API request failed: "
               ++ fault_text env
                    (HTTPError (status_code r)
                       (base_url self ++ "/api" ++ endpoint)))
      with ("API request failed: "
              ++ fault_text env
                   (HTTPError (status_code r)
                      (base_url self ++ "/api" ++ endpoint)) ++ "").
    + apply Hrun. unfold message_suffix, response_json.
      destruct Hbody as [-> | [-> | (d & -> & Hm)]]; try reflexivity.
      cbn [rbind py_contains]. unfold dict_mem. now rewrite Hm.
    + now rewrite append_empty_r.
Qed.

Lemma _request_http_error_witness :
  fst (_request replay
         (NetmakerAPI_init replay "https://api.example.com" (PyStr "key") true)
         POST "/networks" (PyDict [("netid", PyStr "net1")])
         (replaying
            [Replied {| status_code := 400;
                        body := JsonContent
                          (PyDict [("Code", PyInt 400);
                                   ("Message", PyStr "invalid address range")])
                     |}]))
  = Raise (Exception "API request failed:  - invalid address range").
Proof.
  set (r := {| status_code := 400;
               body := JsonContent
                 (PyDict [("Code", PyInt 400);
                          ("Message", PyStr "invalid address range")]) |}).
  destruct (_request_http_error replay
              (NetmakerAPI_init replay "https://api.example.com" (PyStr "key")
                 true)
              POST "/networks" (PyDict [("netid", PyStr "net1")])
              (replaying [Replied r]) r) as [Hmsg _].
  - reflexivity.
  - reflexivity.
  - discriminate.
  - discriminate.
  - apply (Hmsg [("Code", PyInt 400);
                 ("Message", PyStr "invalid address range")]
             "invalid address range"); reflexivity.
Defined.

(** ** Authentication *)

(** X4: [authenticate] sends one POST to "/users/adm/authenticate" with the
    user name and password and nothing else.  It returns the value under
    [Response] and then [AuthToken] of the answer; it raises
    "Authentication failed: No token in response" when the answer is falsy
    (a "not found", an empty object) or an object without that entry; an
    answer without body, which comes back as [True], makes it raise the
    interpreter's type error instead; a failed request is passed on. *)
Theorem authenticate_token (env : environment) (self : NetmakerAPI)
    (username password : pyval) (w : world env) :
  let post :=
    _request env self POST "/users/adm/authenticate"
      (PyDict [("username", username); ("password", password)]) w in
  let run := authenticate env self username password w in
  let no_token := Exception "Authentication failed: No token in response" in
  snd run = snd post
  /\ (forall result response t,
         fst post = Ok (PyDict result) ->
         dict_get result "Response" = Some (PyDict response) ->
         dict_get response "AuthToken" = Some t ->
         fst run = Ok t)
  /\ (forall v, fst post = Ok v -> py_truthy v = false ->
                fst run = Raise no_token)
  /\ (forall result,
         fst post = Ok (PyDict result) ->
         dict_get result "Response" = None
         \/ (exists response,
                dict_get result "Response" = Some (PyDict response)
                /\ dict_get response "AuthToken" = None) ->
         fst run = Raise no_token)
  /\ (fst post = Ok (PyBool true) ->
      fst run = Raise (Fault (NotIterable (PyBool true))))
  /\ (forall e, fst post = Raise e -> fst run = Raise e).
Proof.
  cbv zeta. unfold authenticate, bind, lift, raise.
  destruct (_request env self POST "/users/adm/authenticate"
              (PyDict [("username", username); ("password", password)]) w)
    as [[v|e] w1]; cbn [fst snd].
  - repeat split.
    + repeat match goal with
             | |- context [if ?c then _ else _] => destruct c
             | |- context [match ?x with Ok _ => _ | Raise _ => _ end] =>
                 destruct x
             end; reflexivity.
    + intros result response t Hv Hr Ht. inversion Hv; subst v.
      replace (py_truthy (PyDict result)) with true
        by (destruct result; [discriminate Hr|reflexivity]).
      cbn [negb py_contains py_getitem]. unfold dict_mem.
      rewrite Hr. cbn [negb py_contains py_getitem]. unfold dict_mem.
      rewrite Ht. reflexivity.
    + intros v' Hv Hfalsy. inversion Hv; subst v'. now rewrite Hfalsy.
    + intros result Hv Hmissing. inversion Hv; subst v.
      destruct (py_truthy (PyDict result)); [|reflexivity].
      cbn [negb py_contains py_getitem]. unfold dict_mem.
      destruct Hmissing as [Hr | (response & Hr & Ht)]; rewrite Hr;
        [reflexivity|].
      cbn [negb py_contains py_getitem]. unfold dict_mem. now rewrite Ht.
    + intros Hv. inversion Hv. reflexivity.
    + intros e Hv. discriminate Hv.
  - repeat split; try discriminate.
    intros e' He. now inversion He.
Qed.

Lemma authenticate_token_witness :
  fst (authenticate replay
         (NetmakerAPI_init replay "https://api.example.com" (PyStr "") true)
         (PyStr "oriol") (PyStr "secret")
         (replaying
            [Replied {| status_code := 200;
                        body := JsonContent
                          (PyDict [("Code", PyInt 200);
                                   ("Response",
                                    PyDict [("UserName", PyStr "oriol");
                                            ("AuthToken", PyStr "eyJ")])])
                     |}]))
  = Ok (PyStr "eyJ").
Proof.
  destruct (authenticate_token replay
              (NetmakerAPI_init replay "https://api.example.com" (PyStr "")
                 true)
              (PyStr "oriol") (PyStr "secret")
              (replaying
                 [Replied {| status_code := 200;
                             body := JsonContent
                               (PyDict [("Code", PyInt 200);
                                        ("Response",
                                         PyDict [("UserName", PyStr "oriol");
                                                 ("AuthToken", PyStr "eyJ")])])
                          |}])) as (_ & Htoken & _).
  apply (Htoken [("Code", PyInt 200);
                 ("Response", PyDict [("UserName", PyStr "oriol");
                                      ("AuthToken", PyStr "eyJ")])]
           [("UserName", PyStr "oriol"); ("AuthToken", PyStr "eyJ")]
           (PyStr "eyJ")); reflexivity.
Defined.

(** ** Looking up an external client *)

Lemma scan_clients_turn (client_id : string) (client : dict)
    (rest : list pyval) :
  scan_clients client_id (PyDict client :: rest)
  = if has_clientid client_id client then Ok (PyDict client)
    else scan_clients client_id rest.
Proof.
  cbn [scan_clients py_get rbind]. unfold has_clientid.
  now destruct (dict_get client "clientid").
Qed.

Lemma scan_clients_first (client_id : string) (before : list dict)
    (client : dict) (after : list pyval) :
  (forall c, In c before -> has_clientid client_id c = false) ->
  has_clientid client_id client = true ->
  scan_clients client_id (map PyDict before ++ PyDict client :: after)
  = Ok (PyDict client).
Proof.
  intros Hbefore Hclient.
  induction before as [|c before IH]; cbn [map app]; rewrite scan_clients_turn.
  - now rewrite Hclient.
  - rewrite (Hbefore c (or_introl eq_refl)).
    apply IH. intros c' Hc'. apply Hbefore. now right.
Qed.

Lemma scan_clients_none (client_id : string) (listed : list dict) :
  (forall c, In c listed -> has_clientid client_id c = false) ->
  scan_clients client_id (map PyDict listed) = Ok PyNone.
Proof.
  intros Hnone.
  induction listed as [|c listed IH]; cbn [map]; [reflexivity|].
  rewrite scan_clients_turn, (Hnone c (or_introl eq_refl)).
  apply IH. intros c' Hc'. apply Hnone. now right.
Qed.

(** X5: [get_extclient] sends the one GET that lists the clients of the
    network; it returns the first listed client whose [clientid] is the
    wanted one, and [None] when the list is missing or empty or has no such
    client. *)
Theorem get_extclient_first (env : environment) (api : NetmakerAPI)
    (network client_id : string) (w : world env) (v : pyval) :
  let listing := _request env api GET ("/extclients/" ++ network) PyNone w in
  let run := get_extclient env api network client_id w in
  fst listing = Ok v ->
  snd run = snd listing
  /\ (py_truthy v = false -> fst run = Ok PyNone)
  /\ (forall before client after,
         v = PyList (map PyDict before ++ PyDict client :: after) ->
         (forall c, In c before -> has_clientid client_id c = false) ->
         has_clientid client_id client = true ->
         fst run = Ok (PyDict client))
  /\ (forall listed,
         v = PyList (map PyDict listed) ->
         (forall c, In c listed -> has_clientid client_id c = false) ->
         fst run = Ok PyNone).
Proof.
  cbv zeta. unfold get_extclient, list_extclients, bind, lift, ret.
  destruct (_request env api GET ("/extclients/" ++ network) PyNone w)
    as [g w1].
  cbn [fst snd]. intros ->. repeat split.
  - intros Hfalsy. now rewrite Hfalsy.
  - intros before client after -> Hbefore Hclient.
    replace (py_truthy (PyList (map PyDict before ++ PyDict client :: after)))
      with true by (now destruct before).
    cbn [py_iter rbind fst]. now apply scan_clients_first.
  - intros listed -> Hnone.
    destruct listed as [|c listed]; [reflexivity|].
    cbn [map py_truthy py_iter rbind fst].
    now apply (scan_clients_none client_id (c :: listed)).
Qed.

Lemma get_extclient_first_witness :
  fst (get_extclient replay
         (NetmakerAPI_init replay "https://api.example.com" (PyStr "key") true)
         "iot" "dev2"
         (replaying
            [Replied
               {| status_code := 200;
                  body := JsonContent
                    (PyList
                       [ PyDict [("clientid", PyStr "dev1");
                                 ("address", PyStr "10.0.0.2")];
                         PyDict [("clientid", PyStr "dev2");
                                 ("address", PyStr "10.0.0.3")] ]) |}]))
  = Ok (PyDict [("clientid", PyStr "dev2"); ("address", PyStr "10.0.0.3")]).
Proof.
  set (clients := PyList
                    [ PyDict [("clientid", PyStr "dev1");
                              ("address", PyStr "10.0.0.2")];
                      PyDict [("clientid", PyStr "dev2");
                              ("address", PyStr "10.0.0.3")] ]).
  destruct (get_extclient_first replay
              (NetmakerAPI_init replay "https://api.example.com" (PyStr "key")
                 true)
              "iot" "dev2"
              (replaying [Replied {| status_code := 200;
                                     body := JsonContent clients |}])
              clients eq_refl) as (_ & _ & Hfirst & _).
  apply (Hfirst [[("clientid", PyStr "dev1"); ("address", PyStr "10.0.0.2")]]
           [("clientid", PyStr "dev2"); ("address", PyStr "10.0.0.3")] []).
  - reflexivity.
  - intros c [<- | []]. reflexivity.
  - reflexivity.
Defined.

(** ** The requests of a run *)

Section Sends.

Variable env : environment.
Variable api : NetmakerAPI.

Lemma sends_ret {A} (a : A) (total changing : nat) :
  sends api (ret a : M env A) total changing.
Proof.
  intros w. exists []. cbn [ret snd].
  rewrite app_nil_r. repeat split; cbn; try lia. constructor.
Qed.

Lemma sends_raise {A} (e : exn) (total changing : nat) :
  sends api (raise e : M env A) total changing.
Proof.
  intros w. exists []. cbn [raise snd].
  rewrite app_nil_r. repeat split; cbn; try lia. constructor.
Qed.

Lemma sends_lift {A} (r : result A) (total changing : nat) :
  sends api (lift r : M env A) total changing.
Proof.
  intros w. exists []. cbn [lift snd].
  rewrite app_nil_r. repeat split; cbn; try lia. constructor.
Qed.

Lemma sends_bind {A B} (m : M env A) (k : A -> M env B)
    (a b c d total changing : nat) :
  sends api m a b ->
  (forall x, sends api (k x) c d) ->
  (a + c <= total)%nat ->
  (b + d <= changing)%nat ->
  sends api (bind m k) total changing.
Proof.
  intros Hm Hk Htotal Hchanging w. unfold bind.
  destruct (Hm w) as (new1 & Hlog1 & Hlen1 & Hmut1 & Hall1).
  destruct (m w) as [[x|e] w1]; cbn [snd] in Hlog1.
  - destruct (Hk x w1) as (new2 & Hlog2 & Hlen2 & Hmut2 & Hall2).
    exists (new1 ++ new2)%list. repeat split.
    + now rewrite Hlog2, Hlog1, app_assoc.
    + rewrite length_app. lia.
    + rewrite mutations_app, length_app. lia.
    + now apply Forall_app.
  - exists new1. cbn [snd]. repeat split; try assumption; lia.
Qed.

Lemma sends_request (method : http_method) (endpoint : string)
    (data : pyval) (total changing : nat) :
  sends api (_request env api method endpoint data) (S total)
    (if mutating method then S changing else changing).
Proof.
  intros w. eexists. split; [apply _request_log|].
  repeat split.
  - cbn. lia.
  - cbn [mutations filter req_method]. destruct (mutating method); cbn; lia.
  - constructor; [|constructor]. repeat split. now exists endpoint.
Qed.

Lemma sends_find_ingress_gateway (network : string) (total changing : nat) :
  sends api (find_ingress_gateway env api network) (S total) changing.
Proof.
  unfold find_ingress_gateway, list_nodes.
  apply (sends_bind _ _ 1 0 0 0); try lia.
  - apply (sends_request GET _ _ 0 0).
  - intros nodes. destruct (negb (py_truthy nodes));
      [apply sends_raise|apply sends_lift].
Qed.

Lemma sends_get_extclient (network client_id : string) :
  sends api (get_extclient env api network client_id) 1 0.
Proof.
  unfold get_extclient, list_extclients.
  apply (sends_bind _ _ 1 0 0 0); try lia.
  - apply (sends_bind _ _ 1 0 0 0); try lia.
    + apply (sends_request GET _ _ 0 0).
    + intros result. apply sends_ret.
  - intros clients. apply sends_lift.
Qed.

Lemma sends_manage_network (check_mode : bool) (name : string)
    (state : desired_state) (data : dict) :
  sends api (manage_network env check_mode api name state data) 2 1.
Proof.
  unfold manage_network, get_network, create_network, update_network,
    delete_network.
  apply (sends_bind _ _ 1 0 1 1); try lia.
  - apply (sends_request GET _ _ 0 0).
  - intros existing.
    destruct state, (py_truthy existing), check_mode;
      try apply sends_ret.
    + apply (sends_bind _ _ 0 0 1 1); [apply sends_lift| |lia|lia].
      intros equal. destruct equal; apply sends_ret.
    + apply (sends_bind _ _ 0 0 1 1); [apply sends_lift| |lia|lia].
      intros equal. destruct equal; [apply sends_ret|].
      apply (sends_bind _ _ 0 0 1 1); [apply sends_lift| |lia|lia].
      intros update_data.
      apply (sends_bind _ _ 1 1 0 0); [ | |lia|lia].
      * apply (sends_request PUT _ _ 0 0).
      * intros updated. apply sends_ret.
    + apply (sends_bind _ _ 1 1 0 0); [ | |lia|lia].
      * apply (sends_request POST _ _ 0 0).
      * intros created. apply sends_ret.
    + apply (sends_bind _ _ 1 1 0 0); [ | |lia|lia].
      * apply (sends_request DELETE _ _ 0 0).
      * intros deleted. apply sends_ret.
Qed.

Lemma sends_manage_extclient (check_mode : bool) (name network : string)
    (gateway : pyval) (state : desired_state) (data : dict) :
  sends api
    (manage_extclient env check_mode api name network gateway state data) 3 1.
Proof.
  unfold manage_extclient, create_extclient, update_extclient,
    delete_extclient.
  apply (sends_bind _ _ 1 0 2 1); try lia.
  - apply sends_get_extclient.
  - intros existing.
    destruct state, (py_truthy existing), check_mode;
      try apply sends_ret.
    + apply (sends_bind _ _ 0 0 1 1); [apply sends_lift| |lia|lia].
      intros equal. destruct equal; apply sends_ret.
    + apply (sends_bind _ _ 0 0 1 1); [apply sends_lift| |lia|lia].
      intros equal. destruct equal; [apply sends_ret|].
      apply (sends_bind _ _ 0 0 1 1); [apply sends_lift| |lia|lia].
      intros update_data.
      apply (sends_bind _ _ 1 1 0 0); [ | |lia|lia].
      * apply (sends_request PUT _ _ 0 0).
      * intros updated. apply sends_ret.
    + apply (sends_bind _ _ 1 0 1 1); [ | |lia|lia].
      * destruct (py_eq gateway (PyStr "auto"));
          [apply sends_find_ingress_gateway|apply sends_ret].
      * intros gateway_id.
        apply (sends_bind _ _ 1 1 0 0); [ | |lia|lia].
        -- apply (sends_request POST _ _ 0 0).
        -- intros created. apply sends_ret.
    + apply (sends_bind _ _ 1 1 0 0); [ | |lia|lia].
      * apply (sends_request DELETE _ _ 0 0).
      * intros deleted. apply sends_ret.
Qed.

End Sends.

(** X6: a run of a reconciler only adds to the log requests of its client
    (its headers, its certificate check, a URL under its base URL and
    "/api"): at most two for a network, at most three for an external
    client, and of these at most one is mutating; gateway resolution sends
    one request, which is not mutating. *)
Theorem reconcilers_send_few_requests (env : environment) (api : NetmakerAPI)
    (check_mode : bool) (name network : string) (gateway : pyval)
    (state : desired_state) (data : dict) :
  sends api (manage_network env check_mode api name state data) 2 1
  /\ sends api
       (manage_extclient env check_mode api name network gateway state data)
       3 1
  /\ sends api (find_ingress_gateway env api network) 1 0.
Proof.
  repeat split.
  - apply sends_manage_network.
  - apply sends_manage_extclient.
  - apply sends_find_ingress_gateway.
Qed.

(** ** Merging the desired state into the remote object *)

Lemma dict_get_not_in (d : dict) (k : string) :
  ~ In k (map fst d) -> dict_get d k = None.
Proof.
  induction d as [|[k' v] rest IH]; [reflexivity|].
  cbn [map fst In dict_get]. intros Hnot.
  destruct (String.eqb k' k) eqn:E.
  - apply String.eqb_eq in E. tauto.
  - apply IH. tauto.
Qed.

Lemma dict_get_in (d : dict) (k : string) :
  In k (map fst d) -> dict_get d k <> None.
Proof.
  induction d as [|[k' v] rest IH]; [intros []|].
  cbn [map fst In dict_get]. intros Hin.
  destruct (String.eqb k' k) eqn:E; [discriminate|].
  apply IH. destruct Hin as [->|Hin]; [|exact Hin].
  rewrite String.eqb_refl in E. discriminate.
Qed.

Lemma dict_update_get (base extra : dict) (k : string) :
  NoDup (map fst extra) ->
  dict_get (dict_update base extra) k
  = match dict_get extra k with
    | Some v => Some v
    | None => dict_get base k
    end.
Proof.
  unfold dict_update. revert base.
  induction extra as [|[k1 v1] rest IH]; intros base Hnodup; [reflexivity|].
  cbn [fold_left fst snd dict_get map] in *.
  inversion Hnodup as [|? ? Hnotin Hrest]; subst.
  rewrite (IH _ Hrest).
  destruct (String.eqb k1 k) eqn:E.
  - apply String.eqb_eq in E. subst k1.
    now rewrite (dict_get_not_in rest k Hnotin), dict_get_set_same.
  - apply String.eqb_neq in E.
    now rewrite (dict_get_set_other base k1 k v1 E).
Qed.

(** Setting a key keeps the keys distinct. *)
Lemma dict_set_keys (d : dict) (k : string) (v : pyval) :
  map fst (dict_set d k v)
  = if dict_mem k d then map fst d else (map fst d ++ [k])%list.
Proof.
  unfold dict_mem.
  induction d as [|[k' v'] rest IH]; [reflexivity|].
  cbn [dict_set dict_get map fst].
  destruct (String.eqb k' k) eqn:E.
  - apply String.eqb_eq in E. now subst.
  - cbn [map fst]. rewrite IH.
    now destruct (dict_get rest k).
Qed.

Lemma dict_set_nodup (d : dict) (k : string) (v : pyval) :
  NoDup (map fst d) -> NoDup (map fst (dict_set d k v)).
Proof.
  intros Hnodup. rewrite dict_set_keys. unfold dict_mem.
  destruct (dict_get d k) eqn:E; [exact Hnodup|].
  apply NoDup_app; [exact Hnodup|repeat constructor; intros []|].
  intros x Hx [Hk|[]]. subst x.
  now apply (dict_get_in d k Hx).
Qed.

(** X7: the update payload is the remote object overlaid by the desired
    state: a key of the desired state has the desired value, any other key
    keeps the remote value; a remote value that is not an object has no
    such copy and the attempt raises. *)
Theorem copy_update_overlays (existing desired : dict) :
  NoDup (map fst desired) ->
  exists update_data,
    copy_update (PyDict existing) desired = Ok update_data
    /\ (forall k v, dict_get desired k = Some v ->
                    dict_get update_data k = Some v)
    /\ (forall k, dict_get desired k = None ->
                  dict_get update_data k = dict_get existing k)
    /\ (forall other,
           (forall d, other <> PyDict d) ->
           exists f, copy_update other desired = Raise (Fault f)).
Proof.
  intros Hnodup. exists (dict_update existing desired).
  split; [reflexivity|]. repeat split.
  - intros k v Hk. now rewrite dict_update_get, Hk.
  - intros k Hk. now rewrite dict_update_get, Hk.
  - intros other Hother. destruct other; cbn [copy_update];
      try (eexists; reflexivity).
    now destruct (Hother d).
Qed.

Lemma copy_update_overlays_witness :
  exists update_data,
    copy_update
      (PyDict [("netid", PyStr "net1"); ("defaultmtu", PyInt 1280);
               ("nodelimit", PyInt 999)])
      [("netid", PyStr "net1"); ("defaultmtu", PyInt 1420)]
    = Ok update_data
    /\ dict_get update_data "defaultmtu" = Some (PyInt 1420)
    /\ dict_get update_data "nodelimit" = Some (PyInt 999).
Proof.
  destruct (copy_update_overlays
              [("netid", PyStr "net1"); ("defaultmtu", PyInt 1280);
               ("nodelimit", PyInt 999)]
              [("netid", PyStr "net1"); ("defaultmtu", PyInt 1420)])
    as (u & Hu & Hdesired & Hkept & _).
  - repeat constructor; cbn; intuition discriminate.
  - exists u. split; [exact Hu|]. split.
    + now apply Hdesired.
    + now rewrite Hkept.
Defined.

(** ** The desired state is made of plain values under distinct keys *)

Lemma forallb_is_str_map (l : list string) :
  forallb is_str (map PyStr l) = true.
Proof. induction l as [|s l IH]; [reflexivity|exact IH]. Qed.

Lemma param_plain {A} (inj : A -> pyval) (supplied default : option A) :
  (forall x, plain_value (inj x) = true) ->
  plain_value (param inj supplied default) = true.
Proof.
  intros Hinj. unfold param.
  destruct supplied, default; try apply Hinj; reflexivity.
Qed.

Lemma params_get_plain (a : invocation) (p : string) :
  plain_value (params_get a p) = true.
Proof.
  unfold params_get, module_params. cbn [dict_get].
  repeat match goal with
         | |- context [if String.eqb ?k p then _ else _] =>
             destruct (String.eqb k p);
             [ first [ reflexivity
                     | apply param_plain; intros x;
                       first [reflexivity | apply forallb_is_str_map] ] | ]
         end.
  reflexivity.
Qed.

Lemma build_data_well_formed (a : invocation) (id_key : string)
    (params : list string) :
  well_formed_data (build_data a id_key params).
Proof.
  unfold build_data.
  assert (Hstart : well_formed_data [(id_key, PyStr (arg_name a))]).
  { split.
    - repeat constructor. intros [].
    - intros k v. cbn [dict_get].
      destruct (String.eqb id_key k); [|discriminate].
      intros H. inversion H. split; [reflexivity|discriminate]. }
  revert Hstart. generalize [(id_key, PyStr (arg_name a))].
  induction params as [|p params IH]; intros data Hdata; [exact Hdata|].
  cbn [fold_left]. apply IH.
  destruct (is_none (params_get a p)) eqn:Enone; cbn [negb]; [exact Hdata|].
  destruct Hdata as [Hnodup Hvalues]. split.
  - now apply dict_set_nodup.
  - intros k v.
    destruct (string_dec p k) as [<-|Hne].
    + rewrite dict_get_set_same. intros H. inversion H; subst v.
      split; [apply params_get_plain|].
      intros Heq. rewrite Heq in Enone. discriminate.
    + rewrite (dict_get_set_other data p k _ Hne). apply Hvalues.
Qed.

Lemma build_data_identifier (a : invocation) (id_key : string)
    (params : list string) :
  ~ In id_key params ->
  dict_get (build_data a id_key params) id_key = Some (PyStr (arg_name a)).
Proof.
  unfold build_data. intros Hnot.
  assert (Hstart : dict_get [(id_key, PyStr (arg_name a))] id_key
                   = Some (PyStr (arg_name a))).
  { cbn [dict_get]. now rewrite String.eqb_refl. }
  revert Hstart. generalize [(id_key, PyStr (arg_name a))].
  induction params as [|p params IH]; intros data Hdata; [exact Hdata|].
  cbn [fold_left]. apply IH.
  - intros Hin. apply Hnot. now right.
  - destruct (negb (is_none (params_get a p))); [|exact Hdata].
    rewrite dict_get_set_other; [exact Hdata|].
    intros ->. apply Hnot. now left.
Qed.

(** ** The update payload satisfies the desired state *)

Lemma py_eq_refl_plain (v : pyval) : plain_value v = true -> py_eq v v = true.
Proof.
  destruct v as [|b|n|s|l|d|x]; cbn [plain_value py_eq]; try discriminate;
    intros Hplain.
  - reflexivity.
  - apply Bool.eqb_reflx.
  - apply Z.eqb_refl.
  - apply String.eqb_refl.
  - induction l as [|x l IH]; [reflexivity|].
    cbn [forallb] in Hplain. apply Bool.andb_true_iff in Hplain.
    destruct Hplain as [Hx Hl].
    destruct x; try discriminate. cbn [py_eq].
    rewrite String.eqb_refl. cbn [andb]. now apply IH.
Qed.

Lemma py_in_self (x : pyval) (l : list pyval) :
  In x l -> py_eq x x = true -> py_in x l = true.
Proof.
  intros Hin Hrefl. unfold py_in. apply existsb_exists. now exists x.
Qed.

Lemma set_eq_refl_strs (l : list pyval) :
  forallb is_str l = true -> set_eq l l = true.
Proof.
  intros Hstrs. unfold set_eq.
  assert (H : set_subset l l = true).
  { unfold set_subset. apply forallb_forall. intros x Hx.
    apply py_in_self; [exact Hx|].
    rewrite forallb_forall in Hstrs. specialize (Hstrs x Hx).
    destruct x; try discriminate. cbn [py_eq]. apply String.eqb_refl. }
  now rewrite H.
Qed.

Lemma first_unhashable_strs_list (l : list pyval) :
  forallb is_str l = true -> first_unhashable l = None.
Proof.
  induction l as [|x l IH]; [reflexivity|].
  cbn [forallb first_unhashable]. intros H.
  apply Bool.andb_true_iff in H. destruct H as [Hx Hl].
  destruct x; try discriminate. cbn [hashable]. now apply IH.
Qed.

Lemma networks_equal_loop_agree (fields : list string) (e d : dict) :
  (forall f v, dict_get d f = Some v ->
               dict_get e f = Some v /\ plain_value v = true) ->
  networks_equal_loop fields (PyDict e) d = Ok true.
Proof.
  intros Hagree.
  induction fields as [|field rest IH]; [reflexivity|].
  cbn [networks_equal_loop py_contains py_get rbind]. unfold dict_mem.
  destruct (dict_get d field) as [v|] eqn:Hd; [|exact IH].
  destruct (Hagree field v Hd) as [He Hplain]. rewrite He.
  cbn [negb andb].
  pose proof (py_eq_refl_plain v Hplain) as Hrefl.
  destruct v as [|b|n|s|l|x|y]; try discriminate Hplain.
  - cbn [py_eq andb negb]. exact IH.
  - rewrite existing_value_bool_spec.
    unfold counts_true. cbn [spec_truthy float_one].
    rewrite Bool.orb_false_r, Bool.eqb_reflx. exact IH.
  - cbn [py_eq] in *. rewrite Hrefl. cbn [andb negb]. exact IH.
  - rewrite Hrefl. cbn [negb].
    now destruct (py_eq (PyStr s) (PyStr "")
                  && py_in (PyStr s) [PyNone; PyStr ""]).
  - rewrite Hrefl. cbn [py_eq andb negb]. exact IH.
Qed.

Lemma extclients_equal_loop_agree (fields : list string) (e d : dict) :
  (forall f v, dict_get d f = Some v ->
               dict_get e f = Some v /\ plain_value v = true) ->
  extclients_equal_loop fields (PyDict e) d = Ok true.
Proof.
  intros Hagree.
  induction fields as [|field rest IH]; [reflexivity|].
  cbn [extclients_equal_loop py_get rbind]. unfold dict_mem.
  destruct (dict_get d field) as [v|] eqn:Hd; [|exact IH].
  destruct (Hagree field v Hd) as [He Hplain]. rewrite He.
  pose proof (py_eq_refl_plain v Hplain) as Hrefl.
  destruct v as [|b|n|s|l|x|y]; try discriminate Hplain.
  - cbn [py_eq andb negb]. exact IH.
  - rewrite Hrefl. cbn [py_eq andb negb]. exact IH.
  - rewrite Hrefl. cbn [py_eq andb negb]. exact IH.
  - rewrite Hrefl. cbn [negb].
    now destruct (py_eq (PyStr s) (PyStr "")
                  && py_in (PyStr s) [PyNone; PyStr ""]).
  - cbn [plain_value] in Hplain.
    assert (Hset : py_set (py_or (PyList l) (PyList [])) = Ok l).
    { unfold py_or. destruct l as [|x l]; [reflexivity|].
      cbn [py_truthy py_set py_iter rbind].
      now rewrite (first_unhashable_strs_list (x :: l) Hplain). }
    rewrite Hset. cbn [rbind].
    rewrite (set_eq_refl_strs l Hplain). cbn [negb]. exact IH.
Qed.

(** X8: whatever the remote object was, the update payload the reconcilers
    build from it and from the desired state of an invocation is judged
    equal to that desired state by the evaluator, and it carries the
    resource's identifier: a server that stores the payload as sent is left
    alone by the next run. *)
Theorem update_payload_satisfies_desired (a : invocation) (existing : dict) :
  networks_equal (PyDict (dict_update existing (network_data a)))
    (network_data a) = Ok true
  /\ dict_get (dict_update existing (network_data a)) "netid"
     = Some (PyStr (arg_name a))
  /\ extclients_equal (PyDict (dict_update existing (client_data a)))
       (client_data a) = Ok true
  /\ dict_get (dict_update existing (client_data a)) "clientid"
     = Some (PyStr (arg_name a)).
Proof.
  destruct (build_data_well_formed a "netid" network_params)
    as [Hnodup_n Hvalues_n].
  destruct (build_data_well_formed a "clientid" extclient_params)
    as [Hnodup_c Hvalues_c].
  fold (network_data a) in Hnodup_n, Hvalues_n.
  fold (client_data a) in Hnodup_c, Hvalues_c.
  repeat split.
  - apply networks_equal_loop_agree. intros f v Hf. split.
    + now rewrite dict_update_get, Hf.
    + now apply (Hvalues_n f v).
  - rewrite dict_update_get by assumption. unfold network_data.
    rewrite build_data_identifier; [reflexivity|].
    unfold network_params. cbn [In]. intuition discriminate.
  - apply extclients_equal_loop_agree. intros f v Hf. split.
    + now rewrite dict_update_get, Hf.
    + now apply (Hvalues_c f v).
  - rewrite dict_update_get by assumption. unfold client_data.
    rewrite build_data_identifier; [reflexivity|].
    unfold extclient_params. cbn [In]. intuition discriminate.
Qed.

(** ** When a run reports a change *)

Section Changed.

Variable env : environment.

Ltac cases :=
  repeat match goal with
         | |- context [_request ?e ?a ?m ?p ?d ?w] =>
             let r := fresh "r" in
             let w' := fresh "w" in
             destruct (_request e a m p d w) as [r w'];
             destruct r; cbn [fst snd]
         | |- context [if ?c then _ else _] => destruct c eqn:?
         | |- context [match ?x with Ok _ => _ | Raise _ => _ end] =>
             destruct x eqn:?
         end.

Lemma manage_network_changed (check_mode : bool) (api : NetmakerAPI)
    (name : string) (data : dict) (w : world env) (existing : pyval)
    (r : reconciliation) :
  fst (get_network env api name w) = Ok existing ->
  (fst (manage_network env check_mode api name Present data w) = Ok r ->
   (changed r = false
    <-> py_truthy existing = true /\ networks_equal existing data = Ok true)
   /\ (changed r = false -> resource r = existing))
  /\ (fst (manage_network env check_mode api name Absent data w) = Ok r ->
      changed r = py_truthy existing /\ resource r = PyNone).
Proof.
  unfold manage_network, get_network, create_network, update_network,
    delete_network, bind, lift, ret.
  destruct (_request env api GET ("/networks/" ++ name) PyNone w) as [g w1].
  cbn [fst snd]. intros ->. split.
  - destruct (py_truthy existing);
      [destruct (networks_equal existing data) as [[|]|]|];
      destruct check_mode; cases; cbn [fst];
      intros H; inversion H; subst; cbn [changed resource];
      repeat split; try tauto; try discriminate;
      intros [? ?]; discriminate.
  - destruct (py_truthy existing), check_mode; cases; cbn [fst];
      intros H; inversion H; subst; cbn [changed resource]; auto.
Qed.

Lemma manage_extclient_changed (check_mode : bool) (api : NetmakerAPI)
    (name network : string) (gateway : pyval) (data : dict) (w : world env)
    (existing : pyval) (r : reconciliation) :
  fst (get_extclient env api network name w) = Ok existing ->
  (fst (manage_extclient env check_mode api name network gateway Present
          data w) = Ok r ->
   (changed r = false
    <-> py_truthy existing = true
        /\ extclients_equal existing data = Ok true)
   /\ (changed r = false -> resource r = existing))
  /\ (fst (manage_extclient env check_mode api name network gateway Absent
             data w) = Ok r ->
      changed r = py_truthy existing /\ resource r = PyNone).
Proof.
  unfold manage_extclient, bind.
  destruct (get_extclient env api network name w) as [g w1].
  cbn [fst snd]. intros ->.
  unfold create_extclient, update_extclient, delete_extclient,
    find_ingress_gateway, list_nodes, bind, lift, ret, raise.
  split.
  - destruct (py_truthy existing);
      [destruct (extclients_equal existing data) as [[|]|]|];
      destruct check_mode; cases; cbn [fst];
      intros H; inversion H; subst; cbn [changed resource];
      repeat split; try tauto; try discriminate;
      intros [? ?]; discriminate.
  - destruct (py_truthy existing), check_mode; cases; cbn [fst];
      intros H; inversion H; subst; cbn [changed resource]; auto.
Qed.

End Changed.

(** X9: when a run of a reconciler returns a result, for state present it
    reports no change exactly when the lookup found the resource and the
    evaluator judged it equal to the desired state, and then hands back the
    object it found; for state absent it reports a change exactly when the
    lookup found the resource, and hands back no object. *)
Theorem changed_iff_not_converged (env : environment) (check_mode : bool)
    (api : NetmakerAPI) (name network : string) (gateway : pyval)
    (data : dict) (w : world env) (existing : pyval) (r : reconciliation) :
  (fst (get_network env api name w) = Ok existing ->
   (fst (manage_network env check_mode api name Present data w) = Ok r ->
    (changed r = false
     <-> py_truthy existing = true /\ networks_equal existing data = Ok true)
    /\ (changed r = false -> resource r = existing))
   /\ (fst (manage_network env check_mode api name Absent data w) = Ok r ->
       changed r = py_truthy existing /\ resource r = PyNone))
  /\ (fst (get_extclient env api network name w) = Ok existing ->
      (fst (manage_extclient env check_mode api name network gateway Present
              data w) = Ok r ->
       (changed r = false
        <-> py_truthy existing = true
            /\ extclients_equal existing data = Ok true)
       /\ (changed r = false -> resource r = existing))
      /\ (fst (manage_extclient env check_mode api name network gateway Absent
                 data w) = Ok r ->
          changed r = py_truthy existing /\ resource r = PyNone)).
Proof.
  split.
  - apply manage_network_changed.
  - apply manage_extclient_changed.
Qed.

Lemma changed_iff_not_converged_witness :
  py_truthy (PyDict [("netid", PyStr "net1"); ("defaultmtu", PyInt 1420)])
  = true
  /\ networks_equal
       (PyDict [("netid", PyStr "net1"); ("defaultmtu", PyInt 1420)])
       [("netid", PyStr "net1"); ("defaultmtu", PyInt 1420);
        ("islocal", PyBool false)]
     = Ok true.
Proof.
  set (existing := PyDict [("netid", PyStr "net1");
                           ("defaultmtu", PyInt 1420)]).
  set (data := [("netid", PyStr "net1"); ("defaultmtu", PyInt 1420);
                ("islocal", PyBool false)]).
  set (api := NetmakerAPI_init replay "https://api.example.com"
                (PyStr "key") true).
  set (w := replaying [Replied {| status_code := 200;
                                  body := JsonContent existing |}]).
  destruct (changed_iff_not_converged replay false api "net1" "" PyNone data w
              existing
              {| changed := false; resource := existing;
                 msg := "Network 'net1' already exists with desired configuration" |})
    as [Hnetwork _].
  destruct (Hnetwork eq_refl) as [Hpresent _].
  destruct (Hpresent eq_refl) as [Hiff _].
  apply Hiff. reflexivity.
Defined.

(** ** Creating an external client *)

(** X10: when the client is missing and the run is not in check mode, a
    gateway id other than "auto" is used as it is: the run sends the
    listing of the clients and then the create request under that gateway,
    without listing the nodes; with "auto" the nodes are listed first, the
    create request goes under the gateway found, and when none is found
    the run fails with that error without any mutating request. *)
Theorem create_extclient_gateway (env : environment) (api : NetmakerAPI)
    (name network : string) (gateway : pyval) (data : dict)
    (w : world env) (existing : pyval) :
  let w1 := snd (get_extclient env api network name w) in
  let run :=
    manage_extclient env false api name network gateway Present data w in
  fst (get_extclient env api network name w) = Ok existing ->
  py_truthy existing = false ->
  (py_eq gateway (PyStr "auto") = false ->
   run = (match fst (create_extclient env api network gateway data w1) with
          | Ok created =>
              Ok {| changed := true; resource := created;
                    msg := "External client '" ++ name ++ "' created" |}
          | Raise e => Raise e
          end,
          snd (create_extclient env api network gateway data w1)))
  /\ (py_eq gateway (PyStr "auto") = true ->
      (forall e,
          fst (find_ingress_gateway env api network w1) = Raise e ->
          fst run = Raise e
          /\ mutations (log (snd run)) = mutations (log w))
      /\ (forall gateway_id,
             fst (find_ingress_gateway env api network w1) = Ok gateway_id ->
             let w2 := snd (find_ingress_gateway env api network w1) in
             run = (match fst (create_extclient env api network gateway_id
                                 data w2) with
                    | Ok created =>
                        Ok {| changed := true; resource := created;
                              msg := "External client '" ++ name
                                     ++ "' created" |}
                    | Raise e => Raise e
                    end,
                    snd (create_extclient env api network gateway_id
                           data w2)))).
Proof.
  cbv zeta. intros Hget Hmissing.
  assert (Hlookup : mutations
                      (log (snd (get_extclient env api network name w)))
                    = mutations (log w)).
  { destruct (sends_get_extclient env api network name w)
      as (new & Hlog & _ & Hmut & _).
    rewrite Hlog, mutations_app.
    destruct (mutations new); [apply app_nil_r|cbn in Hmut; lia]. }
  assert (Hnodes : forall w1,
             mutations (log (snd (find_ingress_gateway env api network w1)))
             = mutations (log w1)).
  { intros w1.
    destruct (sends_find_ingress_gateway env api network 0 0 w1)
      as (new & Hlog & _ & Hmut & _).
    rewrite Hlog, mutations_app.
    destruct (mutations new); [apply app_nil_r|cbn in Hmut; lia]. }
  assert (Hrun :
            manage_extclient env false api name network gateway Present data w
            = (gateway_id <-
                 (if py_eq gateway (PyStr "auto")
                  then find_ingress_gateway env api network
                  else ret gateway) ;;
               created_client <-
                 create_extclient env api network gateway_id data ;;
               ret {| changed := true; resource := created_client;
                      msg := "External client '" ++ name ++ "' created" |})%run
                (snd (get_extclient env api network name w))).
  { unfold manage_extclient, bind at 1.
    destruct (get_extclient env api network name w) as [g w1].
    cbn [fst snd] in *. subst g. now rewrite Hmissing. }
  rewrite Hrun. clear Hrun.
  destruct (get_extclient env api network name w) as [g w1].
  cbn [fst snd] in *. clear Hget g.
  split.
  - intros Hliteral. rewrite Hliteral. unfold bind, ret.
    now destruct (create_extclient env api network gateway data w1)
      as [[created|e] w2].
  - intros Hauto. rewrite Hauto. split.
    + intros e Hfail. unfold bind.
      specialize (Hnodes w1).
      destruct (find_ingress_gateway env api network w1) as [g w2].
      cbn [fst snd] in *. subst g. cbn [fst snd].
      split; [reflexivity|congruence].
    + intros gateway_id Hfound. unfold bind, ret.
      destruct (find_ingress_gateway env api network w1) as [g w2].
      cbn [fst snd] in *. subst g.
      now destruct (create_extclient env api network gateway_id data w2)
        as [[created|e] w3].
Qed.

Lemma create_extclient_gateway_witness :
  fst (manage_extclient replay false
         (NetmakerAPI_init replay "https://api.example.com" (PyStr "key") true)
         "dev1" "iot" (PyStr "auto") Present [("clientid", PyStr "dev1")]
         (replaying
            [ Replied {| status_code := 200; body := JsonContent (PyList []) |};
              Replied {| status_code := 200;
                         body := JsonContent
                           (PyList [PyDict [("id", PyStr "n1")]]) |} ]))
  = Raise (Exception "No ingress gateway found in network 'iot'").
Proof.
  set (api := NetmakerAPI_init replay "https://api.example.com"
                (PyStr "key") true).
  set (w := replaying
              [ Replied {| status_code := 200;
                           body := JsonContent (PyList []) |};
                Replied {| status_code := 200;
                           body := JsonContent
                             (PyList [PyDict [("id", PyStr "n1")]]) |} ]).
  destruct (create_extclient_gateway replay api "dev1" "iot" (PyStr "auto")
              [("clientid", PyStr "dev1")] w PyNone eq_refl eq_refl)
    as [_ Hauto].
  destruct (Hauto eq_refl) as [Hfail _].
  now apply Hfail.
Defined.

(** ** What check mode does and says *)

Lemma contains_skip (x p s : string) :
  contains x s = true -> contains x (p ++ s) = true.
Proof.
  intros Hs. induction p as [|c p IH]; [exact Hs|].
  cbn [String.append contains]. rewrite IH.
  now destruct (String.prefix x (String c (p ++ s))).
Qed.

Lemma contains_self (x : string) : contains x x = true.
Proof.
  pose proof (contains_app x "" "") as H.
  cbn [String.append] in H. now rewrite append_empty_r in H.
Qed.

Lemma contains_check_mode (a name b : string) :
  contains "(check mode)" (a ++ name ++ b ++ "(check mode)") = true.
Proof. repeat apply contains_skip. apply contains_self. Qed.

Lemma manage_network_check_mode_report (env : environment)
    (api : NetmakerAPI) (name : string) (state : desired_state) (data : dict)
    (w : world env) :
  let dry := manage_network env true api name state data w in
  snd dry = snd (get_network env api name w)
  /\ (forall r, fst dry = Ok r -> changed r = true ->
                resource r = PyNone
                /\ contains "(check mode)" (msg r) = true).
Proof.
  cbv zeta. unfold manage_network, bind, lift, ret.
  destruct (get_network env api name w) as [[existing|e] w1]; cbn [fst snd];
    [|split; [reflexivity|discriminate]].
  destruct state, (py_truthy existing);
    try destruct (networks_equal existing data) as [[|]|];
    cbn [fst snd]; (split; [reflexivity|]);
    intros r H; inversion H; subst; cbn [changed resource msg];
    intros Hc; try discriminate Hc; (split; [reflexivity|]);
    first
      [ exact (contains_check_mode "Network '" name "' would be updated ")
      | exact (contains_check_mode "Network '" name "' would be created ")
      | exact (contains_check_mode "Network '" name "' would be deleted ") ].
Qed.

Lemma manage_extclient_check_mode_report (env : environment)
    (api : NetmakerAPI) (name network : string) (gateway : pyval)
    (state : desired_state) (data : dict) (w : world env) :
  let dry :=
    manage_extclient env true api name network gateway state data w in
  snd dry = snd (get_extclient env api network name w)
  /\ (forall r, fst dry = Ok r -> changed r = true ->
                resource r = PyNone
                /\ contains "(check mode)" (msg r) = true).
Proof.
  cbv zeta. unfold manage_extclient, bind, lift, ret.
  destruct (get_extclient env api network name w) as [[existing|e] w1];
    cbn [fst snd]; [|split; [reflexivity|discriminate]].
  destruct state, (py_truthy existing);
    try destruct (extclients_equal existing data) as [[|]|];
    cbn [fst snd]; (split; [reflexivity|]);
    intros r H; inversion H; subst; cbn [changed resource msg];
    intros Hc; try discriminate Hc; (split; [reflexivity|]);
    first
      [ exact (contains_check_mode "External client '" name
                 "' would be updated ")
      | exact (contains_check_mode "External client '" name
                 "' would be created ")
      | exact (contains_check_mode "External client '" name
                 "' would be deleted ") ].
Qed.

(** X11: in check mode a reconciler stops after its lookup: the world it
    leaves is the one the lookup left, so the nodes are not even listed;
    and whenever it reports a change, it hands back no object and its
    message says "(check mode)". *)
Theorem check_mode_only_looks (env : environment) (api : NetmakerAPI)
    (name network : string) (gateway : pyval) (state : desired_state)
    (data : dict) (w : world env) :
  let dry_network := manage_network env true api name state data w in
  let dry_client :=
    manage_extclient env true api name network gateway state data w in
  snd dry_network = snd (get_network env api name w)
  /\ snd dry_client = snd (get_extclient env api network name w)
  /\ (forall r, fst dry_network = Ok r -> changed r = true ->
                resource r = PyNone
                /\ contains "(check mode)" (msg r) = true)
  /\ (forall r, fst dry_client = Ok r -> changed r = true ->
                resource r = PyNone
                /\ contains "(check mode)" (msg r) = true).
Proof.
  cbv zeta.
  destruct (manage_network_check_mode_report env api name state data w)
    as [Hn1 Hn2].
  destruct (manage_extclient_check_mode_report env api name network gateway
              state data w) as [Hc1 Hc2].
  repeat split; try assumption; try (now apply Hn2); now apply Hc2.
Qed.

(** ** Strings in the evaluators *)

Lemma dict_get_single (field f : string) (v : pyval) :
  dict_get [(field, v)] f = if String.eqb field f then Some v else None.
Proof. reflexivity. Qed.

(** The verdict on a desired state of one field is the verdict of that
    field's turn of the loop. *)
Lemma networks_equal_loop_one (fields : list string) (e : dict)
    (field : string) (v : pyval) (b : bool) :
  In field fields ->
  (forall rest,
      networks_equal_loop (field :: rest) (PyDict e) [(field, v)]
      = if b then networks_equal_loop rest (PyDict e) [(field, v)]
        else Ok false) ->
  networks_equal_loop fields (PyDict e) [(field, v)] = Ok b.
Proof.
  intros Hin Hturn.
  assert (Hother : forall f rest,
             f <> field ->
             networks_equal_loop (f :: rest) (PyDict e) [(field, v)]
             = networks_equal_loop rest (PyDict e) [(field, v)]).
  { intros f rest Hf. cbn [networks_equal_loop]. unfold dict_mem.
    rewrite dict_get_single.
    destruct (String.eqb field f) eqn:E; [|reflexivity].
    apply String.eqb_eq in E. congruence. }
  destruct b.
  - clear Hin. induction fields as [|f rest IH]; [reflexivity|].
    destruct (string_dec f field) as [->|Hf].
    + now rewrite Hturn.
    + now rewrite Hother.
  - induction fields as [|f rest IH]; [destruct Hin|].
    destruct (string_dec f field) as [->|Hf].
    + now rewrite Hturn.
    + rewrite Hother by assumption. apply IH.
      destruct Hin as [Hin|Hin]; [contradiction|exact Hin].
Qed.

Lemma extclients_equal_loop_one (fields : list string) (e : dict)
    (field : string) (v : pyval) (b : bool) :
  In field fields ->
  (forall rest,
      extclients_equal_loop (field :: rest) (PyDict e) [(field, v)]
      = if b then extclients_equal_loop rest (PyDict e) [(field, v)]
        else Ok false) ->
  extclients_equal_loop fields (PyDict e) [(field, v)] = Ok b.
Proof.
  intros Hin Hturn.
  assert (Hother : forall f rest,
             f <> field ->
             extclients_equal_loop (f :: rest) (PyDict e) [(field, v)]
             = extclients_equal_loop rest (PyDict e) [(field, v)]).
  { intros f rest Hf. cbn [extclients_equal_loop]. unfold dict_mem.
    rewrite dict_get_single.
    destruct (String.eqb field f) eqn:E; [|reflexivity].
    apply String.eqb_eq in E. congruence. }
  destruct b.
  - clear Hin. induction fields as [|f rest IH]; [reflexivity|].
    destruct (string_dec f field) as [->|Hf].
    + now rewrite Hturn.
    + now rewrite Hother.
  - induction fields as [|f rest IH]; [destruct Hin|].
    destruct (string_dec f field) as [->|Hf].
    + now rewrite Hturn.
    + rewrite Hother by assumption. apply IH.
      destruct Hin as [Hin|Hin]; [contradiction|exact Hin].
Qed.

(** [existing != desired] against a string, when the empty-string rule did
    not apply. *)
Lemma string_rule (v : pyval) (s : string) :
  (if py_eq (PyStr s) (PyStr "") && py_in v [PyNone; PyStr ""] then true
   else py_eq v (PyStr s))
  = if String.eqb s "" then py_in v [PyNone; PyStr ""]
    else py_eq v (PyStr s).
Proof.
  cbn [py_eq]. destruct (String.eqb s "") eqn:E; [|reflexivity].
  apply String.eqb_eq in E. subst s. cbn [andb].
  destruct (py_in v [PyNone; PyStr ""]) eqn:Hin; [reflexivity|].
  unfold py_in in Hin. cbn [existsb] in Hin.
  destruct v as [|b|n|t|l|d|x]; cbn [py_eq] in *; try reflexivity.
  rewrite Bool.orb_false_r in Hin. now rewrite String.eqb_sym.
Qed.

(** X12: in the network evaluator a desired string is matched as follows
    against the field of the remote object: the empty string matches a
    missing field, [None] and the empty string and nothing else; a
    non-empty string matches only the same string, and also a missing
    field unless the field has a default (the two post-up/post-down
    commands), whose missing value counts as the empty string. *)
Theorem networks_equal_string (field : string) (e : dict) (s : string) :
  In field network_comparable_fields ->
  networks_equal (PyDict e) [(field, PyStr s)]
  = Ok (match dict_get e field with
        | Some v =>
            if String.eqb s "" then py_in v [PyNone; PyStr ""]
            else py_eq v (PyStr s)
        | None => String.eqb s "" || negb (dict_mem field field_defaults)
        end).
Proof.
  intros Hin. unfold networks_equal.
  apply networks_equal_loop_one; [exact Hin|]. intros rest.
  cbn [networks_equal_loop py_contains py_get rbind]. unfold dict_mem.
  rewrite dict_get_single, String.eqb_refl.
  destruct (dict_get e field) as [v|] eqn:He; cbn [negb andb].
  - rewrite <- string_rule.
    destruct (py_eq (PyStr s) (PyStr "") && py_in v [PyNone; PyStr ""]);
      [reflexivity|].
    now destruct (py_eq v (PyStr s)).
  - destruct (dict_get field_defaults field) as [v0|] eqn:Hdef; cbn [negb].
    + assert (Hv0 : v0 = PyStr "").
      { revert Hdef. unfold field_defaults. cbn [dict_get].
        destruct (String.eqb "defaultpostdown" field); [congruence|].
        destruct (String.eqb "defaultpostup" field); congruence. }
      subst v0. rewrite Bool.orb_false_r.
      cbn [py_eq]. rewrite (String.eqb_sym "" s).
      destruct (String.eqb s "") eqn:E; [reflexivity|].
      cbn [andb negb]. reflexivity.
    + now rewrite Bool.orb_true_r.
Qed.

Lemma networks_equal_string_witness :
  networks_equal (PyDict [("netid", PyStr "net1"); ("defaultpostup", PyNone)])
    [("defaultpostup", PyStr "")] = Ok true
  /\ networks_equal (PyDict [("netid", PyStr "net1")])
       [("defaultpostup", PyStr "iptables -A FORWARD")] = Ok false.
Proof.
  split.
  - rewrite (networks_equal_string "defaultpostup"); [reflexivity|].
    unfold network_comparable_fields. cbn [In]. tauto.
  - rewrite (networks_equal_string "defaultpostup"); [reflexivity|].
    unfold network_comparable_fields. cbn [In]. tauto.
Defined.

(** X13: in the external-client evaluator a desired empty string matches a
    missing field, [None] and the empty string and nothing else, and a
    non-empty string matches only the same string; a missing field does not
    match it. *)
Theorem extclients_equal_string (field : string) (e : dict) (s : string) :
  In field extclient_comparable_fields ->
  extclients_equal (PyDict e) [(field, PyStr s)]
  = Ok (match dict_get e field with
        | Some v =>
            if String.eqb s "" then py_in v [PyNone; PyStr ""]
            else py_eq v (PyStr s)
        | None => String.eqb s ""
        end).
Proof.
  intros Hin. unfold extclients_equal.
  apply extclients_equal_loop_one; [exact Hin|]. intros rest.
  cbn [extclients_equal_loop py_get rbind]. unfold dict_mem.
  rewrite dict_get_single, String.eqb_refl.
  destruct (dict_get e field) as [v|] eqn:He.
  - rewrite <- string_rule.
    destruct (py_eq (PyStr s) (PyStr "") && py_in v [PyNone; PyStr ""]);
      [reflexivity|].
    now destruct (py_eq v (PyStr s)).
  - cbn [py_eq]. destruct (String.eqb s "") eqn:E; reflexivity.
Qed.

Lemma extclients_equal_string_witness :
  extclients_equal (PyDict [("clientid", PyStr "dev1")]) [("dns", PyStr "")]
  = Ok true
  /\ extclients_equal
       (PyDict [("clientid", PyStr "dev1"); ("dns", PyStr "1.1.1.1")])
       [("dns", PyStr "8.8.8.8")] = Ok false.
Proof.
  split.
  - rewrite (extclients_equal_string "dns"); [reflexivity|].
    unfold extclient_comparable_fields. cbn [In]. tauto.
  - rewrite (extclients_equal_string "dns"); [reflexivity|].
    unfold extclient_comparable_fields. cbn [In]. tauto.
Defined.

(** ** What the evaluators read and when they fail *)

Lemma extclients_equal_loop_desired_ext (fields : list string)
    (existing : pyval) (d d' : dict) :
  (forall f, In f fields -> dict_get d f = dict_get d' f) ->
  extclients_equal_loop fields existing d
  = extclients_equal_loop fields existing d'.
Proof.
  induction fields as [|field rest IH]; intros Hsame; [reflexivity|].
  assert (Hrest : extclients_equal_loop rest existing d
                  = extclients_equal_loop rest existing d').
  { apply IH. intros f Hf. apply Hsame. now right. }
  cbn [extclients_equal_loop]. unfold dict_mem.
  rewrite (Hsame field (or_introl eq_refl)), Hrest. reflexivity.
Qed.

(** X14: the evaluators read their two arguments only at their comparable
    fields: setting or removing any other key (an identifier, a
    server-assigned address or public key) in the remote object or in the
    desired state leaves the verdict as it was. *)
Theorem evaluators_read_comparable_fields_only (e d : dict) (k : string)
    (v : pyval) :
  (~ In k network_comparable_fields ->
   networks_equal (PyDict (dict_set e k v)) d = networks_equal (PyDict e) d
   /\ networks_equal (PyDict (dict_del e k)) d = networks_equal (PyDict e) d
   /\ networks_equal (PyDict e) (dict_set d k v) = networks_equal (PyDict e) d
   /\ networks_equal (PyDict e) (dict_del d k) = networks_equal (PyDict e) d)
  /\ (~ In k extclient_comparable_fields ->
      extclients_equal (PyDict (dict_set e k v)) d
      = extclients_equal (PyDict e) d
      /\ extclients_equal (PyDict (dict_del e k)) d
         = extclients_equal (PyDict e) d
      /\ extclients_equal (PyDict e) (dict_set d k v)
         = extclients_equal (PyDict e) d
      /\ extclients_equal (PyDict e) (dict_del d k)
         = extclients_equal (PyDict e) d).
Proof.
  unfold networks_equal, extclients_equal. split; intros Hk.
  - assert (Hne : forall f, In f network_comparable_fields -> k <> f)
      by (intros f Hf ->; contradiction).
    repeat split.
    + apply networks_equal_loop_ext. intros f Hf.
      split; [now apply dict_get_set_other, Hne|reflexivity].
    + apply networks_equal_loop_ext. intros f Hf.
      split; [now apply dict_get_del_other, Hne|reflexivity].
    + apply networks_equal_loop_desired_ext. intros f Hf.
      now apply dict_get_set_other, Hne.
    + apply networks_equal_loop_desired_ext. intros f Hf.
      now apply dict_get_del_other, Hne.
  - assert (Hne : forall f, In f extclient_comparable_fields -> k <> f)
      by (intros f Hf ->; contradiction).
    repeat split.
    + apply extclients_equal_loop_or_ext. intros f Hf. cbv zeta. left.
      now rewrite dict_get_set_other by (now apply Hne).
    + apply extclients_equal_loop_or_ext. intros f Hf. cbv zeta. left.
      now rewrite dict_get_del_other by (now apply Hne).
    + apply extclients_equal_loop_desired_ext. intros f Hf.
      now apply dict_get_set_other, Hne.
    + apply extclients_equal_loop_desired_ext. intros f Hf.
      now apply dict_get_del_other, Hne.
Qed.

Lemma evaluators_read_comparable_fields_only_witness :
  extclients_equal
    (PyDict (dict_set [("clientid", PyStr "dev1"); ("enabled", PyBool true)]
               "publickey" (PyStr "hGm3")))
    [("clientid", PyStr "dev1"); ("enabled", PyBool true)]
  = Ok true.
Proof.
  destruct (evaluators_read_comparable_fields_only
              [("clientid", PyStr "dev1"); ("enabled", PyBool true)]
              [("clientid", PyStr "dev1"); ("enabled", PyBool true)]
              "publickey" (PyStr "hGm3")) as [_ Hclient].
  destruct Hclient as (Hset & _).
  - unfold extclient_comparable_fields. cbn [In]. intuition discriminate.
  - rewrite Hset. reflexivity.
Defined.

Lemma networks_equal_loop_object (fields : list string) (e d : dict) :
  exists b, networks_equal_loop fields (PyDict e) d = Ok b.
Proof.
  induction fields as [|field rest [b IH]]; [now exists true|].
  destruct (networks_equal_loop_turn field rest e d) as [H|H].
  - exists false. exact H.
  - exists b. now rewrite H.
Qed.

Lemma networks_equal_loop_not_object (fields : list string)
    (existing : pyval) (d : dict) :
  (forall e, existing <> PyDict e) ->
  networks_equal_loop fields existing d <> Ok false.
Proof.
  intros Hnot.
  induction fields as [|field rest IH]; [discriminate|].
  cbn [networks_equal_loop].
  destruct (dict_mem field d); [|exact IH].
  destruct existing as [|b|n|s|l|e|x]; cbn [py_contains py_get rbind];
    try discriminate.
  - destruct (negb (contains field s)
              && negb (dict_mem field field_defaults));
      [exact IH|discriminate].
  - destruct (negb (py_in (PyStr field) l)
              && negb (dict_mem field field_defaults));
      [exact IH|discriminate].
  - now destruct (Hnot e).
Qed.

(** X15: on a remote value that is a JSON object the network evaluator
    always answers, true or false, and never raises; on any other value (a
    [True] for an empty answer, a list, a string) it never answers false:
    it answers true when the desired state names no comparable field it has
    to look up, and raises otherwise. *)
Theorem networks_equal_answers_on_objects (existing : pyval) (d : dict) :
  (forall e, existing = PyDict e -> exists b, networks_equal existing d = Ok b)
  /\ ((forall e, existing <> PyDict e) ->
      networks_equal existing d = Ok true
      \/ exists x, networks_equal existing d = Raise x).
Proof.
  unfold networks_equal. split.
  - intros e ->. apply networks_equal_loop_object.
  - intros Hnot.
    pose proof (networks_equal_loop_not_object network_comparable_fields
                  existing d Hnot) as Hfalse.
    destruct (networks_equal_loop network_comparable_fields existing d)
      as [[|]|x].
    + now left.
    + contradiction.
    + right. now exists x.
Qed.

Lemma networks_equal_answers_on_objects_witness :
  exists x,
    networks_equal (PyBool true) [("netid", PyStr "net1");
                                  ("defaultmtu", PyInt 1420)]
    = Raise x.
Proof.
  destruct (networks_equal_answers_on_objects (PyBool true)
              [("netid", PyStr "net1"); ("defaultmtu", PyInt 1420)])
    as [_ Hother].
  destruct Hother as [Htrue | Hraise].
  - discriminate.
  - discriminate Htrue.
  - exact Hraise.
Defined.

(** ** The entry point: credentials and options *)

Lemma main_world (env : environment) (a : invocation) (check_mode : bool)
    (w : world env) :
  precondition a = None ->
  snd (main env a check_mode w) = snd (run_module env a check_mode w).
Proof.
  intros Hpre. unfold main. rewrite Hpre.
  now destruct (run_module env a check_mode w) as [[r|e] w1].
Qed.

Lemma run_module_flow (env : environment) (a : invocation)
    (check_mode : bool) :
  run_module env a check_mode
  = bind
      (if py_truthy (param PyStr (arg_master_key a) None)
       then ret (param PyStr (arg_master_key a) None)
       else authenticate env
              (NetmakerAPI_init env (arg_base_url a) (PyStr "")
                 (validate_certs_of a))
              (param PyStr (arg_username a) (Some "oriol"))
              (param PyStr (arg_password a) None))
      (reconcile env a check_mode).
Proof. reflexivity. Qed.

Lemma sends_reconcile (env : environment) (a : invocation)
    (check_mode : bool) (token : pyval) :
  sends (NetmakerAPI_init env (arg_base_url a) token (validate_certs_of a))
    (reconcile env a check_mode token) 3 1.
Proof.
  unfold reconcile. destruct (arg_resource_type a).
  - intros w.
    destruct (sends_manage_network env
                (NetmakerAPI_init env (arg_base_url a) token
                   (validate_certs_of a))
                check_mode (arg_name a) (state_of a) (network_data a) w)
      as (new & Hlog & Hlen & Hmut & Hall).
    exists new. repeat split; try assumption. lia.
  - apply sends_manage_extclient.
Qed.

(** X16: with a master key that is not empty, [main] never authenticates:
    it sends at most three requests, at most one of them mutating, all
    under the base URL without its trailing slashes and "/api", all with
    "Bearer " and the master key as [Authorization] and with the
    certificate check the caller chose (on when not chosen). *)
Theorem main_with_master_key (env : environment) (a : invocation)
    (check_mode : bool) (w : world env) (key : string) :
  precondition a = None ->
  arg_master_key a = Some key ->
  key <> "" ->
  exists new,
    log (snd (main env a check_mode w)) = (log w ++ new)%list
    /\ (List.length new <= 3)%nat
    /\ (List.length (mutations new) <= 1)%nat
    /\ Forall
         (fun r =>
            dict_get (req_headers r) "Authorization"
            = Some (PyStr ("Bearer " ++ key))
            /\ req_verify r
               = match arg_validate_certs a with
                 | Some b => b
                 | None => true
                 end
            /\ exists endpoint,
                 req_url r
                 = rstrip_slash (arg_base_url a) ++ "/api" ++ endpoint)
         new.
Proof.
  intros Hpre Hkey Hne.
  rewrite (main_world env a check_mode w Hpre), run_module_flow.
  rewrite Hkey. cbn [param py_truthy].
  apply String.eqb_neq in Hne. rewrite Hne. cbn [negb].
  unfold bind, ret.
  destruct (sends_reconcile env a check_mode (PyStr key) w)
    as (new & Hlog & Hlen & Hmut & Hall).
  exists new. repeat split; try assumption.
  eapply Forall_impl; [|exact Hall].
  intros r (Hheaders & Hverify & Hurl). rewrite Hheaders, Hverify.
  repeat split. exact Hurl.
Qed.

Lemma main_with_master_key_witness :
  exists new,
    log (snd (main replay (net1_scenario "https://api.example.com/" "key")
                false
                (replaying
                   [Replied {| status_code := 404; body := NoContent |}])))
    = ([] ++ new)%list
    /\ (List.length new <= 3)%nat
    /\ (List.length (mutations new) <= 1)%nat
    /\ Forall
         (fun r =>
            dict_get (req_headers r) "Authorization"
            = Some (PyStr ("Bearer " ++ "key"))
            /\ req_verify r = true
            /\ exists endpoint,
                 req_url r
                 = rstrip_slash "https://api.example.com/" ++ "/api"
                     ++ endpoint)
         new.
Proof.
  apply (main_with_master_key replay
           (net1_scenario "https://api.example.com/" "key") false
           (replaying [Replied {| status_code := 404; body := NoContent |}])
           "key").
  - reflexivity.
  - reflexivity.
  - discriminate.
Defined.

Lemma authenticate_world (env : environment) (self : NetmakerAPI)
    (username password : pyval) (w : world env) :
  snd (authenticate env self username password w)
  = snd (_request env self POST "/users/adm/authenticate"
           (PyDict [("username", username); ("password", password)]) w).
Proof.
  unfold authenticate, bind, lift, raise.
  destruct (_request env self POST "/users/adm/authenticate"
              (PyDict [("username", username); ("password", password)]) w)
    as [[v|e] w1]; cbn [fst snd]; [|reflexivity].
  repeat match goal with
         | |- context [if ?c then _ else _] => destruct c
         | |- context [match ?x with Ok _ => _ | Raise _ => _ end] =>
             destruct x
         end; reflexivity.
Qed.

(** X17: without a usable master key (none, or an empty one) [main] first
    authenticates, through a client with an empty token, with the user name
    (by default "oriol") and the password.  When that fails [main] fails
    with that error after this single request; when it gives a token the
    reconciler runs with a client that carries this token. *)
Theorem main_with_password (env : environment) (a : invocation)
    (check_mode : bool) (w : world env) :
  let temp_api :=
    NetmakerAPI_init env (arg_base_url a) (PyStr "") (validate_certs_of a) in
  let username :=
    PyStr (match arg_username a with Some u => u | None => "oriol" end) in
  let password :=
    match arg_password a with Some p => PyStr p | None => PyNone end in
  let login :=
    _request env temp_api POST "/users/adm/authenticate"
      (PyDict [("username", username); ("password", password)]) w in
  let auth := authenticate env temp_api username password w in
  precondition a = None ->
  arg_master_key a = None \/ arg_master_key a = Some "" ->
  snd auth = snd login
  /\ (forall e,
         fst auth = Raise e ->
         main env a check_mode w
         = (FailJson ("Error managing Netmaker "
                        ++ resource_kind_name (arg_resource_type a)
                        ++ ": " ++ str_exn env e), snd login))
  /\ (forall token,
         fst auth = Ok token ->
         main env a check_mode w
         = match reconcile env a check_mode token (snd login) with
           | (Ok result, w') => (ExitJson result, w')
           | (Raise e, w') =>
               (FailJson ("Error managing Netmaker "
                            ++ resource_kind_name (arg_resource_type a)
                            ++ ": " ++ str_exn env e), w')
           end).
Proof.
  cbv zeta. intros Hpre Hkey.
  pose proof (authenticate_world env
                (NetmakerAPI_init env (arg_base_url a) (PyStr "")
                   (validate_certs_of a))
                (PyStr (match arg_username a with
                        | Some u => u | None => "oriol" end))
                (match arg_password a with
                 | Some p => PyStr p | None => PyNone end) w) as Hworld.
  split; [exact Hworld|].
  unfold main. rewrite Hpre, run_module_flow.
  assert (Hfalsy : py_truthy (param PyStr (arg_master_key a) None) = false)
    by (destruct Hkey as [-> | ->]; reflexivity).
  rewrite Hfalsy. unfold bind.
  replace (param PyStr (arg_username a) (Some "oriol"))
    with (PyStr (match arg_username a with
                 | Some u => u | None => "oriol" end))
    by (now destruct (arg_username a)).
  replace (param PyStr (arg_password a) None)
    with (match arg_password a with
          | Some p => PyStr p | None => PyNone end)
    by (now destruct (arg_password a)).
  rewrite <- Hworld.
  destruct (authenticate env _ _ _ w) as [g w1]. cbn [fst snd].
  split.
  - intros e ->. reflexivity.
  - intros token ->. reflexivity.
Qed.

Lemma main_with_password_witness :
  main replay
    (bare_invocation Network "net1" "https://api.example.com"
       None (Some "secret"))
    false
    (replaying [Replied {| status_code := 401; body := NoContent |}])
  = (FailJson "Error managing Netmaker network: API request failed: ",
     snd (_request replay
            (NetmakerAPI_init replay "https://api.example.com" (PyStr "") true)
            POST "/users/adm/authenticate"
            (PyDict [("username", PyStr "oriol");
                     ("password", PyStr "secret")])
            (replaying
               [Replied {| status_code := 401; body := NoContent |}]))).
Proof.
  destruct (main_with_password replay
              (bare_invocation Network "net1" "https://api.example.com"
                 None (Some "secret"))
              false
              (replaying [Replied {| status_code := 401; body := NoContent |}]))
    as (_ & Hfail & _).
  - reflexivity.
  - now left.
  - apply (Hfail (Exception "API request failed: ")). reflexivity.
Defined.

(** X18: [main] uses the options of the managed resource kind only: the
    options of the other kind, and for a network also [network] and
    [ingress_gateway_id], change nothing of what it does. *)
Theorem main_uses_own_options (env : environment) (a : invocation)
    (check_mode : bool) (w : world env) :
  main env a check_mode w = main env (own_options a) check_mode w.
Proof.
  destruct a as [kind name network gateway state url key user password certs
                   ar ar6 dns_default interface postdown_default postup_default
                   keepalive mtu islocal dns ips enabled postup postdown].
  destruct kind; reflexivity.
Qed.

(** ** Numbers in the network evaluator *)

Lemma py_eq_int (v : pyval) (n : Z) :
  py_eq v (PyInt n) = true
  <-> v = PyInt n
      \/ (exists b, v = PyBool b /\ Z.b2z b = n)
      \/ (exists den, v = PyFloat (Finite (n * Z.pos den) den)).
Proof.
  split.
  - destruct v as [|b|m|s|l|d|x]; cbn [py_eq]; try discriminate.
    + intros H. apply Z.eqb_eq in H. right. left. now exists b.
    + intros H. apply Z.eqb_eq in H. subst. now left.
    + destruct x as [num den| |]; cbn [float_eq_int]; try discriminate.
      intros H. apply Z.eqb_eq in H. subst. right. right. now exists den.
  - intros [-> | [(b & -> & <-) | (den & ->)]]; cbn [py_eq float_eq_int];
      apply Z.eqb_refl.
Qed.

(** X19: in the network evaluator a desired integer matches a remote
    number of the same value, be it an integer, a float (1420.0 for 1420)
    or a boolean, which counts as 0 or 1, and no other remote value, in
    particular not the same number written as a string; a field the remote
    object lacks is passed over, so it matches too, unless it is one of the
    two fields that have a default. *)
Theorem networks_equal_integer (field : string) (e : dict) (n : Z) :
  In field network_comparable_fields ->
  (networks_equal (PyDict e) [(field, PyInt n)]
   = Ok (match dict_get e field with
         | Some v => py_eq v (PyInt n)
         | None => negb (dict_mem field field_defaults)
         end))
  /\ (forall v, dict_get e field = Some v ->
        (networks_equal (PyDict e) [(field, PyInt n)] = Ok true
         <-> v = PyInt n
             \/ (exists b, v = PyBool b /\ Z.b2z b = n)
             \/ (exists den, v = PyFloat (Finite (n * Z.pos den) den))))
  /\ (forall s, dict_get e field = Some (PyStr s) ->
        networks_equal (PyDict e) [(field, PyInt n)] = Ok false).
Proof.
  intros Hin.
  assert (Hverdict :
            networks_equal (PyDict e) [(field, PyInt n)]
            = Ok (match dict_get e field with
                  | Some v => py_eq v (PyInt n)
                  | None => negb (dict_mem field field_defaults)
                  end)).
  { unfold networks_equal.
    apply networks_equal_loop_one; [exact Hin|]. intros rest.
    cbn [networks_equal_loop py_contains py_get rbind]. unfold dict_mem.
    rewrite dict_get_single, String.eqb_refl.
    destruct (dict_get e field) as [v|] eqn:He; cbn [negb andb py_eq].
    - now destruct (py_eq v (PyInt n)).
    - destruct (dict_get field_defaults field) as [v0|] eqn:Hdef;
        cbn [negb]; [|reflexivity].
      assert (Hv0 : v0 = PyStr "").
      { revert Hdef. unfold field_defaults. cbn [dict_get].
        destruct (String.eqb "defaultpostdown" field); [congruence|].
        destruct (String.eqb "defaultpostup" field); congruence. }
      subst v0. reflexivity. }
  split; [exact Hverdict|]. split.
  - intros v Hv. rewrite Hverdict, Hv. rewrite <- py_eq_int.
    split; [intros H; now inversion H|intros ->; reflexivity].
  - intros s Hs. rewrite Hverdict, Hs. reflexivity.
Qed.

Lemma networks_equal_integer_witness :
  networks_equal (PyDict [("netid", PyStr "net1");
                          ("defaultmtu", PyStr "1420")])
    [("defaultmtu", PyInt 1420)] = Ok false
  /\ networks_equal (PyDict [("netid", PyStr "net1");
                             ("defaultmtu", PyFloat (Finite 1420 1))])
       [("defaultmtu", PyInt 1420)] = Ok true.
Proof.
  split.
  - destruct (networks_equal_integer "defaultmtu"
                [("netid", PyStr "net1"); ("defaultmtu", PyStr "1420")] 1420)
      as (_ & _ & Hstring).
    + unfold network_comparable_fields. cbn [In]. tauto.
    + now apply (Hstring "1420").
  - destruct (networks_equal_integer "defaultmtu"
                [("netid", PyStr "net1");
                 ("defaultmtu", PyFloat (Finite 1420 1))] 1420)
      as (_ & Hiff & _).
    + unfold network_comparable_fields. cbn [In]. tauto.
    + apply (Hiff (PyFloat (Finite 1420 1))); [reflexivity|].
      right. right. now exists 1%positive.
Defined.

(** ** Errors of the gateway resolver *)

(** X20: the resolver takes the first node with a truthy flag as it is: if
    that node has no [id] the lookup of the id raises, whatever follows in
    the list; and an entry of the list that is not an object raises when
    the scan reaches it, also when a gateway follows it. *)
Theorem find_ingress_gateway_errors (env : environment) (api : NetmakerAPI)
    (network : string) (w : world env) (before : list dict)
    (after : list pyval) :
  (forall n, In n before -> is_gateway n = false) ->
  (forall node,
      fst (list_nodes env api network w)
      = Ok (PyList (map PyDict before ++ PyDict node :: after)) ->
      is_gateway node = true ->
      dict_get node "id" = None ->
      fst (find_ingress_gateway env api network w)
      = Raise (Fault (KeyMissing "id")))
  /\ (forall entry,
         fst (list_nodes env api network w)
         = Ok (PyList (map PyDict before ++ entry :: after)) ->
         (forall d, entry <> PyDict d) ->
         fst (find_ingress_gateway env api network w)
         = Raise (Fault (NoAttribute entry "get"))).
Proof.
  intros Hbefore.
  assert (Hscan : forall rest,
             scan_nodes network (map PyDict before ++ rest)
             = scan_nodes network rest).
  { intros rest. induction before as [|n before' IH]; [reflexivity|].
    cbn [map app]. rewrite scan_nodes_turn.
    rewrite (Hbefore n (or_introl eq_refl)).
    apply IH. intros m Hm. apply Hbefore. now right. }
  unfold find_ingress_gateway, bind, lift, raise.
  destruct (list_nodes env api network w) as [g w1]. cbn [fst].
  split.
  - intros node -> Hnode Hid.
    replace (py_truthy (PyList (map PyDict before ++ PyDict node :: after)))
      with true by (now destruct before).
    cbn [negb fst py_iter rbind].
    rewrite Hscan, scan_nodes_turn, Hnode. cbn [py_getitem].
    now rewrite Hid.
  - intros entry -> Hentry.
    replace (py_truthy (PyList (map PyDict before ++ entry :: after)))
      with true by (now destruct before).
    cbn [negb fst py_iter rbind]. rewrite Hscan.
    destruct entry; try reflexivity. now destruct (Hentry d).
Qed.

Lemma find_ingress_gateway_errors_witness :
  fst (find_ingress_gateway replay
         (NetmakerAPI_init replay "https://api.example.com" (PyStr "key") true)
         "iot"
         (replaying
            [Replied
               {| status_code := 200;
                  body := JsonContent
                    (PyList
                       [ PyDict [("id", PyStr "n1")];
                         PyDict [("name", PyStr "gw");
                                 ("isingressgateway", PyBool true)];
                         PyDict [("id", PyStr "n3");
                                 ("isingressgateway", PyBool true)] ]) |}]))
  = Raise (Fault (KeyMissing "id")).
Proof.
  destruct (find_ingress_gateway_errors replay
              (NetmakerAPI_init replay "https://api.example.com" (PyStr "key")
                 true)
              "iot"
              (replaying
                 [Replied
                    {| status_code := 200;
                       body := JsonContent
                         (PyList
                            [ PyDict [("id", PyStr "n1")];
                              PyDict [("name", PyStr "gw");
                                      ("isingressgateway", PyBool true)];
                              PyDict [("id", PyStr "n3");
                                      ("isingressgateway", PyBool true)] ])
                    |}])
              [[("id", PyStr "n1")]]
              [PyDict [("id", PyStr "n3"); ("isingressgateway", PyBool true)]])
    as [Hmissing _].
  - intros n [<- | []]. reflexivity.
  - apply (Hmissing [("name", PyStr "gw"); ("isingressgateway", PyBool true)]);
      reflexivity.
Defined.

(** ** Running again *)

Lemma holds_desired_truthy (stored : dict) (k : string) (v : pyval) :
  dict_get stored k = Some v -> py_truthy (PyDict stored) = true.
Proof. destruct stored; [discriminate|reflexivity]. Qed.

(** X21: once the remote object holds every value of the desired state of
    an invocation (it may hold more), a run for state present finds it
    equal: it reports no change, hands back the object found and sends
    nothing after the lookup, in check mode or not. *)
Theorem converged_run_changes_nothing (env : environment) (a : invocation)
    (check_mode : bool) (api : NetmakerAPI) (network : string)
    (gateway : pyval) (w : world env) (stored : dict) :
  (fst (get_network env api (arg_name a) w) = Ok (PyDict stored) ->
   (forall k v, dict_get (network_data a) k = Some v ->
                dict_get stored k = Some v) ->
   manage_network env check_mode api (arg_name a) Present (network_data a) w
   = (Ok {| changed := false; resource := PyDict stored;
            msg := "Network '" ++ arg_name a
                   ++ "' already exists with desired configuration" |},
      snd (get_network env api (arg_name a) w)))
  /\ (fst (get_extclient env api network (arg_name a) w)
      = Ok (PyDict stored) ->
      (forall k v, dict_get (client_data a) k = Some v ->
                   dict_get stored k = Some v) ->
      manage_extclient env check_mode api (arg_name a) network gateway
        Present (client_data a) w
      = (Ok {| changed := false; resource := PyDict stored;
               msg := "External client '" ++ arg_name a
                      ++ "' already exists with desired configuration" |},
         snd (get_extclient env api network (arg_name a) w))).
Proof.
  destruct (build_data_well_formed a "netid" network_params)
    as [_ Hvalues_n].
  destruct (build_data_well_formed a "clientid" extclient_params)
    as [_ Hvalues_c].
  fold (network_data a) in Hvalues_n. fold (client_data a) in Hvalues_c.
  split; intros Hget Hholds.
  - assert (Hequal : networks_equal (PyDict stored) (network_data a)
                     = Ok true).
    { apply networks_equal_loop_agree. intros f v Hf.
      split; [now apply Hholds|now apply (Hvalues_n f v)]. }
    assert (Htruthy : py_truthy (PyDict stored) = true).
    { apply (holds_desired_truthy stored "netid" (PyStr (arg_name a))).
      apply Hholds. unfold network_data.
      apply build_data_identifier.
      unfold network_params. cbn [In]. intuition discriminate. }
    unfold manage_network, bind, lift, ret.
    destruct (get_network env api (arg_name a) w) as [g w1].
    cbn [fst snd] in *. subst g. now rewrite Htruthy, Hequal.
  - assert (Hequal : extclients_equal (PyDict stored) (client_data a)
                     = Ok true).
    { apply extclients_equal_loop_agree. intros f v Hf.
      split; [now apply Hholds|now apply (Hvalues_c f v)]. }
    assert (Htruthy : py_truthy (PyDict stored) = true).
    { apply (holds_desired_truthy stored "clientid" (PyStr (arg_name a))).
      apply Hholds. unfold client_data.
      apply build_data_identifier.
      unfold extclient_params. cbn [In]. intuition discriminate. }
    unfold manage_extclient, bind, lift, ret.
    destruct (get_extclient env api network (arg_name a) w) as [g w1].
    cbn [fst snd] in *. subst g. now rewrite Htruthy, Hequal.
Qed.

Lemma converged_run_changes_nothing_witness :
  fst (manage_network replay false
         (NetmakerAPI_init replay "https://api.example.com" (PyStr "key") true)
         "net1" Present
         (network_data (net1_scenario "https://api.example.com" "key"))
         (replaying
            [Replied {| status_code := 200;
                        body := JsonContent
                          (PyDict (net1_payload
                                     ++ [("nodelimit", PyInt 999)])) |}]))
  = Ok {| changed := false;
          resource := PyDict (net1_payload ++ [("nodelimit", PyInt 999)]);
          msg := "Network 'net1' already exists with desired configuration" |}.
Proof.
  destruct (converged_run_changes_nothing replay
              (net1_scenario "https://api.example.com" "key") false
              (NetmakerAPI_init replay "https://api.example.com" (PyStr "key")
                 true)
              "" PyNone
              (replaying
                 [Replied {| status_code := 200;
                             body := JsonContent
                               (PyDict (net1_payload
                                          ++ [("nodelimit", PyInt 999)])) |}])
              (net1_payload ++ [("nodelimit", PyInt 999)])%list)
    as [Hnetwork _].
  change (arg_name (net1_scenario "https://api.example.com" "key"))
    with "net1" in Hnetwork.
  rewrite Hnetwork; [reflexivity|reflexivity|].
  intros k v.
  change (network_data (net1_scenario "https://api.example.com" "key"))
    with net1_payload.
  unfold net1_payload. cbn [dict_get app].
  repeat (destruct (String.eqb _ k); [intros H; exact H|]).
  discriminate.
Defined.
